(** * ExcelOperator: a shallow embedding of [src/excel_operator.py]

    The class [ExcelOperator] is a set of static functions over two
    collaborators: the spreadsheet library (openpyxl) and the office
    automation interface (win32com).  Both are modelled by one explicit
    world: a file store, the lines printed on standard output and the
    calls made on the automation interface.  A function of the class is
    a function from worlds to an outcome and a world.  Python strings
    are lists of code points, Python integers are [Z], Python floats are
    the binary64 floats of the kernel, and the patterns of [re] are a
    fragment of their syntax with a backtracking matcher.  What the
    application makes of a string assigned to a cell is a parameter of
    the replacement.

    The file has three parts: the embedding of the source, the
    vocabulary of the properties, and the properties.  The discovery of
    files ([get_files_in_path]) reads directories only and has a tree
    of its own for them. *)

From Stdlib Require Import ZArith String Ascii PrimFloat SpecFloat FloatOps.
From Stdlib Require Import DecimalString DecimalZ.
From stdpp Require Import gmap list sorting.

Set Warnings "-inexact-float".
Open Scope Z_scope.

(** ** Python strings *)

(** A [str] is a sequence of Unicode code points. *)
Abbreviation pystr := (list Z).

(** The code points of an ASCII literal of the source. *)
Definition codes (s : string) : pystr :=
  map (fun a => Z.of_N (N_of_ascii a)) (list_ascii_of_string s).

(** [str(n)] for a Python integer. *)
Definition str_of_int (n : Z) : pystr := codes (NilZero.string_of_int (Z.to_int n)).

(** [chr(n)]: the one-character string, [ValueError] outside
    [range(0x110000)]. *)
Definition chr (n : Z) : option Z :=
  if decide (0 <= n < 1114112) then Some n else None.

(** [s.startswith(p)] *)
Fixpoint startswith (p s : pystr) : bool :=
  match p, s with
  | [], _ => true
  | _ :: _, [] => false
  | a :: p', b :: s' => bool_decide (a = b) && startswith p' s'
  end.

(** [sub in s] *)
Fixpoint contains (sub s : pystr) : bool :=
  startswith sub s ||
  match s with
  | [] => false
  | _ :: s' => contains sub s'
  end.

(** [s.replace(old, new)] for a non-empty [old]: occurrences are taken
    from the left and do not overlap; [skip] counts the characters of the
    occurrence still to drop. *)
Fixpoint replace_scan (old new s : pystr) (skip : nat) : pystr :=
  match s with
  | [] => []
  | c :: s' =>
      match skip with
      | S k => replace_scan old new s' k
      | O =>
          if startswith old s
          then new ++ replace_scan old new s' (length old - 1)
          else c :: replace_scan old new s' 0
      end
  end.

(** [s.replace(old, new)]; an empty [old] matches before every character
    and at the end. *)
Definition replace (s old new : pystr) : pystr :=
  match old with
  | [] => new ++ flat_map (fun c => c :: new) s
  | _ :: _ => replace_scan old new s 0
  end.

(** [s.lower()] on the ASCII letters; the other code points are kept
    (none of them lower-cases to a letter of [asc] or [desc]). *)
Definition lower_char (c : Z) : Z :=
  if decide (65 <= c <= 90) then c + 32 else c.

Definition lower (s : pystr) : pystr := map lower_char s.

(** Comparison of strings as Python does it: code point by code point,
    a proper prefix first. *)
Fixpoint str_le (a b : pystr) : Prop :=
  match a, b with
  | [], _ => True
  | _ :: _, [] => False
  | x :: a', y :: b' => x < y \/ (x = y /\ str_le a' b')
  end.

Definition str_lt (a b : pystr) : Prop := str_le a b /\ a <> b.

#[global] Instance str_le_dec : RelDecision str_le.
Proof.
  intros a. induction a as [|x a IH]; intros [|y b]; simpl.
  - left; exact I.
  - left; exact I.
  - right; tauto.
  - destruct (decide (x < y)) as [|Hn]; [left; tauto|].
    destruct (decide (x = y)) as [|Hne]; [|right; tauto].
    destruct (IH b) as [|Hb]; [left; tauto | right; tauto].
Defined.

(** ** The regular expressions of Python's [re] module

    The fragment modelled: literal characters, [.], [^], [$], a backslash
    before a character that is not an ASCII letter or digit, the
    quantifiers [*], [+], [?] (greedy or lazy) on one character, and
    alternation [|].  Groups, character classes, counted repeats and
    letter or digit escapes are outside the fragment: [compile] answers
    [Outside] for them, which says nothing about Python. *)
Module Re.

Inductive atom :=
| Lit (c : Z)   (* one given character *)
| AnyChar       (* [.]: any character but a newline *)
| Bol           (* [^]: start of the string *)
| Eol.          (* [$]: end of the string, or before a last newline *)

Inductive quant :=
| One
| Opt (greedy : bool)
| Star (greedy : bool)
| Plus (greedy : bool).

Abbreviation branch := (list (atom * quant)).
(** A pattern is the list of its alternatives, in order. *)
Abbreviation pattern := (list (list (atom * quant))).

Inductive result (A : Type) :=
| Ok (a : A)
| Error         (* [re.error] *)
| Outside.      (* not in the modelled fragment *)
Arguments Ok {A} a.
Arguments Error {A}.
Arguments Outside {A}.

Definition is_alnum (c : Z) : bool :=
  bool_decide (48 <= c <= 57) || bool_decide (65 <= c <= 90)
  || bool_decide (97 <= c <= 122).

Definition is_at (a : atom) : bool :=
  match a with Bol | Eol => true | _ => false end.

Definition mk_quant (c : Z) (greedy : bool) : quant :=
  if decide (c = 42) then Star greedy
  else if decide (c = 43) then Plus greedy
  else Opt greedy.

(** The parser: [alts] holds the finished alternatives and [cur] the
    items of the current one, both most recent first. *)
Fixpoint parse (p : pystr) (alts : pattern) (cur : branch) : result pattern :=
  match p with
  | [] => Ok (reverse (reverse cur :: alts))
  | c :: p' =>
      if decide (c = 124) then parse p' (reverse cur :: alts) []
      else if decide (c = 42 \/ c = 43 \/ c = 63) then
        match cur with
        | [] => Error                                   (* nothing to repeat *)
        | (a, One) :: cur' =>
            if is_at a then Error                       (* nothing to repeat *)
            else
              match p' with
              | 63 :: p'' => parse p'' alts ((a, mk_quant c false) :: cur')
              | 43 :: _ => Outside                      (* possessive repeat *)
              | _ => parse p' alts ((a, mk_quant c true) :: cur')
              end
        | (_, _) :: _ => Error                          (* multiple repeat *)
        end
      else if decide (c = 92) then
        match p' with
        | [] => Error                                   (* bad escape *)
        | d :: p'' =>
            if is_alnum d then Outside
            else parse p'' alts ((Lit d, One) :: cur)
        end
      else if decide (c = 46) then parse p' alts ((AnyChar, One) :: cur)
      else if decide (c = 94) then parse p' alts ((Bol, One) :: cur)
      else if decide (c = 36) then parse p' alts ((Eol, One) :: cur)
      else if decide (c = 91 \/ c = 123 \/ c = 40 \/ c = 41) then Outside
      else parse p' alts ((Lit c, One) :: cur)
  end.

(** [re.compile(p)] *)
Definition compile (p : pystr) : result pattern := parse p [] [].

(** The characters [re.escape] puts a backslash before:
    ()[]{}?*+-|^$\.&~# and the ASCII white space. *)
Definition special_chars : list Z :=
  [40; 41; 91; 93; 123; 125; 63; 42; 43; 45; 124; 94; 36; 92; 46; 38; 126;
   35; 32; 9; 10; 13; 11; 12].

(** [re.escape(s)] *)
Definition escape (s : pystr) : pystr :=
  flat_map (fun c => if bool_decide (c ∈ special_chars) then [92; c] else [c]) s.

(** *** Matching, by backtracking

    A continuation receives the position reached and the text left, and
    answers the end of the whole match. *)
Abbreviation K := (nat -> pystr -> option nat).

Definition atom_char (a : atom) (c : Z) : bool :=
  match a with
  | Lit d => bool_decide (c = d)
  | AnyChar => negb (bool_decide (c = 10))
  | Bol | Eol => false
  end.

Definition match_one (a : atom) (k : K) (pos : nat) (rest : pystr) : option nat :=
  match a with
  | Bol => match pos with O => k pos rest | S _ => None end
  | Eol => if bool_decide (rest = [] \/ rest = [10]) then k pos rest else None
  | _ =>
      match rest with
      | c :: rest' => if atom_char a c then k (S pos) rest' else None
      | [] => None
      end
  end.

Fixpoint match_star (a : atom) (greedy : bool) (k : K) (pos : nat) (rest : pystr)
  : option nat :=
  if greedy then
    match
      match rest with
      | c :: rest' =>
          if atom_char a c then match_star a greedy k (S pos) rest' else None
      | [] => None
      end
    with
    | Some e => Some e
    | None => k pos rest
    end
  else
    match k pos rest with
    | Some e => Some e
    | None =>
        match rest with
        | c :: rest' =>
            if atom_char a c then match_star a greedy k (S pos) rest' else None
        | [] => None
        end
    end.

Definition match_opt (a : atom) (greedy : bool) (k : K) (pos : nat) (rest : pystr)
  : option nat :=
  if greedy then
    match match_one a k pos rest with
    | Some e => Some e
    | None => k pos rest
    end
  else
    match k pos rest with
    | Some e => Some e
    | None => match_one a k pos rest
    end.

Fixpoint match_items (its : branch) (k : K) : K :=
  match its with
  | [] => k
  | (a, q) :: its' =>
      let k' := match_items its' k in
      match q with
      | One => match_one a k'
      | Opt g => match_opt a g k'
      | Star g => match_star a g k'
      | Plus g => match_one a (match_star a g k')
      end
  end.

Fixpoint match_alts (alts : pattern) (k : K) (pos : nat) (rest : pystr)
  : option nat :=
  match alts with
  | [] => None
  | b :: alts' =>
      match match_items b k pos rest with
      | Some e => Some e
      | None => match_alts alts' k pos rest
      end
  end.

(** The last continuation: a match that must advance may not end where
    it started. *)
Definition accept (must_advance : bool) (start : nat) : K :=
  fun pos _ => if must_advance && bool_decide (pos = start) then None else Some pos.

(** The leftmost match at or after [pos]: its start and its end. *)
Fixpoint search_from (p : pattern) (pos : nat) (rest : pystr) : option (nat * nat) :=
  match match_alts p (accept false pos) pos rest with
  | Some e => Some (pos, e)
  | None =>
      match rest with
      | [] => None
      | _ :: rest' => search_from p (S pos) rest'
      end
  end.

(** [bool(p.search(text))] *)
Definition search (p : pattern) (text : pystr) : bool :=
  match search_from p 0%nat text with Some _ => true | None => false end.


(** The replacement template of [sub]: the escapes of the control
    characters and of the backslash are replaced, a backslash before
    another ASCII letter is an error, a backslash before a digit or [g]
    refers to a group and is outside the fragment. *)
Definition template_escape (c : Z) : option Z :=
  if decide (c = 97) then Some 7        (* \a *)
  else if decide (c = 98) then Some 8   (* \b *)
  else if decide (c = 102) then Some 12 (* \f *)
  else if decide (c = 110) then Some 10 (* \n *)
  else if decide (c = 114) then Some 13 (* \r *)
  else if decide (c = 116) then Some 9  (* \t *)
  else if decide (c = 118) then Some 11 (* \v *)
  else if decide (c = 92) then Some 92  (* \\ *)
  else None.

Fixpoint template (repl : pystr) : result pystr :=
  match repl with
  | [] => Ok []
  | c :: repl' =>
      if decide (c = 92) then
        match repl' with
        | [] => Error
        | d :: repl'' =>
            if bool_decide (d = 103) || bool_decide (48 <= d <= 57) then Outside
            else
              match template_escape d with
              | Some e =>
                  match template repl'' with
                  | Ok t => Ok (e :: t)
                  | r => r
                  end
              | None =>
                  if is_alnum d then Error
                  else
                    match template repl'' with
                    | Ok t => Ok (92 :: d :: t)
                    | r => r
                    end
              end
        end
      else
        match template repl' with
        | Ok t => Ok (c :: t)
        | r => r
        end
  end.

(** What [sub] does at one position that is not inside a match: the
    text it puts out there and the number of characters the match or
    matches starting there consume.  After an empty match the search is
    taken up at the same position and must advance. *)
Definition sub_at (p : pattern) (t : pystr) (pos : nat) (rest : pystr)
  : pystr * nat :=
  match match_alts p (accept false pos) pos rest with
  | None => ([], O)
  | Some e =>
      if bool_decide (e = pos) then
        match match_alts p (accept true pos) pos rest with
        | Some e' => (t ++ t, (e' - pos)%nat)
        | None => (t, O)
        end
      else (t, (e - pos)%nat)
  end.

Fixpoint sub_walk (p : pattern) (t : pystr) (pos : nat) (rest : pystr) (skip : nat)
  : pystr :=
  match skip with
  | S k =>
      match rest with
      | [] => []
      | _ :: rest' => sub_walk p t (S pos) rest' k
      end
  | O =>
      let '(out, n) := sub_at p t pos rest in
      match rest with
      | [] => out
      | c :: rest' =>
          match n with
          | O => out ++ c :: sub_walk p t (S pos) rest' O
          | S k => out ++ sub_walk p t (S pos) rest' k
          end
      end
  end.

(** [p.sub(repl, text)] *)
Definition sub (p : pattern) (repl text : pystr) : result pystr :=
  match template repl with
  | Ok t => Ok (sub_walk p t 0%nat text O)
  | Error => Error
  | Outside => Outside
  end.

End Re.

(** ** Workbooks

    What the collaborators hold: a workbook is an ordered list of sheets;
    a sheet has a rectangular range of cells, given row by row (the used
    range of the automation interface, the rows [iter_rows] goes over in
    the library), and shapes with their text. *)

(** A cell value as the automation interface hands it over: nothing, a
    string, or another scalar (a number, a boolean, a date), which is
    carried as the text [str] gives for it. *)
Inductive variant :=
| VEmpty
| VStr (s : pystr)
| VScalar (text : pystr).

(** [str(v)] *)
Definition str (v : variant) : pystr :=
  match v with
  | VEmpty => codes "None"
  | VStr s => s
  | VScalar text => text
  end.

(** [openpyxl.styles.Font] *)
Record Font := { name : option pystr; bold : bool; italic : bool }.

Record cell := { Row : Z; Column : Z; Value : variant; font : Font }.

Record shape := { shape_Name : pystr; Text : pystr }.

Record sheet := {
  Name : pystr;
  Rows : list (list cell);
  Shapes : list shape;
  RowHeight : option float;
  ColumnWidth : option float
}.

Record workbook := { Sheets : list sheet }.

(** [wb.sheetnames] *)
Definition sheetnames (wb : workbook) : list pystr := map Name (Sheets wb).

(** ** The world

    The store says what is at a path: a file with its content, or a
    vacant place, in a directory that exists, where a file can be made.
    A path that the store does not have is in no directory that exists:
    nothing can be read there and nothing made.  [writable] is the
    permission to write the file, or to make one at a vacant place. *)

Inductive content :=
| Workbook (wb : workbook)
| Csv (rows : list (list variant))   (* the rows handed to [csv.writer] *)
| Other
| Vacant.

Record file := { data : content; writable : bool }.

Inductive exn :=
| ValueError (msg : pystr)
| KeyError (key : pystr)
| AttributeError
| OverflowError
| FileNotFoundError
| BadZipFile
| PermissionError
| re_error
| com_error.

(** The calls made on the automation interface that start, change or end
    something; reading a property leaves no trace. *)
Inductive com_call :=
| Dispatch
| WorkbooksOpen (path : pystr) (ReadOnly : bool)
| SetCellValue (sheet_name : pystr) (row column : Z) (value : pystr)
| SetShapeText (sheet_name shape_name text : pystr)
| SetRowHeight (sheet_name : pystr) (height : float)
| SetColumnWidth (sheet_name : pystr) (width : float)
| Save
| Close (SaveChanges : bool)
| Quit.

(** The lines the functions print. *)
Inductive line :=
| OpeningFile (path : pystr)
| FailedToOpenFile (e : exn)
| GridOpenFailed (e : exn)
| GridSizeSet (sheet_name : pystr) (pixel_size : Z)
| GridSaveFailed (e : exn).

Record world := {
  files : gmap pystr file;
  stdout : list line;
  calls : list com_call
}.

(** How a call ends: it returns, it raises, or it left what is
    modelled: the fragment of [re], or the values the library reads. *)
Inductive outcome (A : Type) :=
| Return (a : A)
| Raise (e : exn)
| Unmodelled.
Arguments Return {A} a.
Arguments Raise {A} e.
Arguments Unmodelled {A}.

Definition M (A : Type) : Type := world -> outcome A * world.

#[global] Instance M_ret : MRet M := fun A a w => (Return a, w).

#[global] Instance M_bind : MBind M := fun A B f m w =>
  match m w with
  | (Return a, w') => f a w'
  | (Raise e, w') => (Raise e, w')
  | (Unmodelled, w') => (Unmodelled, w')
  end.

Definition raise {A} (e : exn) : M A := fun w => (Raise e, w).

Definition unmodelled {A} : M A := fun w => (Unmodelled, w).

(** [try: m except Exception as e: ...], the result handed on as a sum. *)
Definition attempt {A} (m : M A) : M (A + exn) := fun w =>
  match m w with
  | (Return a, w') => (Return (inl a), w')
  | (Raise e, w') => (Return (inr e), w')
  | (Unmodelled, w') => (Unmodelled, w')
  end.

Definition print (l : line) : M unit := fun w =>
  (Return tt, {| files := files w; stdout := stdout w ++ [l]; calls := calls w |}).

Definition call (c : com_call) : M unit := fun w =>
  (Return tt, {| files := files w; stdout := stdout w; calls := calls w ++ [c] |}).

Definition read_file (path : pystr) : M (option file) := fun w =>
  (Return (files w !! path), w).

Definition write_file (path : pystr) (f : file) : M unit := fun w =>
  (Return tt, {| files := <[path := f]> (files w); stdout := stdout w; calls := calls w |}).

Definition of_re {A} (r : Re.result A) : M A :=
  match r with
  | Re.Ok a => mret a
  | Re.Error => raise re_error
  | Re.Outside => fun w => (Unmodelled, w)
  end.

(** [for x in l: s = body(x, s)] *)
Fixpoint for_each {A S} (body : A -> S -> M S) (l : list A) (s : S) : M S :=
  match l with
  | [] => mret s
  | x :: l' => s' ← body x s; for_each body l' s'
  end.

(** A loop that also changes the objects it visits. *)
Fixpoint for_each_update {A S} (body : A -> S -> M (A * S)) (l : list A) (s : S)
  : M (list A * S) :=
  match l with
  | [] => mret ([], s)
  | x :: l' =>
      '(x', s') ← body x s;
      '(l'', s'') ← for_each_update body l' s';
      mret (x' :: l'', s'')
  end.

(** *** The spreadsheet library *)

(** What the library reads of a sheet: the cells and the sizes.  It
    reads no shapes, so that a workbook it has read, and saves, has
    none. *)
Definition read_sheet (ws : sheet) : sheet :=
  {| Name := Name ws; Rows := Rows ws; Shapes := [];
     RowHeight := RowHeight ws; ColumnWidth := ColumnWidth ws |}.

Definition read_workbook (wb : workbook) : workbook :=
  {| Sheets := map read_sheet (Sheets wb) |}.

(** [openpyxl.load_workbook(path)], for a path with an extension of a
    workbook: a file that is no workbook is no archive. *)
Definition load_workbook (path : pystr) : M workbook :=
  f ← read_file path;
  match f with
  | None | Some {| data := Vacant |} => raise FileNotFoundError
  | Some {| data := Workbook wb |} => mret (read_workbook wb)
  | Some _ => raise BadZipFile
  end.

(** Opening a file for writing: the file is made at a vacant place and
    emptied where there is one; refused where there is no place and
    where writing is not permitted. *)
Definition open_w (path : pystr) (empty : content) : M unit :=
  f ← read_file path;
  match f with
  | None => raise FileNotFoundError
  | Some {| writable := false |} => raise PermissionError
  | Some _ => write_file path {| data := empty; writable := true |}
  end.

(** [wb.save(path)] *)
Definition store (path : pystr) (c : content) : M unit :=
  f ← read_file path;
  match f with
  | None => raise FileNotFoundError
  | Some {| writable := false |} => raise PermissionError
  | Some _ => write_file path {| data := c; writable := true |}
  end.

(** The message of the [KeyError] of [wb[sheet_name]]. *)
Definition no_worksheet (sheet_name : pystr) : pystr :=
  codes "Worksheet " ++ sheet_name ++ codes " does not exist.".

(** [wb[sheet_name]] *)
Definition getitem (wb : workbook) (sheet_name : pystr) : M sheet :=
  match List.find (fun ws => bool_decide (Name ws = sheet_name)) (Sheets wb) with
  | Some ws => mret ws
  | None => raise (KeyError (no_worksheet sheet_name))
  end.

(** The value of a cell as [iter_rows(values_only=True)] gives it.  Of
    a number, a boolean or a date the model has the text that [str]
    gives under the automation interface, which is not what the library
    reads: those cells are outside. *)
Definition library_value (c : cell) : M variant :=
  match Value c with
  | VScalar _ => unmodelled
  | v => mret v
  end.

(** [csv_writer.writerow(row)] on the file opened at [path]. *)
Definition writerow (path : pystr) (row : list variant) : M unit :=
  f ← read_file path;
  match f with
  | Some {| data := Csv rows; writable := wr |} =>
      write_file path {| data := Csv (rows ++ [row]); writable := wr |}
  | _ => unmodelled
  end.

(** The sheet [wb[sheet_name]] replaced by [ws]. *)
Fixpoint put_sheet (sheet_name : pystr) (ws : sheet) (l : list sheet) : list sheet :=
  match l with
  | [] => []
  | s :: l' =>
      if bool_decide (Name s = sheet_name) then ws :: l'
      else s :: put_sheet sheet_name ws l'
  end.

(** *** The automation interface *)

(** An open workbook. *)
Record handle := { FullName : pystr; ReadOnly : bool; book : workbook }.

(** [excel.Workbooks.Open(path, ReadOnly=ro)]: it fails when there is no
    workbook at the path. *)
Definition Workbooks_Open (path : pystr) (ro : bool) : M handle :=
  call (WorkbooksOpen path ro);;
  f ← read_file path;
  match f with
  | Some {| data := Workbook wb |} =>
      mret {| FullName := path; ReadOnly := ro; book := wb |}
  | _ => raise com_error
  end.

(** Saving: the book of the handle replaces the file; refused for a
    workbook opened read-only and for a file that is not writable. *)
Definition save_book (h : handle) : M unit :=
  f ← read_file (FullName h);
  match f with
  | Some {| writable := true |} =>
      if ReadOnly h then raise com_error
      else write_file (FullName h) {| data := Workbook (book h); writable := true |}
  | _ => raise com_error
  end.

(** [wb.Save()] *)
Definition Workbook_Save (h : handle) : M unit := call Save;; save_book h.

(** [wb.Close(SaveChanges)] *)
Definition Workbook_Close (h : handle) (SaveChanges : bool) : M unit :=
  call (Close SaveChanges);;
  if SaveChanges then save_book h else mret tt.

(** [wb.Worksheets(sheet_name)] *)
Definition Worksheets (h : handle) (sheet_name : pystr) : M sheet :=
  match List.find (fun ws => bool_decide (Name ws = sheet_name)) (Sheets (book h)) with
  | Some ws => mret ws
  | None => raise com_error
  end.

(** ** The operations of [ExcelOperator] *)

(** A Python value a function hands back where the source is not of one
    type. *)
Inductive pyvalue :=
| PyNone
| PyEmptyList.

Definition invalid_order : pystr :=
  codes "Invalid value for 'order'. Must be 'asc' or 'desc'.".

Definition no_such_sheet (sheet_name : pystr) : pystr :=
  codes "Sheet '" ++ sheet_name ++ codes "' does not exist in the Excel file.".

(** [get_sheets_name] *)
Definition get_sheets_name (excel_file_path : pystr) : M (list pystr) :=
  wb ← load_workbook excel_file_path;
  mret (sheetnames wb).

(** [sorted(l, reverse=r)]: Python reverses the list before and after a
    stable ascending sort. *)
Definition sorted (l : list pystr) (reverse : bool) : list pystr :=
  if reverse then List.rev (merge_sort str_le (List.rev l)) else merge_sort str_le l.

(** [sort_sheet] *)
Definition sort_sheet (excel_file_path order : pystr) : M (list pystr) :=
  let order := lower order in
  if bool_decide (order ∈ [codes "asc"; codes "desc"]) then
    wb ← load_workbook excel_file_path;
    let sorted_sheets := sorted (sheetnames wb) (bool_decide (order = codes "desc")) in
    mret sorted_sheets
  else raise (ValueError invalid_order).

(** [convert_csv]: the file is opened, and so emptied, before the rows
    are read and written one by one. *)
Definition convert_csv (excel_file_path sheet_name csv_file_path : pystr) : M unit :=
  wb ← load_workbook excel_file_path;
  if bool_decide (sheet_name ∈ sheetnames wb) then
    ws ← getitem wb sheet_name;
    open_w csv_file_path (Csv []);;
    for_each
      (fun row _ =>
         values ← for_each (fun c vs => v ← library_value c; mret (vs ++ [v])) row [];
         writerow csv_file_path values)
      (Rows ws) tt
  else raise (ValueError (no_such_sheet sheet_name)).

Definition set_font (f : Font) (c : cell) : cell :=
  {| Row := Row c; Column := Column c; Value := Value c; font := f |}.

(** [change_font] *)
Definition change_font (excel_file_path sheet_name font_name : pystr) : M unit :=
  wb ← load_workbook excel_file_path;
  ws ← getitem wb sheet_name;
  let custom_font := {| name := Some font_name; bold := false; italic := false |} in
  let ws' := {| Name := Name ws; Rows := map (map (set_font custom_font)) (Rows ws);
                Shapes := Shapes ws; RowHeight := RowHeight ws;
                ColumnWidth := ColumnWidth ws |} in
  store excel_file_path (Workbook {| Sheets := put_sheet sheet_name ws' (Sheets wb) |}).

(** The pattern of the search and of the replacement (lines 144-150 and
    229-236): [None] without [use_regex]. *)
Definition make_pattern (search_string : pystr) (exact_match use_regex : bool)
  : M (option Re.pattern) :=
  if use_regex then
    if exact_match then
      p ← of_re (Re.compile ([94] ++ Re.escape search_string ++ [36]));
      mret (Some p)
    else
      p ← of_re (Re.compile search_string);
      mret (Some p)
  else mret None.

(** [pattern.search(text)], as a truth value. *)
Definition pattern_search (pattern : option Re.pattern) (text : pystr) : M bool :=
  match pattern with
  | Some p => mret (Re.search p text)
  | None => raise AttributeError
  end.

(** [pattern.sub(repl, text)] *)
Definition pattern_sub (pattern : option Re.pattern) (repl text : pystr) : M pystr :=
  match pattern with
  | Some p => of_re (Re.sub p repl text)
  | None => raise AttributeError
  end.

(** [chr(n)] *)
Definition py_chr (n : Z) : M Z :=
  match chr n with
  | Some c => mret c
  | None => raise (ValueError (codes "chr() arg not in range(0x110000)"))
  end.

(** The text of a cell: [str(cell.Value)], and the empty string when
    [cell.Value] is [None] (lines 159 and 245). *)
Definition cell_text (c : cell) : pystr :=
  match Value c with
  | VEmpty => []
  | v => str v
  end.

(** The label of a shape, [f"図形: {shape_name}"]. *)
Definition shape_label (shape_name : pystr) : pystr :=
  [22259; 24418; 58; 32] ++ shape_name.

Abbreviation hit := (pystr * pystr * pystr)%type.

(** Lines 162-163, 167-168 and 171-172: the record of a cell. *)
Definition append_cell (sheet_name : pystr) (c : cell) (cell_value : pystr)
    (results : list hit) : M (list hit) :=
  col_letter ← py_chr (Column c + 64);
  mret (results ++ [(sheet_name, col_letter :: str_of_int (Row c), cell_value)]).

(** The body of the loop over the cells of [search_string_in_book]. *)
Definition search_cell (sheet_name search_string : pystr) (exact_match use_regex : bool)
    (pattern : option Re.pattern) (c : cell) (results : list hit) : M (list hit) :=
  let cell_value := cell_text c in
  if use_regex then
    found ← pattern_search pattern cell_value;
    if found : bool then append_cell sheet_name c cell_value results else mret results
  else if exact_match then
    if bool_decide (cell_value = search_string)
    then append_cell sheet_name c cell_value results else mret results
  else
    if contains search_string cell_value
    then append_cell sheet_name c cell_value results else mret results.

(** The body of the loop over the shapes of [search_string_in_book]. *)
Definition search_shape (sheet_name search_string : pystr) (exact_match use_regex : bool)
    (pattern : option Re.pattern) (sh : shape) (results : list hit) : M (list hit) :=
  let shape_text := Text sh in
  let shape_name := shape_Name sh in
  let found := results ++ [(sheet_name, shape_label shape_name, shape_text)] in
  if use_regex then
    b ← pattern_search pattern shape_text;
    if b : bool then mret found else mret results
  else if exact_match then
    if bool_decide (shape_text = search_string) then mret found else mret results
  else
    if contains search_string shape_text then mret found else mret results.

Definition search_sheet (search_string : pystr) (exact_match use_regex : bool)
    (pattern : option Re.pattern) (ws : sheet) (results : list hit) : M (list hit) :=
  let sheet_name := Name ws in
  results ← for_each
    (for_each (search_cell sheet_name search_string exact_match use_regex pattern))
    (Rows ws) results;
  for_each (search_shape sheet_name search_string exact_match use_regex pattern)
    (Shapes ws) results.

(** [search_string_in_book] *)
Definition search_string_in_book (excel_file_path search_string : pystr)
    (exact_match use_regex : bool) : M (list hit) :=
  call Dispatch;;
  wb ← Workbooks_Open excel_file_path true;
  let results := [] in
  pattern ← make_pattern search_string exact_match use_regex;
  results ← for_each (search_sheet search_string exact_match use_regex pattern)
    (Sheets (book wb)) results;
  Workbook_Close wb false;;
  call Quit;;
  mret results.

Abbreviation change := (pystr * pystr * pystr * pystr)%type.

(** Lines 246-257 and 268-279: the new text of a cell or of a shape. *)
Definition new_text (search_string replace_string : pystr) (exact_match use_regex : bool)
    (pattern : option Re.pattern) (text : pystr) : M pystr :=
  if use_regex then
    found ← pattern_search pattern text;
    if found : bool then pattern_sub pattern replace_string text else mret text
  else if exact_match then
    if bool_decide (text = search_string) then mret replace_string else mret text
  else
    if contains search_string text
    then mret (replace text search_string replace_string) else mret text.

(** What a cell holds once a string was assigned to [cell.Value] is the
    reading the application makes of the string: a number, a date, a
    text, nothing, as the format of the cell and the settings have it.
    The reading is not in the source.  The replacement has it as a
    parameter: [entered sheet_name c v] is what the cell [c] of the sheet
    holds after [v] was assigned to it. *)
Abbreviation reading := (pystr -> cell -> pystr -> variant).

Section replacement.
Variable entered : reading.

(** [cell.Value = v] *)
Definition set_value (sheet_name : pystr) (c : cell) (v : pystr) : cell :=
  {| Row := Row c; Column := Column c; Value := entered sheet_name c v; font := font c |}.

(** The body of the loop over the cells of [replace_string_in_book]. *)
Definition replace_cell (sheet_name search_string replace_string : pystr)
    (exact_match use_regex : bool) (pattern : option Re.pattern)
    (c : cell) (results : list change) : M (cell * list change) :=
  let cell_value := cell_text c in
  new_value ← new_text search_string replace_string exact_match use_regex pattern
    cell_value;
  if bool_decide (new_value ≠ cell_value) then
    col_letter ← py_chr (Column c + 64);
    call (SetCellValue sheet_name (Row c) (Column c) new_value);;
    mret (set_value sheet_name c new_value,
          results ++ [(sheet_name, col_letter :: str_of_int (Row c), cell_value, new_value)])
  else mret (c, results).

(** The body of the loop over the shapes of [replace_string_in_book]. *)
Definition replace_shape (sheet_name search_string replace_string : pystr)
    (exact_match use_regex : bool) (pattern : option Re.pattern)
    (sh : shape) (results : list change) : M (shape * list change) :=
  let shape_text := Text sh in
  new_shape_text ← new_text search_string replace_string exact_match use_regex pattern
    shape_text;
  if bool_decide (new_shape_text ≠ shape_text) then
    call (SetShapeText sheet_name (shape_Name sh) new_shape_text);;
    mret ({| shape_Name := shape_Name sh; Text := new_shape_text |},
          results ++ [(sheet_name, shape_label (shape_Name sh), shape_text, new_shape_text)])
  else mret (sh, results).

Definition replace_sheet (search_string replace_string : pystr)
    (exact_match use_regex : bool) (pattern : option Re.pattern)
    (ws : sheet) (results : list change) : M (sheet * list change) :=
  let sheet_name := Name ws in
  '(rows, results) ← for_each_update
    (for_each_update
       (replace_cell sheet_name search_string replace_string exact_match use_regex pattern))
    (Rows ws) results;
  '(shapes, results) ← for_each_update
    (replace_shape sheet_name search_string replace_string exact_match use_regex pattern)
    (Shapes ws) results;
  mret ({| Name := Name ws; Rows := rows; Shapes := shapes;
           RowHeight := RowHeight ws; ColumnWidth := ColumnWidth ws |}, results).

(** [replace_string_in_book] *)
Definition replace_string_in_book (excel_file_path search_string replace_string : pystr)
    (exact_match use_regex : bool) : M (list change) :=
  print (OpeningFile excel_file_path);;
  call Dispatch;;
  opened ← attempt (Workbooks_Open excel_file_path false);
  match opened with
  | inr e => print (FailedToOpenFile e);; mret []
  | inl wb =>
      let results := [] in
      pattern ← make_pattern search_string exact_match use_regex;
      '(sheets, results) ← for_each_update
        (replace_sheet search_string replace_string exact_match use_regex pattern)
        (Sheets (book wb)) results;
      let wb := {| FullName := FullName wb; ReadOnly := ReadOnly wb;
                   book := {| Sheets := sheets |} |} in
      Workbook_Save wb;;
      Workbook_Close wb false;;
      call Quit;;
      mret results
  end.

End replacement.

(** [float(n)], as the product of an [int] and a [float] needs it. *)
Definition float_of_int (n : Z) : M float :=
  let f := SF2Prim (binary_normalize 53 1024 n 0 false) in
  if PrimFloat.is_infinity f then raise OverflowError else mret f.

(** [set_grid_size] *)
Definition set_grid_size (excel_file_path sheet_name : pystr) (pixel_size : Z)
  : M pyvalue :=
  call Dispatch;;
  opened ← attempt (Workbooks_Open excel_file_path false);
  match opened with
  | inr e => print (GridOpenFailed e);; mret PyEmptyList
  | inl wb =>
      ws ← Worksheets wb sheet_name;
      pixels ← float_of_int pixel_size;
      let row_size := PrimFloat.mul pixels 0.75 in
      let col_size := PrimFloat.mul pixels 0.14 in
      call (SetRowHeight sheet_name row_size);;
      call (SetColumnWidth sheet_name col_size);;
      let ws := {| Name := Name ws; Rows := Rows ws; Shapes := Shapes ws;
                   RowHeight := Some row_size; ColumnWidth := Some col_size |} in
      let wb := {| FullName := FullName wb; ReadOnly := ReadOnly wb;
                   book := {| Sheets := put_sheet sheet_name ws (Sheets (book wb)) |} |} in
      closed ← attempt (Workbook_Close wb true);
      match closed with
      | inl _ => print (GridSizeSet sheet_name pixel_size)
      | inr e => print (GridSaveFailed e)
      end;;
      mret PyNone
  end.

(** ** The discovery of files

    [get_files_in_path] reads directories only.  What is at the search
    path is given as a tree: a regular file, or a directory with its
    entries in the order the system lists them.  [os.path.join] depends
    on the platform and is a parameter. *)

#[warnings="-register-all"]
Inductive entry :=
| RegularFile
| Directory (children : list (pystr * entry)).

Inductive os_error :=
| NoSuchFile          (* [FileNotFoundError] *)
| NotADirectory.      (* [NotADirectoryError] *)

Definition is_dir (e : entry) : bool :=
  match e with Directory _ => true | RegularFile => false end.

(** [s.endswith(suffix)] *)
Definition endswith (s suffix : pystr) : bool :=
  startswith (reverse suffix) (reverse s).

(** [os.listdir(path)]: the names of all entries, directories too. *)
Definition listdir (at_path : option entry) : list pystr + os_error :=
  match at_path with
  | None => inr NoSuchFile
  | Some RegularFile => inr NotADirectory
  | Some (Directory children) => inl (map fst children)
  end.

Section discovery.
Variable join : pystr -> pystr -> pystr.

(** [os.walk(top)], top down: the directory with the names of its
    directories and of its other entries, then the walk of each of its
    directories.  What cannot be listed gives nothing. *)
Fixpoint walk (top : pystr) (e : entry) : list (pystr * list pystr * list pystr) :=
  match e with
  | RegularFile => []
  | Directory children =>
      (top,
       map fst (List.filter (fun c => is_dir c.2) children),
       map fst (List.filter (fun c => negb (is_dir c.2)) children))
      :: flat_map (fun c => walk (join top c.1) c.2) children
  end.

Definition os_walk (at_path : option entry) (top : pystr)
  : list (pystr * list pystr * list pystr) :=
  match at_path with
  | Some e => walk top e
  | None => []
  end.

(** The condition of the comprehension (line 32). *)
Definition is_excel_file (valid_extensions : list pystr) (f : pystr) : bool :=
  existsb (endswith f) valid_extensions && negb (startswith (codes "~$") f).

(** [get_files_in_path]; [at_path] is what the file system has at
    [search_path]. *)
Definition get_files_in_path (at_path : option entry) (search_path : pystr)
    (sub_dir_flg xlsm_flg : bool) : list pystr + os_error :=
  let valid_extensions :=
    if xlsm_flg then [codes ".xlsx"; codes ".xlsm"] else [codes ".xlsx"] in
  match
    if sub_dir_flg then inl (os_walk at_path search_path)
    else
      match listdir at_path with
      | inl names => inl [(search_path, [], names)]
      | inr e => inr e
      end
  with
  | inr e => inr e
  | inl search_method =>
      let excel_files :=
        flat_map
          (fun '(root, _, files) =>
             map (join root) (List.filter (is_excel_file valid_extensions) files))
          search_method in
      inl excel_files
  end.

End discovery.

(** * The vocabulary of the properties

    The definitions below are not in the source: they name what the
    properties speak of. *)

(** ** Worlds *)

(** The world after further calls on the automation interface. *)
Definition called (w : world) (cs : list com_call) : world :=
  {| files := files w; stdout := stdout w; calls := calls w ++ cs |}.

(** The workbook in a file, when the file is one. *)
Definition is_workbook (f : option file) : option workbook :=
  match f with
  | Some {| data := Workbook wb |} => Some wb
  | _ => None
  end.

Arguments is_workbook : simpl never.

(** A step that leaves the world as it is. *)
Definition silent {A} (m : M A) : Prop := forall w, (m w).2 = w.

(** The calls that change a cell, a shape, a sheet or the file. *)
Definition writes (c : com_call) : bool :=
  match c with
  | SetCellValue _ _ _ _ | SetShapeText _ _ _ | SetRowHeight _ _
  | SetColumnWidth _ _ | Save | Close true => true
  | Dispatch | WorkbooksOpen _ _ | Close false | Quit => false
  end.

(** ** Sheets *)

(** The column reference of the spreadsheet, for comparison: bijective
    base 26 over the letters A to Z (A, ..., Z, AA, AB, ...). *)
Fixpoint column_letters (fuel : nat) (n : Z) (acc : pystr) : pystr :=
  match fuel with
  | O => acc
  | S k =>
      if decide (n <= 0) then acc
      else column_letters k ((n - 1) / 26) (65 + (n - 1) mod 26 :: acc)
  end.

Definition column_reference (n : Z) : pystr := column_letters (Z.to_nat n) n [].

(** The last column of a sheet, XFD. *)
Definition last_column : Z := 16384.

(** The columns a sheet can have. *)
Definition valid_column (c : cell) : Prop := 1 <= Column c <= last_column.

Definition valid_columns (wb : workbook) : Prop :=
  Forall (fun ws => Forall (Forall valid_column) (Rows ws)) (Sheets wb).

(** The sheet after [set_grid_size]. *)
Definition sized (ws : sheet) (height width : float) : sheet :=
  {| Name := Name ws; Rows := Rows ws; Shapes := Shapes ws;
     RowHeight := Some height; ColumnWidth := Some width |}.

(** ** The search *)

(** The scan of an open workbook: lines 141-187. *)
Definition scan_book (ss : pystr) (em re : bool) (wb : workbook) : M (list hit) :=
  pattern ← make_pattern ss em re;
  for_each (search_sheet ss em re pattern) (Sheets wb) [].

(** The comparison without [use_regex]. *)
Definition literal_match (ss : pystr) (em : bool) (text : pystr) : bool :=
  if em then bool_decide (text = ss) else contains ss text.

(** The record of a cell and of a shape. *)
Definition cell_hit (sn : pystr) (c : cell) : hit :=
  (sn, (Column c + 64) :: str_of_int (Row c), cell_text c).

Definition shape_hit (sn : pystr) (sh : shape) : hit :=
  (sn, shape_label (shape_Name sh), Text sh).

(** The records of a sheet without [use_regex]: the matching cells row
    by row, then the matching shapes. *)
Definition literal_hits (ss : pystr) (em : bool) (ws : sheet) : list hit :=
  map (cell_hit (Name ws))
    (List.filter (fun c => literal_match ss em (cell_text c)) (concat (Rows ws)))
  ++ map (shape_hit (Name ws))
    (List.filter (fun sh => literal_match ss em (Text sh)) (Shapes ws)).

(** Every cell and every shape of a sheet, as a record. *)
Definition all_hits (ws : sheet) : list hit :=
  map (cell_hit (Name ws)) (concat (Rows ws)) ++ map (shape_hit (Name ws)) (Shapes ws).

(** The number of cells in the ranges and of shapes of a workbook. *)
Definition count_all (wb : workbook) : nat :=
  sum_list (map (fun ws => length (concat (Rows ws)) + length (Shapes ws))%nat (Sheets wb)).

(** The items of an escaped search string. *)
Definition lit (c : Z) : Re.atom * Re.quant := (Re.Lit c, Re.One).

(** The pattern that [^], the escaped search string and [$] compile to. *)
Definition exact_pattern (ss : pystr) : Re.pattern :=
  [(Re.Bol, Re.One) :: map lit ss ++ [(Re.Eol, Re.One)]].

(** ** The replacement *)

(** The new text without [use_regex]. *)
Definition literal_new (ss rs : pystr) (em : bool) (text : pystr) : pystr :=
  if em then (if bool_decide (text = ss) then rs else text)
  else (if contains ss text then replace text ss rs else text).

Section literal_replacement.
Variable entered : reading.
Variables (ss rs : pystr) (em : bool).

(** What the replacement does to one cell and to one shape: the object
    afterwards, the records and the calls it adds. *)
Definition cell_changed (c : cell) : bool :=
  bool_decide (literal_new ss rs em (cell_text c) ≠ cell_text c).

Definition cell_after (sn : pystr) (c : cell) : cell :=
  if cell_changed c then set_value entered sn c (literal_new ss rs em (cell_text c)) else c.

Definition cell_change (sn : pystr) (c : cell) : change :=
  (sn, (Column c + 64) :: str_of_int (Row c), cell_text c,
   literal_new ss rs em (cell_text c)).

Definition cell_write (sn : pystr) (c : cell) : com_call :=
  SetCellValue sn (Row c) (Column c) (literal_new ss rs em (cell_text c)).

Definition shape_changed (sh : shape) : bool :=
  bool_decide (literal_new ss rs em (Text sh) ≠ Text sh).

Definition shape_after (sh : shape) : shape :=
  if shape_changed sh
  then {| shape_Name := shape_Name sh; Text := literal_new ss rs em (Text sh) |}
  else sh.

Definition shape_change (sn : pystr) (sh : shape) : change :=
  (sn, shape_label (shape_Name sh), Text sh, literal_new ss rs em (Text sh)).

Definition shape_write (sn : pystr) (sh : shape) : com_call :=
  SetShapeText sn (shape_Name sh) (literal_new ss rs em (Text sh)).

Definition sheet_after (ws : sheet) : sheet :=
  {| Name := Name ws; Rows := map (map (cell_after (Name ws))) (Rows ws);
     Shapes := map shape_after (Shapes ws);
     RowHeight := RowHeight ws; ColumnWidth := ColumnWidth ws |}.

Definition sheet_changes (ws : sheet) : list change :=
  map (cell_change (Name ws)) (List.filter cell_changed (concat (Rows ws)))
  ++ map (shape_change (Name ws)) (List.filter shape_changed (Shapes ws)).

Definition sheet_writes (ws : sheet) : list com_call :=
  map (cell_write (Name ws)) (List.filter cell_changed (concat (Rows ws)))
  ++ map (shape_write (Name ws)) (List.filter shape_changed (Shapes ws)).

End literal_replacement.

(** ** A workbook to run the operations on *)

Definition plain : Font := {| name := None; bold := false; italic := false |}.

Definition text_cell (row column : Z) (s : string) : cell :=
  {| Row := row; Column := column; Value := VStr (codes s); font := plain |}.

Definition empty_cell (row column : Z) : cell :=
  {| Row := row; Column := column; Value := VEmpty; font := plain |}.

Definition demo_sheet1 : sheet :=
  {| Name := codes "Sheet1";
     Rows := [[text_cell 1 1 "foobar"; text_cell 1 2 "xyz"];
              [text_cell 2 1 "abcxyz"; text_cell 2 2 "abc"]];
     Shapes := [{| shape_Name := codes "Box 1"; Text := codes "a foo" |}];
     RowHeight := None; ColumnWidth := None |}.

Definition demo_data : sheet :=
  {| Name := codes "data";
     Rows := [[empty_cell 1 1; {| Row := 1; Column := 2; Value := VScalar (codes "12.0");
                                   font := plain |}]];
     Shapes := []; RowHeight := None; ColumnWidth := None |}.

Definition demo_alpha : sheet :=
  {| Name := codes "Alpha"; Rows := []; Shapes := [];
     RowHeight := None; ColumnWidth := None |}.

Definition demo_book : workbook := {| Sheets := [demo_sheet1; demo_data; demo_alpha] |}.

Definition demo_path : pystr := codes "C:\book.xlsx".

Definition demo_world : world :=
  {| files := {[ demo_path := {| data := Workbook demo_book; writable := true |} ]};
     stdout := []; calls := [] |}.

(** A path with no file. *)
Definition missing_path : pystr := codes "C:\missing.xlsx".

(** ** The discovery of files *)

(** A name the discovery takes: it ends in [.xlsx], or in [.xlsm] when
    those are asked for, and does not start with [~$]. *)
Definition excel_name (xlsm_flg : bool) (f : pystr) : Prop :=
  ((exists pre, f = pre ++ codes ".xlsx") \/
   (xlsm_flg = true /\ exists pre, f = pre ++ codes ".xlsm")) /\
  ~ (exists post, f = codes "~$" ++ post).

(** [file_in join top e root f]: in the tree [e] at the path [top], the
    directory at the path [root] has the entry [f], which is no
    directory. *)
Inductive file_in (join : pystr -> pystr -> pystr)
  : pystr -> entry -> pystr -> pystr -> Prop :=
| file_here top children f :
    (f, RegularFile) ∈ children ->
    file_in join top (Directory children) top f
| file_below top children d sub root f :
    (d, sub) ∈ children ->
    file_in join (join top d) sub root f ->
    file_in join top (Directory children) root f.

(** Backslash between the directory and the name. *)
Definition join_backslash (root f : pystr) : pystr := root ++ [92] ++ f.

Definition demo_tree : entry :=
  Directory
    [(codes "a.xlsx", RegularFile); (codes "~$a.xlsx", RegularFile);
     (codes "b.xlsm", RegularFile); (codes "c.txt", RegularFile);
     (codes "d.xlsx", Directory [(codes "g.xlsx", RegularFile)]);
     (codes "sub", Directory [(codes "e.xlsx", RegularFile);
                              (codes "deep", Directory [(codes "f.xlsm", RegularFile)])])].

(** ** The library operations *)

(** The font [change_font] makes, and a sheet with it on every cell. *)
Definition named_font (font_name : pystr) : Font :=
  {| name := Some font_name; bold := false; italic := false |}.

Definition fonted (f : Font) (ws : sheet) : sheet :=
  {| Name := Name ws; Rows := map (map (set_font f)) (Rows ws);
     Shapes := Shapes ws; RowHeight := RowHeight ws; ColumnWidth := ColumnWidth ws |}.

(** The sheet [wb[sheet_name]], when there is one. *)
Definition find_sheet (sheet_name : pystr) (l : list sheet) : option sheet :=
  List.find (fun ws => bool_decide (Name ws = sheet_name)) l.

(** A path that can be opened for writing: a file, or a vacant place,
    with the permission to write. *)
Definition can_write (f : option file) : bool :=
  match f with
  | Some {| writable := true |} => true
  | _ => false
  end.

(** A cell that holds a text or nothing. *)
Definition textual (c : cell) : Prop :=
  match Value c with
  | VScalar _ => False
  | _ => True
  end.

(** A reading for the examples: nothing for the empty string; a number
    for a decimal numeral of at most fifteen digits that does not start
    with a zero, which reads back as a float does ([5] as [5.0]); the
    text itself for every other string. *)
Definition numeral (v : pystr) : bool :=
  match v with
  | [] => false
  | d :: _ =>
      bool_decide (d ≠ 48) && bool_decide (length v <= 15)%nat
      && forallb (fun c => bool_decide (48 <= c <= 57)) v
  end.

Definition sample_reading : reading := fun _ _ v =>
  match v with
  | [] => VEmpty
  | _ => if numeral v then VScalar (v ++ codes ".0") else VStr v
  end.

(** A string that every cell reads back as it was assigned. *)
Definition kept_as_text (entered : reading) (v : pystr) : Prop :=
  forall sn c, cell_text (set_value entered sn c v) = v.

(** The sample store with a place for a CSV file next to the workbook. *)
Definition export_path : pystr := codes "C:\out.csv".

Definition export_world : world :=
  {| files := <[export_path := {| data := Vacant; writable := true |}]> (files demo_world);
     stdout := []; calls := [] |}.

(** A record of the replacement without its new text: the record the
    search makes of the same cell or shape. *)
Definition forget_new (c : change) : hit := (c.1.1.1, c.1.1.2, c.1.2).

(** A step that only makes calls on the automation interface. *)
Definition only_calls {A} (m : M A) : Prop := forall w, exists cs, (m w).2 = called w cs.

(** The records of a sheet for a test on the texts: the cells it takes,
    row by row, then the shapes it takes. *)
Definition hits_by (f : pystr -> bool) (ws : sheet) : list hit :=
  map (cell_hit (Name ws)) (List.filter (fun c => f (cell_text c)) (concat (Rows ws)))
  ++ map (shape_hit (Name ws)) (List.filter (fun sh => f (Text sh)) (Shapes ws)).

(** No text of the workbook is the given one. *)
Definition no_text (text : pystr) (wb : workbook) : Prop :=
  Forall (fun ws => Forall (Forall (fun c => cell_text c <> text)) (Rows ws) /\
                    Forall (fun sh => Text sh <> text) (Shapes ws)) (Sheets wb).

(** The sample workbook in a file that cannot be written. *)
Definition locked_world : world :=
  {| files := {[ demo_path := {| data := Workbook demo_book; writable := false |} ]};
     stdout := []; calls := [] |}.

(** A record of the replacement without its old text: the record that a
    search gives for the object once it holds the new text. *)
Definition forget_old (c : change) : hit := (c.1.1.1, c.1.1.2, c.2).

(** The objects of a workbook can be told apart: no two sheets have the
    same name, and within a sheet no two cells of the range have the
    same position and no two shapes the same name. *)
Definition distinct_objects (wb : workbook) : Prop :=
  NoDup (sheetnames wb) /\
  Forall (fun ws => NoDup (map (fun c => (Row c, Column c)) (concat (Rows ws))) /\
                    NoDup (map shape_Name (Shapes ws))) (Sheets wb).

(** A workbook with cells in the columns Z and AA. *)
Definition wide_book : workbook :=
  {| Sheets := [{| Name := codes "Wide";
                   Rows := [[text_cell 3 26 "x"; text_cell 3 27 "x"]];
                   Shapes := []; RowHeight := None; ColumnWidth := None |}] |}.

Definition wide_world : world :=
  {| files := {[ demo_path := {| data := Workbook wide_book; writable := true |} ]};
     stdout := []; calls := [] |}.

(** * Properties *)

(** ** The order on strings *)

#[global] Instance str_le_trans : Transitive str_le.
Proof.
  intros a. induction a as [|x a IH]; intros [|y b] [|z c]; simpl; try tauto.
  intros [Hxy|[-> Hab]] [Hyz|[-> Hbc]]; [left; lia | left; lia | left; lia |].
  right. split; [reflexivity | eapply IH; eassumption].
Qed.

#[global] Instance str_le_total : Total str_le.
Proof.
  intros a. induction a as [|x a IH]; intros [|y b]; simpl; try tauto.
  destruct (Z.lt_total x y) as [?|[->|?]]; [tauto | | tauto].
  destruct (IH b); tauto.
Qed.

#[global] Instance str_le_antisymm : AntiSymm (=) str_le.
Proof.
  intros a. induction a as [|x a IH]; intros [|y b]; simpl; try tauto.
  intros [?|[? Hab]] [?|[? Hba]]; try lia.
  subst. f_equal. apply IH; assumption.
Qed.

Lemma StronglySorted_strict {A} (R : relation A) (l : list A) :
  StronglySorted R l -> NoDup l -> StronglySorted (fun a b => R a b /\ a <> b) l.
Proof.
  induction 1 as [|x l Hl IH Hx]; intros Hnd; constructor.
  - apply IH. by apply NoDup_cons_1_2 in Hnd.
  - apply NoDup_cons in Hnd as [Hx' _].
    rewrite Forall_forall in *. intros y Hy. split; [by apply Hx|].
    intros ->. contradiction.
Qed.

Lemma StronglySorted_mono {A} (R R' : relation A) (l : list A) :
  (forall a b, R a b -> R' a b) -> StronglySorted R l -> StronglySorted R' l.
Proof.
  intros HR. induction 1 as [|x l Hl IH Hx]; constructor; [assumption|].
  eapply Forall_impl; [exact Hx | auto].
Qed.

Lemma StronglySorted_rev_flip {A} (R : relation A) (l : list A) :
  StronglySorted R l -> StronglySorted (flip R) (List.rev l).
Proof.
  induction 1 as [|x l Hl IH Hx]; simpl; [constructor|].
  apply StronglySorted_app_2; [| assumption | repeat constructor].
  intros y z Hy Hz. apply list_elem_of_singleton in Hz as ->.
  rewrite Forall_forall in Hx. apply Hx.
  apply list_elem_of_In. apply list_elem_of_In in Hy. by apply in_rev.
Qed.

(** [sorted] gives a permutation, in order; without duplicates the order
    is strict. *)
Lemma sorted_Permutation (l : list pystr) (reverse : bool) : sorted l reverse ≡ₚ l.
Proof.
  unfold sorted. destruct reverse.
  - rewrite <- Permutation_rev, merge_sort_Permutation. symmetry. apply Permutation_rev.
  - apply merge_sort_Permutation.
Qed.

Lemma sorted_ascending (l : list pystr) :
  NoDup l -> StronglySorted str_lt (sorted l false).
Proof.
  intros Hnd. apply (StronglySorted_strict str_le).
  - apply StronglySorted_merge_sort; apply _.
  - by rewrite (sorted_Permutation l false).
Qed.

Lemma sorted_descending (l : list pystr) :
  NoDup l -> StronglySorted (flip str_lt) (sorted l true).
Proof.
  intros Hnd.
  assert (StronglySorted (fun a b => flip str_le a b /\ a <> b) (sorted l true)) as H.
  { apply StronglySorted_strict; [| by rewrite (sorted_Permutation l true)].
    apply StronglySorted_rev_flip, StronglySorted_merge_sort; apply _. }
  eapply StronglySorted_mono; [| exact H].
  intros a b [Hab Hne]. split; [exact Hab | congruence].
Qed.

(** ** Running the monad *)

Lemma bind_run {A B} (m : M A) (f : A -> M B) (w : world) :
  (m ≫= f) w =
  match m w with
  | (Return a, w') => f a w'
  | (Raise e, w') => (Raise e, w')
  | (Unmodelled, w') => (Unmodelled, w')
  end.
Proof. reflexivity. Qed.

Lemma ret_run {A} (a : A) (w : world) : mret (M := M) a w = (Return a, w).
Proof. reflexivity. Qed.

Lemma load_workbook_run (path : pystr) (w : world) :
  load_workbook path w =
  match files w !! path with
  | None | Some {| data := Vacant |} => (Raise FileNotFoundError, w)
  | Some {| data := Workbook wb |} => (Return (read_workbook wb), w)
  | Some _ => (Raise BadZipFile, w)
  end.
Proof.
  unfold load_workbook, read_file. rewrite bind_run.
  destruct (files w !! path) as [[[] ?]|]; reflexivity.
Qed.

Lemma sheetnames_read_workbook (wb : workbook) :
  sheetnames (read_workbook wb) = sheetnames wb.
Proof. unfold sheetnames, read_workbook. cbn [Sheets]. by rewrite map_map. Qed.

(** One step of a run: the binds and returns at the head are taken. *)
Ltac run := repeat (rewrite ?bind_run, ?ret_run; simpl).

(** ** Sorting the sheets (C5) *)

Lemma sort_sheet_run (path order : pystr) (w : world) :
  sort_sheet path order w =
  if bool_decide (lower order ∈ [codes "asc"; codes "desc"]) then
    match load_workbook path w with
    | (Return wb, w') =>
        (Return (sorted (sheetnames wb) (bool_decide (lower order = codes "desc"))), w')
    | (Raise e, w') => (Raise e, w')
    | (Unmodelled, w') => (Unmodelled, w')
    end
  else (Raise (ValueError invalid_order), w).
Proof.
  unfold sort_sheet. case_bool_decide; [|reflexivity].
  rewrite bind_run. destruct (load_workbook path w) as [[]]; reflexivity.
Qed.

(** C5, as stated, fails: the order [ASC] is neither [asc] nor [desc],
    and [sort_sheet] takes it and sorts ascending. *)
Lemma sort_sheet_upper_case_order :
  codes "ASC" <> codes "asc" /\ codes "ASC" <> codes "desc" /\
  sort_sheet demo_path (codes "ASC") demo_world =
    (Return [codes "Alpha"; codes "Sheet1"; codes "data"], demo_world).
Proof. split; [discriminate|]. split; [discriminate|]. vm_compute. reflexivity. Qed.

(** C5, amended: the order is lower-cased first.  When the lower-cased
    order is neither [asc] nor [desc], [sort_sheet] raises [ValueError]
    and leaves the world as it is, whatever the file.  Otherwise, on a
    workbook (whose sheet names are distinct) it returns a permutation of
    the sheet names, strictly ascending for [asc] and strictly descending
    for [desc], in the order of the code points. *)
Theorem sort_sheet_spec (path order : pystr) (w : world) :
  (lower order <> codes "asc" -> lower order <> codes "desc" ->
   sort_sheet path order w = (Raise (ValueError invalid_order), w)) /\
  (forall wb wr,
     files w !! path = Some {| data := Workbook wb; writable := wr |} ->
     NoDup (sheetnames wb) ->
     (lower order = codes "asc" ->
      exists l, sort_sheet path order w = (Return l, w) /\
                l ≡ₚ sheetnames wb /\ StronglySorted str_lt l) /\
     (lower order = codes "desc" ->
      exists l, sort_sheet path order w = (Return l, w) /\
                l ≡ₚ sheetnames wb /\ StronglySorted (flip str_lt) l)).
Proof.
  rewrite sort_sheet_run. split.
  - intros Ha Hd. rewrite bool_decide_eq_false_2; [reflexivity|].
    rewrite !elem_of_cons, elem_of_nil. tauto.
  - intros wb wr Hf Hnd. rewrite load_workbook_run, Hf, sheetnames_read_workbook.
    split; intros ->.
    + exists (sorted (sheetnames wb) false). split; [reflexivity|].
      split; [apply sorted_Permutation | by apply sorted_ascending].
    + exists (sorted (sheetnames wb) true). split; [reflexivity|].
      split; [apply sorted_Permutation | by apply sorted_descending].
Qed.

Lemma sort_sheet_spec_witness :
  exists l, sort_sheet demo_path (codes "Desc") demo_world = (Return l, demo_world) /\
            l ≡ₚ sheetnames demo_book /\ StronglySorted (flip str_lt) l.
Proof.
  destruct (sort_sheet_spec demo_path (codes "Desc") demo_world) as [_ H].
  destruct (H demo_book true) as [_ Hd].
  - vm_compute. reflexivity.
  - apply (bool_decide_unpack _). vm_compute. exact I.
  - apply Hd. vm_compute. reflexivity.
Defined.

(** ** The label of a cell (C6) *)

Lemma column_letters_length (fuel : nat) (n : Z) (acc : pystr) :
  (length acc <= length (column_letters fuel n acc))%nat.
Proof.
  revert n acc. induction fuel as [|k IH]; intros n acc; simpl; [lia|].
  destruct (decide (n <= 0)); [lia|].
  etransitivity; [|apply IH]. simpl. lia.
Qed.

Lemma column_reference_letter (n : Z) :
  1 <= n <= 26 -> column_reference n = [n + 64].
Proof.
  intros Hn. unfold column_reference.
  destruct (Z.to_nat n) as [|k] eqn:Hk; [lia|]. simpl.
  destruct (decide (n <= 0)); [lia|].
  rewrite Z.div_small, Z.mod_small by lia.
  replace (65 + (n - 1)) with (n + 64) by lia.
  destruct k; [reflexivity|]. simpl. reflexivity.
Qed.

Lemma column_reference_long (n : Z) :
  26 < n -> (2 <= length (column_reference n))%nat.
Proof.
  intros Hn. unfold column_reference.
  destruct (Z.to_nat n) as [|[|k]] eqn:Hk; [lia..|]. simpl.
  destruct (decide (n <= 0)); [lia|].
  assert (1 <= (n - 1) / 26) by (apply Z.div_le_lower_bound; lia).
  destruct (decide ((n - 1) / 26 <= 0)); [lia|].
  etransitivity; [|apply column_letters_length]. simpl. lia.
Qed.

Lemma py_chr_run (n : Z) (w : world) :
  0 <= n < 1114112 -> py_chr n w = (Return n, w).
Proof. intros Hn. unfold py_chr, chr. rewrite decide_True by assumption. reflexivity. Qed.

Lemma append_cell_run (sheet_name : pystr) (c : cell) (v : pystr) (results : list hit)
    (w : world) :
  valid_column c ->
  append_cell sheet_name c v results w =
    (Return (results ++ [(sheet_name, (Column c + 64) :: str_of_int (Row c), v)]), w).
Proof.
  intros Hc. unfold append_cell, valid_column, last_column in *.
  rewrite bind_run, py_chr_run by lia. reflexivity.
Qed.

(** The texts [new_text] computes leave the world as it is. *)
Lemma pattern_search_world p text w : (pattern_search p text w).2 = w.
Proof. destruct p; reflexivity. Qed.

Lemma of_re_world {A} (r : Re.result A) w : (of_re r w).2 = w.
Proof. destruct r; reflexivity. Qed.

Lemma new_text_world ss rs em re p text w : (new_text ss rs em re p text w).2 = w.
Proof.
  unfold new_text. destruct re.
  - rewrite bind_run. destruct p as [p|]; simpl; [|reflexivity].
    destruct (Re.search p text); [apply of_re_world | reflexivity].
  - destruct em; [case_bool_decide | destruct (contains ss text)]; reflexivity.
Qed.

Lemma replace_cell_run (entered : reading) sheet_name ss rs em re p (c : cell)
    (results : list change) (new_value : pystr) (w : world) :
  valid_column c ->
  (new_text ss rs em re p (cell_text c) w).1 = Return new_value ->
  replace_cell entered sheet_name ss rs em re p c results w =
    if bool_decide (new_value ≠ cell_text c) then
      (Return (set_value entered sheet_name c new_value,
               results ++ [(sheet_name, (Column c + 64) :: str_of_int (Row c),
                            cell_text c, new_value)]),
       {| files := files w; stdout := stdout w;
          calls := calls w ++ [SetCellValue sheet_name (Row c) (Column c) new_value] |})
    else (Return (c, results), w).
Proof.
  intros Hc Hnew. unfold replace_cell, valid_column, last_column in *. rewrite bind_run.
  pose proof (new_text_world ss rs em re p (cell_text c) w) as Hw.
  destruct (new_text ss rs em re p (cell_text c) w) as [o w']. simpl in *. subst.
  case_bool_decide; [|reflexivity].
  rewrite bind_run, py_chr_run by lia. reflexivity.
Qed.

(** ** Opening and closing on the automation interface *)

Lemma Workbooks_Open_run (path : pystr) (ro : bool) (w : world) :
  Workbooks_Open path ro w =
  match is_workbook (files w !! path) with
  | Some wb => (Return {| FullName := path; ReadOnly := ro; book := wb |},
                called w [WorkbooksOpen path ro])
  | None => (Raise com_error, called w [WorkbooksOpen path ro])
  end.
Proof.
  unfold Workbooks_Open, call, read_file, called. rewrite !bind_run. simpl.
  destruct (files w !! path) as [[[] ?]|]; reflexivity.
Qed.

Lemma called_app (w : world) (cs cs' : list com_call) :
  called (called w cs) cs' = called w (cs ++ cs').
Proof. unfold called. simpl. by rewrite <- app_assoc. Qed.

(** ** The size of the grid (C7) *)

Lemma set_grid_size_run (path sheet_name : pystr) (pixel_size : Z) (w : world)
    (wb : workbook) (ws : sheet) (pixels : float) :
  files w !! path = Some {| data := Workbook wb; writable := true |} ->
  List.find (fun s => bool_decide (Name s = sheet_name)) (Sheets wb) = Some ws ->
  float_of_int pixel_size w = (Return pixels, w) ->
  set_grid_size path sheet_name pixel_size w =
    (Return PyNone,
     {| files := <[path := {| data := Workbook {| Sheets :=
                    put_sheet sheet_name
                      (sized ws (PrimFloat.mul pixels 0.75) (PrimFloat.mul pixels 0.14))
                      (Sheets wb) |};
                  writable := true |}]> (files w);
        stdout := stdout w ++ [GridSizeSet sheet_name pixel_size];
        calls := calls w ++ [Dispatch; WorkbooksOpen path false;
                             SetRowHeight sheet_name (PrimFloat.mul pixels 0.75);
                             SetColumnWidth sheet_name (PrimFloat.mul pixels 0.14);
                             Close true] |}).
Proof.
  intros Hf Hs Hp. unfold set_grid_size.
  assert (forall w0, float_of_int pixel_size w0 = (Return pixels, w0)) as Hp'.
  { intros w0. unfold float_of_int in *.
    destruct (is_infinity _); [discriminate|].
    injection Hp as <-. reflexivity. }
  rewrite bind_run. simpl. rewrite bind_run. unfold attempt.
  rewrite Workbooks_Open_run. simpl. rewrite Hf. simpl.
  rewrite bind_run. unfold Worksheets. simpl. rewrite Hs. rewrite ret_run.
  rewrite bind_run, Hp'.
  unfold Workbook_Close, save_book, read_file, write_file, call, print.
  repeat (rewrite ?bind_run, ?ret_run; simpl). rewrite Hf.
  repeat (rewrite ?bind_run, ?ret_run; simpl).
  rewrite <- !app_assoc. reflexivity.
Qed.

(** C7, as stated, fails on the column width: for 20 pixels the code
    sets 20 * 0.14 in binary64, which is 2.8000000000000003 and not
    2.8. *)
Lemma set_grid_size_20_column_width :
  exists w',
    set_grid_size demo_path (codes "Sheet1") 20 demo_world = (Return PyNone, w') /\
    calls w' = [Dispatch; WorkbooksOpen demo_path false;
                SetRowHeight (codes "Sheet1") 15;
                SetColumnWidth (codes "Sheet1") 0x1.6666666666667p+1;
                Close true] /\
    PrimFloat.eqb 0x1.6666666666667p+1 2.8 = false.
Proof. eexists. split; [vm_compute; reflexivity|]. split; vm_compute; reflexivity. Qed.

(** C7, amended: on a writable workbook with the sheet, and a pixel size
    that converts to a float, [set_grid_size] sets the row height of the
    sheet to the binary64 product of the pixel size and 0.75 and its
    column width to the binary64 product of the pixel size and 0.14, for
    all cells of the sheet at once, and saves; for 20 pixels the row
    height is 15.0 and the column width is 2.8000000000000003, the
    float next above 2.8. *)
Theorem set_grid_size_spec (path sheet_name : pystr) (pixel_size : Z) (w : world)
    (wb : workbook) (ws : sheet) (pixels : float) :
  files w !! path = Some {| data := Workbook wb; writable := true |} ->
  List.find (fun s => bool_decide (Name s = sheet_name)) (Sheets wb) = Some ws ->
  float_of_int pixel_size w = (Return pixels, w) ->
  let height := PrimFloat.mul pixels 0.75 in
  let width := PrimFloat.mul pixels 0.14 in
  exists w',
    set_grid_size path sheet_name pixel_size w = (Return PyNone, w') /\
    calls w' = calls w ++ [Dispatch; WorkbooksOpen path false;
                           SetRowHeight sheet_name height;
                           SetColumnWidth sheet_name width; Close true] /\
    files w' !! path =
      Some {| data := Workbook {| Sheets :=
                put_sheet sheet_name (sized ws height width) (Sheets wb) |};
              writable := true |} /\
    (pixel_size = 20 ->
     height = 15%float /\ width = 0x1.6666666666667p+1%float /\
     PrimFloat.ltb 2.8 width = true /\ PrimFloat.next_up 2.8 = width).
Proof.
  intros Hf Hs Hp height width. eexists. split; [by eapply set_grid_size_run|].
  simpl. split; [reflexivity|]. split; [apply lookup_insert_eq|].
  intros ->. subst height width. vm_compute in Hp. injection Hp as <-.
  vm_compute. auto.
Qed.

Lemma set_grid_size_spec_witness :
  exists w',
    set_grid_size demo_path (codes "Sheet1") 20 demo_world = (Return PyNone, w') /\
    files w' !! demo_path =
      Some {| data := Workbook {| Sheets :=
                [sized demo_sheet1 15 0x1.6666666666667p+1; demo_data; demo_alpha] |};
              writable := true |}.
Proof.
  destruct (set_grid_size_spec demo_path (codes "Sheet1") 20 demo_world demo_book
              demo_sheet1 20%float) as (w' & Hrun & _ & Hfile & _).
  - vm_compute. reflexivity.
  - vm_compute. reflexivity.
  - vm_compute. reflexivity.
  - exists w'. split; [exact Hrun|]. rewrite Hfile. vm_compute. reflexivity.
Defined.

(** ** A file that cannot be opened (C2) *)

Lemma replace_string_in_book_open_failure (entered : reading) (path ss rs : pystr)
    (em re : bool) (w : world) :
  is_workbook (files w !! path) = None ->
  replace_string_in_book entered path ss rs em re w =
    (Return [],
     {| files := files w;
        stdout := stdout w ++ [OpeningFile path; FailedToOpenFile com_error];
        calls := calls w ++ [Dispatch; WorkbooksOpen path false] |}).
Proof.
  intros Hf. unfold replace_string_in_book, attempt, print, call.
  run. rewrite Workbooks_Open_run. simpl. rewrite Hf. run.
  unfold called. simpl. rewrite <- ?app_assoc. reflexivity.
Qed.

Lemma set_grid_size_open_failure (path sheet_name : pystr) (pixel_size : Z) (w : world) :
  is_workbook (files w !! path) = None ->
  set_grid_size path sheet_name pixel_size w =
    (Return PyEmptyList,
     {| files := files w;
        stdout := stdout w ++ [GridOpenFailed com_error];
        calls := calls w ++ [Dispatch; WorkbooksOpen path false] |}).
Proof.
  intros Hf. unfold set_grid_size, attempt, print, call.
  run. rewrite Workbooks_Open_run. simpl. rewrite Hf. run.
  unfold called. simpl. rewrite <- ?app_assoc. reflexivity.
Qed.

Lemma load_workbook_failure (path : pystr) (w : world) :
  is_workbook (files w !! path) = None ->
  exists e, load_workbook path w = (Raise e, w).
Proof.
  intros Hf. rewrite load_workbook_run.
  destruct (files w !! path) as [[[] ?]|]; unfold is_workbook in Hf; try discriminate; eauto.
Qed.

Lemma set_grid_size_opened (path sheet_name : pystr) (pixel_size : Z) (w : world)
    (wb : workbook) :
  is_workbook (files w !! path) = Some wb ->
  (set_grid_size path sheet_name pixel_size w).1 <> Return PyEmptyList.
Proof.
  intros Hf. unfold set_grid_size, attempt, call.
  run. rewrite Workbooks_Open_run. simpl. rewrite Hf. run.
  unfold Worksheets. simpl.
  destruct (List.find _ (Sheets wb)) as [ws|]; run; [|discriminate].
  unfold float_of_int. destruct (is_infinity _); run; [discriminate|].
  unfold Workbook_Close, call. run.
  destruct (save_book _ _) as [[[]|e|] w']; run; unfold print; run; discriminate.
Qed.

(** ** A sheet that does not exist (C10) *)

Lemma find_sheet_none (sheet_name : pystr) (l : list sheet) :
  sheet_name ∉ map Name l ->
  List.find (fun ws => bool_decide (Name ws = sheet_name)) l = None.
Proof.
  induction l as [|s l IH]; simpl; [reflexivity|].
  rewrite not_elem_of_cons. intros [Hne Hl].
  rewrite bool_decide_eq_false_2 by congruence. by apply IH.
Qed.

(** C10: for a sheet name that the workbook does not have, [change_font]
    raises the [KeyError] of the sheet lookup, with the message of the
    library, and the world, so the file of the workbook, is as before:
    no cell was changed and nothing was saved.  [convert_csv] raises the
    [ValueError] of its own check, whatever is at the CSV path. *)
Theorem change_font_missing_sheet (path sheet_name font_name csv_path : pystr)
    (w : world) (wb : workbook) (wr : bool) :
  files w !! path = Some {| data := Workbook wb; writable := wr |} ->
  sheet_name ∉ sheetnames wb ->
  change_font path sheet_name font_name w =
    (Raise (KeyError (no_worksheet sheet_name)), w) /\
  convert_csv path sheet_name csv_path w =
    (Raise (ValueError (no_such_sheet sheet_name)), w).
Proof.
  intros Hf Hs. rewrite <- sheetnames_read_workbook in Hs. unfold change_font, convert_csv.
  rewrite !bind_run, load_workbook_run, Hf. split.
  - rewrite bind_run. unfold getitem. rewrite find_sheet_none by exact Hs. reflexivity.
  - rewrite bool_decide_eq_false_2 by exact Hs. reflexivity.
Qed.

Lemma change_font_missing_sheet_witness :
  change_font demo_path (codes "Sheet9") (codes "Meiryo UI") demo_world =
    (Raise (KeyError (codes "Worksheet Sheet9 does not exist.")), demo_world) /\
  convert_csv demo_path (codes "Sheet9") (codes "C:\out.csv") demo_world =
    (Raise (ValueError (no_such_sheet (codes "Sheet9"))), demo_world).
Proof.
  apply (change_font_missing_sheet demo_path (codes "Sheet9") (codes "Meiryo UI")
           (codes "C:\out.csv") demo_world demo_book true).
  - vm_compute. reflexivity.
  - apply (bool_decide_unpack _). vm_compute. exact I.
Defined.

(** ** Steps that leave the world as it is *)

Lemma silent_ret {A} (a : A) : silent (mret a).
Proof. intros w. reflexivity. Qed.

Lemma silent_bind {A B} (m : M A) (f : A -> M B) :
  silent m -> (forall a, silent (f a)) -> silent (m ≫= f).
Proof.
  intros Hm Hf w. rewrite bind_run. specialize (Hm w).
  destruct (m w) as [[a|e|] w']; simpl in *; subst; [apply Hf | reflexivity..].
Qed.

Lemma silent_for_each {A S} (body : A -> S -> M S) (l : list A) :
  (forall x s, silent (body x s)) -> forall s, silent (for_each body l s).
Proof.
  intros Hb. induction l as [|x l IH]; intros s; simpl.
  - apply silent_ret.
  - apply silent_bind; [apply Hb | apply IH].
Qed.

Lemma silent_of_re {A} (r : Re.result A) : silent (of_re r).
Proof. intros w. apply of_re_world. Qed.

Lemma silent_py_chr (n : Z) : silent (py_chr n).
Proof. intros w. unfold py_chr. destruct (chr n); reflexivity. Qed.

Lemma silent_pattern_search p text : silent (pattern_search p text).
Proof. intros w. apply pattern_search_world. Qed.

Lemma silent_make_pattern ss em re : silent (make_pattern ss em re).
Proof.
  unfold make_pattern. destruct re; [destruct em|];
    auto using silent_ret, silent_bind, silent_of_re.
Qed.

Lemma silent_append_cell sn c v rs : silent (append_cell sn c v rs).
Proof. apply silent_bind; [apply silent_py_chr | intros; apply silent_ret]. Qed.

Lemma silent_search_cell sn ss em re p c rs : silent (search_cell sn ss em re p c rs).
Proof.
  unfold search_cell. destruct re; [|destruct em].
  - apply silent_bind; [apply silent_pattern_search|].
    intros []; [apply silent_append_cell | apply silent_ret].
  - case_bool_decide; [apply silent_append_cell | apply silent_ret].
  - destruct (contains _ _); [apply silent_append_cell | apply silent_ret].
Qed.

Lemma silent_search_shape sn ss em re p sh rs : silent (search_shape sn ss em re p sh rs).
Proof.
  unfold search_shape. destruct re; [|destruct em].
  - apply silent_bind; [apply silent_pattern_search|].
    intros []; apply silent_ret.
  - case_bool_decide; apply silent_ret.
  - destruct (contains _ _); apply silent_ret.
Qed.

Lemma silent_search_sheet ss em re p ws rs : silent (search_sheet ss em re p ws rs).
Proof.
  unfold search_sheet. apply silent_bind.
  - apply silent_for_each. intros row s. apply silent_for_each.
    intros c s'. apply silent_search_cell.
  - intros rs'. apply silent_for_each. intros sh s. apply silent_search_shape.
Qed.

(** ** The search (C8, C9, C4) *)

Lemma silent_scan_book ss em re wb : silent (scan_book ss em re wb).
Proof.
  apply silent_bind; [apply silent_make_pattern|].
  intros p. apply silent_for_each. intros ws rs. apply silent_search_sheet.
Qed.

Lemma search_string_in_book_run (path ss : pystr) (em re : bool) (w : world) :
  search_string_in_book path ss em re w =
  let w' := called w [Dispatch; WorkbooksOpen path true] in
  match is_workbook (files w !! path) with
  | None => (Raise com_error, w')
  | Some wb =>
      match (scan_book ss em re wb w').1 with
      | Return results => (Return results, called w' [Close false; Quit])
      | Raise e => (Raise e, w')
      | Unmodelled => (Unmodelled, w')
      end
  end.
Proof.
  unfold search_string_in_book, call. run. rewrite Workbooks_Open_run. simpl.
  replace (called _ [WorkbooksOpen path true])
    with (called w [Dispatch; WorkbooksOpen path true])
    by (unfold called; simpl; rewrite <- ?app_assoc; reflexivity).
  set (w' := called w _).
  destruct (is_workbook (files w !! path)) as [wb|]; [|reflexivity].
  run. pose proof (silent_scan_book ss em re wb w') as Hw.
  unfold scan_book in *. rewrite bind_run in *.
  destruct (make_pattern ss em re w') as [[p|e|] w1]; simpl in *; try (subst; reflexivity).
  run. destruct (for_each _ _ _ w1) as [[rs|e|] w2]; simpl in *; subst; try reflexivity.
  run. unfold called. simpl. rewrite <- ?app_assoc. reflexivity.
Qed.

Lemma search_cell_literal sn ss em p (c : cell) (rs : list hit) (w : world) :
  valid_column c ->
  search_cell sn ss em false p c rs w =
    (Return (if literal_match ss em (cell_text c) then rs ++ [cell_hit sn c] else rs), w).
Proof.
  intros Hc. unfold search_cell, literal_match. destruct em.
  - case_bool_decide; [by apply append_cell_run | reflexivity].
  - destruct (contains ss (cell_text c)); [by apply append_cell_run | reflexivity].
Qed.

Lemma search_shape_literal sn ss em p (sh : shape) (rs : list hit) (w : world) :
  search_shape sn ss em false p sh rs w =
    (Return (if literal_match ss em (Text sh) then rs ++ [shape_hit sn sh] else rs), w).
Proof.
  unfold search_shape, literal_match. destruct em.
  - case_bool_decide; reflexivity.
  - destruct (contains ss (Text sh)); reflexivity.
Qed.

Lemma search_row_literal sn ss em p (row : list cell) (rs : list hit) (w : world) :
  Forall valid_column row ->
  for_each (search_cell sn ss em false p) row rs w =
    (Return (rs ++ map (cell_hit sn)
               (List.filter (fun c => literal_match ss em (cell_text c)) row)), w).
Proof.
  intros Hrow. revert rs. induction Hrow as [|c row Hc Hrow IH]; intros rs; cbn [for_each].
  - by rewrite ret_run, app_nil_r.
  - rewrite bind_run, search_cell_literal by assumption. rewrite IH.
    cbn [List.filter].
    destruct (literal_match ss em (cell_text c)); cbn [map]; [|reflexivity].
    by rewrite <- app_assoc.
Qed.

Lemma search_rows_literal sn ss em p (rows : list (list cell)) (rs : list hit) (w : world) :
  Forall (Forall valid_column) rows ->
  for_each (for_each (search_cell sn ss em false p)) rows rs w =
    (Return (rs ++ map (cell_hit sn)
               (List.filter (fun c => literal_match ss em (cell_text c)) (concat rows))), w).
Proof.
  intros Hrows. revert rs. induction Hrows as [|row rows Hrow Hrows IH]; intros rs; cbn [for_each].
  - by rewrite ret_run, app_nil_r.
  - rewrite bind_run, search_row_literal by assumption. rewrite IH.
    cbn [concat]. by rewrite List.filter_app, map_app, app_assoc.
Qed.

Lemma search_shapes_literal sn ss em p (shapes : list shape) (rs : list hit) (w : world) :
  for_each (search_shape sn ss em false p) shapes rs w =
    (Return (rs ++ map (shape_hit sn)
               (List.filter (fun sh => literal_match ss em (Text sh)) shapes)), w).
Proof.
  revert rs. induction shapes as [|sh shapes IH]; intros rs; cbn [for_each].
  - by rewrite ret_run, app_nil_r.
  - rewrite bind_run, search_shape_literal. rewrite IH.
    cbn [List.filter].
    destruct (literal_match ss em (Text sh)); cbn [map]; [|reflexivity].
    by rewrite <- app_assoc.
Qed.

Lemma search_sheets_literal ss em p (sheets : list sheet) (rs : list hit) (w : world) :
  Forall (fun ws => Forall (Forall valid_column) (Rows ws)) sheets ->
  for_each (search_sheet ss em false p) sheets rs w =
    (Return (rs ++ flat_map (literal_hits ss em) sheets), w).
Proof.
  intros Hs. revert rs. induction Hs as [|ws sheets Hws Hs IH]; intros rs; cbn [for_each].
  - by rewrite ret_run, app_nil_r.
  - rewrite bind_run. unfold search_sheet at 1.
    rewrite bind_run, search_rows_literal by assumption.
    rewrite search_shapes_literal, IH. cbn [flat_map]. unfold literal_hits.
    by rewrite <- !app_assoc.
Qed.

Lemma scan_book_literal (ss : pystr) (em : bool) (wb : workbook) (w : world) :
  valid_columns wb ->
  scan_book ss em false wb w = (Return (flat_map (literal_hits ss em) (Sheets wb)), w).
Proof.
  intros Hwb. unfold scan_book, make_pattern. run.
  by rewrite search_sheets_literal.
Qed.

(** C8: the search changes no file and prints nothing; whatever the
    input and however it ends, none of its calls on the automation
    interface writes a cell, a shape, a sheet, or saves; the workbook is
    opened read-only; when the search returns, its calls are the start
    of the application, the opening, [Close(False)] and [Quit], in this
    order.  It does return, with the records, on every workbook that
    opens when [use_regex] is off. *)
Theorem search_string_in_book_read_only (path ss : pystr) (em re : bool) (w : world) :
  let r := search_string_in_book path ss em re w in
  files r.2 = files w /\ stdout r.2 = stdout w /\
  (exists tr, calls r.2 = calls w ++ tr /\ Forall (fun c => writes c = false) tr /\
     (forall results, r.1 = Return results ->
        tr = [Dispatch; WorkbooksOpen path true; Close false; Quit])) /\
  (forall wb, re = false -> is_workbook (files w !! path) = Some wb -> valid_columns wb ->
     exists results, r.1 = Return results).
Proof.
  cbn zeta. rewrite search_string_in_book_run. cbn zeta.
  assert (Forall (fun c => writes c = false) [Dispatch; WorkbooksOpen path true]) as Hopen
    by repeat constructor.
  destruct (is_workbook (files w !! path)) as [wb|].
  - destruct (scan_book ss em re wb _).1 as [rs|e|] eqn:Hscan; cbn [fst snd].
    + split; [reflexivity|]. split; [reflexivity|]. split; [|eauto].
      exists [Dispatch; WorkbooksOpen path true; Close false; Quit].
      split; [unfold called; simpl; by rewrite <- app_assoc|].
      split; [repeat constructor | reflexivity].
    + split; [reflexivity|]. split; [reflexivity|]. split.
      * exists [Dispatch; WorkbooksOpen path true].
        split; [reflexivity|]. split; [exact Hopen | discriminate].
      * intros wb' -> [= <-] Hv. rewrite scan_book_literal in Hscan by assumption.
        discriminate.
    + split; [reflexivity|]. split; [reflexivity|]. split.
      * exists [Dispatch; WorkbooksOpen path true].
        split; [reflexivity|]. split; [exact Hopen | discriminate].
      * intros wb' -> [= <-] Hv. rewrite scan_book_literal in Hscan by assumption.
        discriminate.
  - split; [reflexivity|]. split; [reflexivity|]. split; [|discriminate].
    exists [Dispatch; WorkbooksOpen path true].
    split; [reflexivity|]. split; [exact Hopen | discriminate].
Qed.

Lemma search_string_in_book_read_only_witness :
  exists results,
    (search_string_in_book demo_path (codes "abc") false false demo_world).1
    = Return results.
Proof.
  destruct (search_string_in_book_read_only demo_path (codes "abc") false false demo_world)
    as (_ & _ & _ & H).
  apply (H demo_book).
  - reflexivity.
  - vm_compute. reflexivity.
  - apply (bool_decide_unpack _). vm_compute. exact I.
Defined.

(** *** Substrings *)

Lemma startswith_spec (p s : pystr) :
  startswith p s = true <-> exists post, s = p ++ post.
Proof.
  revert s. induction p as [|a p IH]; intros s; simpl.
  - split; [eauto | reflexivity].
  - destruct s as [|b s].
    + split; [discriminate | intros [post [=]]].
    + rewrite andb_true_iff, bool_decide_eq_true, IH. split.
      * intros [-> [post ->]]. eauto.
      * intros [post [= -> ->]]. eauto.
Qed.

Lemma contains_spec (sub s : pystr) :
  contains sub s = true <-> exists pre post, s = pre ++ sub ++ post.
Proof.
  induction s as [|c s IH]; simpl; rewrite orb_true_iff, startswith_spec.
  - split.
    + intros [[post ->]|[=]]. exists [], post. reflexivity.
    + intros (pre & post & H). left. destruct pre; [eauto|discriminate].
  - rewrite IH. split.
    + intros [[post ->]|(pre & post & ->)].
      * exists [], post. reflexivity.
      * exists (c :: pre), post. reflexivity.
    + intros ([|c' pre] & post & H).
      * left. eauto.
      * right. injection H as -> ->. eauto.
Qed.

Lemma contains_empty (s : pystr) : contains [] s = true.
Proof. destruct s; reflexivity. Qed.

Lemma filter_all {A} (f : A -> bool) (l : list A) :
  (forall x, f x = true) -> List.filter f l = l.
Proof. intros Hf. induction l as [|x l IH]; simpl; [|rewrite Hf, IH]; reflexivity. Qed.

(** C9: without [use_regex] and [exact_match], the search for the empty
    string returns one record for every cell of every range, the empty
    cells with the empty text among them, and one for every shape, in the
    order of the traversal. *)
Theorem search_empty_string_matches_all (path : pystr) (w : world) (wb : workbook) :
  is_workbook (files w !! path) = Some wb ->
  valid_columns wb ->
  exists results,
    (search_string_in_book path [] false false w).1 = Return results /\
    results = flat_map all_hits (Sheets wb) /\
    length results = count_all wb /\
    (forall ws c, ws ∈ Sheets wb -> c ∈ concat (Rows ws) ->
       (Value c = VEmpty -> cell_text c = []) /\ cell_hit (Name ws) c ∈ results) /\
    (forall ws sh, ws ∈ Sheets wb -> sh ∈ Shapes ws -> shape_hit (Name ws) sh ∈ results).
Proof.
  intros Hf Hv. rewrite search_string_in_book_run, Hf. cbn zeta.
  rewrite scan_book_literal by assumption. cbn [fst].
  assert (forall ws, literal_hits [] false ws = all_hits ws) as Hall.
  { intros ws. unfold literal_hits, all_hits, literal_match.
    rewrite !filter_all by (intros; apply contains_empty). reflexivity. }
  assert (flat_map (literal_hits [] false) (Sheets wb) = flat_map all_hits (Sheets wb)) as ->.
  { clear Hf Hv. induction (Sheets wb) as [|ws l IH]; simpl; [|rewrite Hall, IH]; reflexivity. }
  eexists. split; [reflexivity|]. split; [reflexivity|]. split; [|split].
  - unfold count_all. induction (Sheets wb) as [|ws l IH]; simpl; [reflexivity|].
    rewrite length_app, IH. unfold all_hits. by rewrite length_app, !length_map.
  - intros ws c Hws Hc. split.
    + intros Hc'. unfold cell_text. by rewrite Hc'.
    + apply list_elem_of_In, in_flat_map. exists ws. split; [by apply list_elem_of_In|].
      apply list_elem_of_In. unfold all_hits. rewrite elem_of_app. left.
      by apply list_elem_of_fmap_2.
  - intros ws sh Hws Hsh.
    apply list_elem_of_In, in_flat_map. exists ws. split; [by apply list_elem_of_In|].
    apply list_elem_of_In. unfold all_hits. rewrite elem_of_app. right.
    by apply list_elem_of_fmap_2.
Qed.

Lemma search_empty_string_matches_all_witness :
  exists results,
    (search_string_in_book demo_path [] false false demo_world).1 = Return results /\
    length results = 7%nat.
Proof.
  destruct (search_empty_string_matches_all demo_path demo_world demo_book)
    as (results & Hrun & _ & Hlen & _).
  - vm_compute. reflexivity.
  - apply (bool_decide_unpack _). vm_compute. exact I.
  - exists results. split; [exact Hrun | exact Hlen].
Defined.

(** C4: without [use_regex], the search takes a cell when the search
    string is a substring of its text ([exact_match] off) and when the
    text equals the search string ([exact_match] on).  The text of a
    cell is [str] of its value and the empty string for no value.  On
    the sample sheet, [abc] without [exact_match] finds the cells
    [abcxyz] and [abc], and with [exact_match] only the cell [abc]. *)
Theorem search_cell_literal_spec (sn ss : pystr) (p : option Re.pattern) (c : cell)
    (rs : list hit) (w : world) :
  valid_column c ->
  ((exists pre post, cell_text c = pre ++ ss ++ post) ->
   search_cell sn ss false false p c rs w = (Return (rs ++ [cell_hit sn c]), w)) /\
  (~ (exists pre post, cell_text c = pre ++ ss ++ post) ->
   search_cell sn ss false false p c rs w = (Return rs, w)) /\
  (cell_text c = ss ->
   search_cell sn ss true false p c rs w = (Return (rs ++ [cell_hit sn c]), w)) /\
  (cell_text c <> ss ->
   search_cell sn ss true false p c rs w = (Return rs, w)) /\
  cell_text c = match Value c with VEmpty => [] | VStr s => s | VScalar s => s end /\
  (search_string_in_book demo_path (codes "abc") false false demo_world).1 =
    Return [(codes "Sheet1", codes "A2", codes "abcxyz");
            (codes "Sheet1", codes "B2", codes "abc")] /\
  (search_string_in_book demo_path (codes "abc") true false demo_world).1 =
    Return [(codes "Sheet1", codes "B2", codes "abc")].
Proof.
  intros Hc. rewrite !search_cell_literal by assumption. unfold literal_match.
  split; [|split; [|split; [|split; [|split; [|split]]]]].
  - intros H. apply contains_spec in H. by rewrite H.
  - intros H. rewrite <- contains_spec in H. by apply not_true_is_false in H as ->.
  - intros H. by rewrite bool_decide_eq_true_2.
  - intros H. by rewrite bool_decide_eq_false_2.
  - unfold cell_text. destruct (Value c); reflexivity.
  - vm_compute. reflexivity.
  - vm_compute. reflexivity.
Qed.

Lemma search_cell_literal_spec_witness :
  search_cell (codes "Sheet1") (codes "abc") false false None (text_cell 2 1 "abcxyz") []
    demo_world
  = (Return [(codes "Sheet1", codes "A2", codes "abcxyz")], demo_world) /\
  search_cell (codes "Sheet1") (codes "abc") true false None (text_cell 2 1 "abcxyz") []
    demo_world
  = (Return [], demo_world).
Proof.
  destruct (search_cell_literal_spec (codes "Sheet1") (codes "abc") None
              (text_cell 2 1 "abcxyz") [] demo_world) as (Hsub & _ & _ & Hne & _).
  - vm_compute. split; discriminate.
  - split.
    + apply Hsub. exists [], (codes "xyz"). reflexivity.
    + apply Hne. discriminate.
Defined.

(** ** The replacement (C3) *)

Lemma replace_shape_run sheet_name ss rs em re p (sh : shape) (results : list change)
    (new_text' : pystr) (w : world) :
  (new_text ss rs em re p (Text sh) w).1 = Return new_text' ->
  replace_shape sheet_name ss rs em re p sh results w =
    if bool_decide (new_text' ≠ Text sh) then
      (Return ({| shape_Name := shape_Name sh; Text := new_text' |},
               results ++ [(sheet_name, shape_label (shape_Name sh), Text sh, new_text')]),
       called w [SetShapeText sheet_name (shape_Name sh) new_text'])
    else (Return (sh, results), w).
Proof.
  intros Hnew. unfold replace_shape. rewrite bind_run.
  pose proof (new_text_world ss rs em re p (Text sh) w) as Hw.
  destruct (new_text ss rs em re p (Text sh) w) as [o w']. simpl in *. subst.
  case_bool_decide; reflexivity.
Qed.

Lemma new_text_literal ss rs em p text w :
  new_text ss rs em false p text w = (Return (literal_new ss rs em text), w).
Proof.
  unfold new_text, literal_new. destruct em.
  - case_bool_decide; reflexivity.
  - destruct (contains ss text); reflexivity.
Qed.

Section literal_replacement_run.
Variable entered : reading.
Variables (ss rs : pystr) (em : bool).

Lemma called_nil (w : world) : called w [] = w.
Proof. destruct w. unfold called. simpl. by rewrite app_nil_r. Qed.

Lemma replace_row_literal sn p (row : list cell) (results : list change) (w : world) :
  Forall valid_column row ->
  for_each_update (replace_cell entered sn ss rs em false p) row results w =
    (Return (map (cell_after entered ss rs em sn) row,
             results ++ map (cell_change ss rs em sn) (List.filter (cell_changed ss rs em) row)),
     called w (map (cell_write ss rs em sn) (List.filter (cell_changed ss rs em) row))).
Proof.
  intros Hrow. revert results w.
  induction Hrow as [|c row Hc Hrow IH]; intros results w; cbn [for_each_update].
  - by rewrite ret_run, app_nil_r, called_nil.
  - rewrite bind_run.
    rewrite (replace_cell_run _ _ _ _ _ _ _ _ _ (literal_new ss rs em (cell_text c)))
      by (assumption || by rewrite new_text_literal).
    cbn [List.filter map]. unfold cell_after. fold (cell_changed ss rs em c).
    destruct (cell_changed ss rs em c); rewrite bind_run, IH; run.
    + rewrite <- app_assoc. unfold called. simpl. by rewrite <- app_assoc.
    + reflexivity.
Qed.

Lemma replace_rows_literal sn p (rows : list (list cell)) (results : list change)
    (w : world) :
  Forall (Forall valid_column) rows ->
  for_each_update (for_each_update (replace_cell entered sn ss rs em false p)) rows
    results w =
    (Return (map (map (cell_after entered ss rs em sn)) rows,
             results ++ map (cell_change ss rs em sn)
                          (List.filter (cell_changed ss rs em) (concat rows))),
     called w (map (cell_write ss rs em sn)
                 (List.filter (cell_changed ss rs em) (concat rows)))).
Proof.
  intros Hrows. revert results w.
  induction Hrows as [|row rows Hrow Hrows IH]; intros results w; cbn [for_each_update].
  - by rewrite ret_run, app_nil_r, called_nil.
  - rewrite bind_run, replace_row_literal by assumption. rewrite bind_run, IH. run.
    cbn [concat]. by rewrite List.filter_app, !map_app, app_assoc, called_app.
Qed.

Lemma replace_shapes_literal sn p (shapes : list shape) (results : list change)
    (w : world) :
  for_each_update (replace_shape sn ss rs em false p) shapes results w =
    (Return (map (shape_after ss rs em) shapes,
             results ++ map (shape_change ss rs em sn) (List.filter (shape_changed ss rs em) shapes)),
     called w (map (shape_write ss rs em sn) (List.filter (shape_changed ss rs em) shapes))).
Proof.
  revert results w.
  induction shapes as [|sh shapes IH]; intros results w; cbn [for_each_update].
  - by rewrite ret_run, app_nil_r, called_nil.
  - rewrite bind_run.
    rewrite (replace_shape_run _ _ _ _ _ _ _ _ (literal_new ss rs em (Text sh)))
      by (by rewrite new_text_literal).
    cbn [List.filter map]. unfold shape_after. fold (shape_changed ss rs em sh).
    destruct (shape_changed ss rs em sh); rewrite bind_run, IH; run.
    + rewrite <- app_assoc. unfold called. simpl. by rewrite <- app_assoc.
    + reflexivity.
Qed.

Lemma replace_sheets_literal p (sheets : list sheet) (results : list change) (w : world) :
  Forall (fun ws => Forall (Forall valid_column) (Rows ws)) sheets ->
  for_each_update (replace_sheet entered ss rs em false p) sheets results w =
    (Return (map (sheet_after entered ss rs em) sheets,
             results ++ flat_map (sheet_changes ss rs em) sheets),
     called w (flat_map (sheet_writes ss rs em) sheets)).
Proof.
  intros Hs. revert results w.
  induction Hs as [|ws sheets Hws Hs IH]; intros results w; cbn [for_each_update].
  - by rewrite ret_run, app_nil_r, called_nil.
  - rewrite bind_run. unfold replace_sheet at 1.
    rewrite bind_run, replace_rows_literal by assumption.
    rewrite bind_run, replace_shapes_literal. rewrite ret_run, bind_run, IH. run.
    unfold sheet_changes, sheet_writes, sheet_after.
    by rewrite !called_app, <- !app_assoc.
Qed.

(** The whole replacement without [use_regex] on a writable workbook. *)
Lemma replace_string_in_book_literal (path : pystr) (w : world) (wb : workbook) :
  files w !! path = Some {| data := Workbook wb; writable := true |} ->
  valid_columns wb ->
  replace_string_in_book entered path ss rs em false w =
    (Return (flat_map (sheet_changes ss rs em) (Sheets wb)),
     {| files :=
          <[path := {| data := Workbook
                                 {| Sheets := map (sheet_after entered ss rs em) (Sheets wb) |};
                       writable := true |}]> (files w);
        stdout := stdout w ++ [OpeningFile path];
        calls := calls w ++ [Dispatch; WorkbooksOpen path false]
                 ++ flat_map (sheet_writes ss rs em) (Sheets wb) ++ [Save; Close false; Quit] |}).
Proof.
  intros Hf Hv. unfold replace_string_in_book, attempt, print, call.
  run. rewrite Workbooks_Open_run. simpl. unfold is_workbook. rewrite Hf. run.
  rewrite replace_sheets_literal by assumption. run.
  unfold Workbook_Save, Workbook_Close, save_book, read_file, write_file, call. run.
  rewrite Hf. run. unfold called. simpl.
  rewrite <- !app_assoc. reflexivity.
Qed.

End literal_replacement_run.

Lemma literal_new_unaffected (ss rs text : pystr) :
  contains ss text = false -> literal_new ss rs false text = text.
Proof. intros H. unfold literal_new. by rewrite H. Qed.

(** C3: the replacement writes a cell (a shape) exactly when the new
    text it computed differs from the text read, and exactly then it
    adds the record (sheet, label, old text, new text); otherwise the
    cell, the records and the calls stay as they were.  Without
    [use_regex] the whole run on a writable workbook returns the records
    of the changed cells and shapes in the order of the traversal, makes
    one write for each and saves the changed workbook; a text without
    the search string is not changed.  On the sample sheet, replacing
    [foo] by [bar] writes [barbar] over [foobar] and records it, and
    leaves the cell [xyz] alone.  What a written cell holds afterwards
    is the reading [entered] of the new text, whatever that reading
    is. *)
Theorem replace_writes_exactly_the_changes (entered : reading) (sn ss rs : pystr)
    (em re : bool) (p : option Re.pattern) (results : list change) (w : world) :
  (forall c new_value,
     valid_column c ->
     (new_text ss rs em re p (cell_text c) w).1 = Return new_value ->
     (new_value <> cell_text c ->
      replace_cell entered sn ss rs em re p c results w =
        (Return (set_value entered sn c new_value,
                 results ++ [(sn, (Column c + 64) :: str_of_int (Row c),
                              cell_text c, new_value)]),
         called w [SetCellValue sn (Row c) (Column c) new_value])) /\
     (new_value = cell_text c ->
      replace_cell entered sn ss rs em re p c results w = (Return (c, results), w))) /\
  (forall sh new_shape_text,
     (new_text ss rs em re p (Text sh) w).1 = Return new_shape_text ->
     (new_shape_text <> Text sh ->
      replace_shape sn ss rs em re p sh results w =
        (Return ({| shape_Name := shape_Name sh; Text := new_shape_text |},
                 results ++ [(sn, shape_label (shape_Name sh), Text sh, new_shape_text)]),
         called w [SetShapeText sn (shape_Name sh) new_shape_text])) /\
     (new_shape_text = Text sh ->
      replace_shape sn ss rs em re p sh results w = (Return (sh, results), w))) /\
  (forall text,
     contains ss text = false ->
     new_text ss rs false false p text w = (Return text, w)) /\
  (forall path wb,
     files w !! path = Some {| data := Workbook wb; writable := true |} ->
     valid_columns wb ->
     exists w',
       replace_string_in_book entered path ss rs em false w =
         (Return (flat_map (sheet_changes ss rs em) (Sheets wb)), w') /\
       calls w' = calls w ++ [Dispatch; WorkbooksOpen path false]
                  ++ flat_map (sheet_writes ss rs em) (Sheets wb)
                  ++ [Save; Close false; Quit] /\
       files w' !! path =
         Some {| data := Workbook
                           {| Sheets := map (sheet_after entered ss rs em) (Sheets wb) |};
                 writable := true |}) /\
  (exists w',
     replace_string_in_book entered demo_path (codes "foo") (codes "bar") false false
       demo_world =
       (Return [(codes "Sheet1", codes "A1", codes "foobar", codes "barbar");
                (codes "Sheet1", shape_label (codes "Box 1"), codes "a foo", codes "a bar")],
        w') /\
     calls w' = [Dispatch; WorkbooksOpen demo_path false;
                 SetCellValue (codes "Sheet1") 1 1 (codes "barbar");
                 SetShapeText (codes "Sheet1") (codes "Box 1") (codes "a bar");
                 Save; Close false; Quit] /\
     (exists ws, is_workbook (files w' !! demo_path)
                 = Some {| Sheets := [ws; demo_data; demo_alpha] |} /\
        Rows ws = [[set_value entered (codes "Sheet1") (text_cell 1 1 "foobar")
                      (codes "barbar");
                    text_cell 1 2 "xyz"];
                   [text_cell 2 1 "abcxyz"; text_cell 2 2 "abc"]])).
Proof.
  split; [|split; [|split; [|split]]].
  - intros c new_value Hc Hnew.
    rewrite (replace_cell_run _ _ _ _ _ _ _ _ _ new_value) by assumption. split.
    + intros Hne. by rewrite bool_decide_eq_true_2.
    + intros Heq. rewrite bool_decide_eq_false_2; [reflexivity | by intros []].
  - intros sh new_shape_text Hnew.
    rewrite (replace_shape_run _ _ _ _ _ _ _ _ new_shape_text) by assumption. split.
    + intros Hne. by rewrite bool_decide_eq_true_2.
    + intros Heq. rewrite bool_decide_eq_false_2; [reflexivity | by intros []].
  - intros text Hno. by rewrite new_text_literal, literal_new_unaffected.
  - intros path wb Hf Hv. eexists. split; [by apply replace_string_in_book_literal|].
    split; [reflexivity|]. apply lookup_insert_eq.
  - eexists. split; [vm_compute; reflexivity|]. split; [reflexivity|].
    eexists. split; vm_compute; reflexivity.
Qed.

Lemma replace_writes_exactly_the_changes_witness :
  replace_cell sample_reading (codes "Sheet1") (codes "foo") (codes "bar") false false None
    (text_cell 1 1 "foobar") [] demo_world =
  (Return (text_cell 1 1 "barbar",
           [(codes "Sheet1", codes "A1", codes "foobar", codes "barbar")]),
   called demo_world [SetCellValue (codes "Sheet1") 1 1 (codes "barbar")]) /\
  replace_cell sample_reading (codes "Sheet1") (codes "foo") (codes "bar") false false None
    (text_cell 1 2 "xyz") [] demo_world =
  (Return (text_cell 1 2 "xyz", []), demo_world).
Proof.
  destruct (replace_writes_exactly_the_changes sample_reading (codes "Sheet1") (codes "foo")
              (codes "bar") false false None [] demo_world) as (Hcell & _).
  split.
  - destruct (Hcell (text_cell 1 1 "foobar") (codes "barbar")) as [H _].
    + vm_compute. split; discriminate.
    + vm_compute. reflexivity.
    + apply H. discriminate.
  - destruct (Hcell (text_cell 1 2 "xyz") (codes "xyz")) as [_ H].
    + vm_compute. split; discriminate.
    + vm_compute. reflexivity.
    + apply H. reflexivity.
Defined.

(** ** The pattern of the exact mode (C1) *)

Lemma special_not_alnum (c : Z) : c ∈ Re.special_chars -> Re.is_alnum c = false.
Proof.
  unfold Re.special_chars. rewrite !elem_of_cons, elem_of_nil.
  intros H. repeat (destruct H as [->|H]; [reflexivity|]). contradiction.
Qed.

Lemma parse_escaped (c : Z) (rest : pystr) (alts : Re.pattern) (cur : Re.branch) :
  c ∈ Re.special_chars ->
  Re.parse (92 :: c :: rest) alts cur = Re.parse rest alts (lit c :: cur).
Proof.
  intros Hc. cbn [Re.parse].
  rewrite !decide_False by lia.
  rewrite decide_True by reflexivity. by rewrite special_not_alnum.
Qed.

Lemma parse_plain (c : Z) (rest : pystr) (alts : Re.pattern) (cur : Re.branch) :
  c ∉ Re.special_chars ->
  Re.parse (c :: rest) alts cur = Re.parse rest alts (lit c :: cur).
Proof.
  unfold Re.special_chars. rewrite !not_elem_of_cons. intros Hc. cbn [Re.parse].
  destruct Hc as (?&?&?&?&?&?&?&?&?&?&?&?&?&?&?&?&?&?&?&?&?&?&?&?&_).
  rewrite !decide_False by lia. reflexivity.
Qed.

Lemma parse_escape (s rest : pystr) (alts : Re.pattern) (cur : Re.branch) :
  Re.parse (Re.escape s ++ rest) alts cur = Re.parse rest alts (reverse (map lit s) ++ cur).
Proof.
  revert cur. induction s as [|c s IH]; intros cur; [reflexivity|].
  unfold Re.escape in *. cbn [flat_map map]. rewrite <- app_assoc.
  rewrite reverse_cons, <- app_assoc. cbn [app].
  case_bool_decide; cbn [app].
  - by rewrite parse_escaped, IH.
  - by rewrite parse_plain, IH.
Qed.

Lemma compile_exact (ss : pystr) :
  Re.compile ([94] ++ Re.escape ss ++ [36]) = Re.Ok (exact_pattern ss).
Proof.
  unfold Re.compile, exact_pattern. cbn [app Re.parse].
  rewrite !decide_False by lia. rewrite decide_True by reflexivity.
  rewrite parse_escape. cbn [Re.parse].
  rewrite !decide_False by lia. rewrite decide_True by reflexivity.
  f_equal. unfold reverse at 1. cbn [rev_append]. f_equal.
  rewrite reverse_cons, reverse_app, reverse_involutive. reflexivity.
Qed.

Lemma match_items_lits (s : pystr) (its : Re.branch) (k : nat -> pystr -> option nat)
    (pos : nat) (text : pystr) :
  Re.match_items (map lit s ++ its) k pos text =
  if startswith s text
  then Re.match_items its k (pos + length s) (drop (length s) text)
  else None.
Proof.
  revert pos text. induction s as [|c s IH]; intros pos text; cbn [map app startswith].
  - destruct text; simpl; by rewrite Nat.add_0_r.
  - cbn [Re.match_items lit]. destruct text as [|d text]; [reflexivity|].
    cbn [Re.match_one Re.atom_char length drop].
    rewrite (bool_decide_ext (d = c) (c = d)) by (split; congruence).
    case_bool_decide; cbn [andb]; [|reflexivity].
    rewrite IH. by replace (S pos + length s)%nat with (pos + S (length s))%nat by lia.
Qed.

Lemma exact_pattern_at_start (ss text : pystr) :
  Re.match_alts (exact_pattern ss) (Re.accept false 0) 0 text =
  if bool_decide (text = ss \/ text = ss ++ [10]) then Some (length ss) else None.
Proof.
  unfold exact_pattern. cbn [Re.match_alts Re.match_items Re.match_one].
  rewrite match_items_lits. cbn [Re.match_items Re.match_one].
  destruct (startswith ss text) eqn:Hs.
  - apply startswith_spec in Hs as [post ->].
    rewrite drop_app_length. unfold Re.accept. cbn [andb].
    rewrite (bool_decide_ext (ss ++ post = ss \/ ss ++ post = ss ++ [10])
               (post = [] \/ post = [10])).
    + by case_bool_decide.
    + rewrite <- (app_nil_r ss) at 2. split; intros [H|H]; simplify_list_eq; auto.
  - rewrite bool_decide_eq_false_2; [reflexivity|].
    intros [->| ->]; apply not_true_iff_false in Hs; apply Hs, startswith_spec; eauto.
    exists []. by rewrite app_nil_r.
Qed.

Lemma exact_pattern_later (ss : pystr) (pos : nat) (rest : pystr) :
  Re.search_from (exact_pattern ss) (S pos) rest = None.
Proof.
  revert pos. induction rest as [|c rest IH]; intros pos; cbn [Re.search_from].
  - reflexivity.
  - unfold exact_pattern at 1. cbn [Re.match_alts Re.match_items Re.match_one]. apply IH.
Qed.

Lemma search_exact_pattern (ss text : pystr) :
  Re.search (exact_pattern ss) text = bool_decide (text = ss \/ text = ss ++ [10]).
Proof.
  unfold Re.search. destruct text as [|c text]; cbn [Re.search_from];
    rewrite exact_pattern_at_start; case_bool_decide; try reflexivity.
  by rewrite exact_pattern_later.
Qed.




(** ** The discovery of files *)

Lemma entry_induction (P : entry -> Prop) :
  P RegularFile ->
  (forall children, Forall (fun c => P c.2) children -> P (Directory children)) ->
  forall e, P e.
Proof.
  intros Hfile Hdir. fix IH 1. intros [|children]; [exact Hfile|].
  apply Hdir. induction children as [|c children IHc]; constructor; [apply IH | exact IHc].
Qed.

Lemma endswith_spec (s suffix : pystr) :
  endswith s suffix = true <-> exists pre, s = pre ++ suffix.
Proof.
  unfold endswith. rewrite startswith_spec. split.
  - intros [post H]. exists (reverse post).
    apply (inj reverse). by rewrite H, reverse_app, reverse_involutive.
  - intros [pre ->]. exists (reverse pre). by rewrite reverse_app.
Qed.

Lemma is_excel_file_spec (xlsm_flg : bool) (f : pystr) :
  is_excel_file (if xlsm_flg then [codes ".xlsx"; codes ".xlsm"] else [codes ".xlsx"]) f
  = true <-> excel_name xlsm_flg f.
Proof.
  unfold is_excel_file, excel_name.
  rewrite andb_true_iff, negb_true_iff, <- not_true_iff_false, startswith_spec.
  destruct xlsm_flg; simpl; rewrite ?orb_true_iff, ?orb_false_r, !endswith_spec;
    intuition discriminate.
Qed.

Lemma walk_file_in (join : pystr -> pystr -> pystr) (e : entry) (top root f : pystr) :
  (exists ds fs, (root, ds, fs) ∈ walk join top e /\ f ∈ fs) <-> file_in join top e root f.
Proof.
  split.
  - revert top. induction e as [|children IH] using entry_induction; intros top.
    + intros (ds & fs & H & _). simpl in H. by apply elem_of_nil in H.
    + intros (ds & fs & H & Hf). cbn [walk] in H. apply elem_of_cons in H as [H|H].
      * injection H as -> _ ->.
        apply list_elem_of_fmap in Hf as ([f' e'] & -> & Hc).
        apply list_elem_of_In, filter_In in Hc as [Hc Hd]. apply list_elem_of_In in Hc.
        destruct e'; [|discriminate]. by apply file_here.
      * apply list_elem_of_In, in_flat_map in H as ([d sub] & Hc & H).
        apply list_elem_of_In in Hc, H. rewrite Forall_forall in IH.
        apply (file_below _ _ _ d sub); [exact Hc|].
        apply (IH _ Hc). eauto.
  - induction 1 as [top children f Hf | top children d sub root f Hc _ IH].
    + eexists _, _. split; [cbn [walk]; apply elem_of_cons; left; reflexivity|].
      apply list_elem_of_fmap. exists (f, RegularFile). split; [reflexivity|].
      apply list_elem_of_In, filter_In. split; [by apply list_elem_of_In | reflexivity].
    + destruct IH as (ds & fs & H & Hf). exists ds, fs. split; [|exact Hf].
      cbn [walk]. apply elem_of_cons. right.
      apply list_elem_of_In, in_flat_map. exists (d, sub).
      split; by apply list_elem_of_In.
Qed.

Lemma excel_files_elem (join : pystr -> pystr -> pystr) (xlsm_flg : bool)
    (search_method : list (pystr * list pystr * list pystr)) (p : pystr) :
  p ∈ flat_map
        (fun '(root, _, files) =>
           map (join root)
             (List.filter
                (is_excel_file
                   (if xlsm_flg then [codes ".xlsx"; codes ".xlsm"] else [codes ".xlsx"]))
                files))
        search_method
  <-> exists root ds fs f,
        (root, ds, fs) ∈ search_method /\ f ∈ fs /\ excel_name xlsm_flg f /\ p = join root f.
Proof.
  rewrite list_elem_of_In, in_flat_map. split.
  - intros ([[root ds] fs] & Ht & Hp). apply list_elem_of_In in Ht, Hp.
    apply list_elem_of_fmap in Hp as (f & -> & Hf).
    apply list_elem_of_In, filter_In in Hf as [Hf Hx]. apply list_elem_of_In in Hf.
    apply is_excel_file_spec in Hx. by exists root, ds, fs, f.
  - intros (root & ds & fs & f & Ht & Hf & Hx & ->). exists (root, ds, fs).
    split; [by apply list_elem_of_In|]. apply list_elem_of_In, list_elem_of_fmap.
    exists f. split; [reflexivity|]. apply list_elem_of_In, filter_In.
    split; [by apply list_elem_of_In | by apply is_excel_file_spec].
Qed.

(** X1: without [sub_dir_flg], on a directory, the discovery returns
    exactly the paths [join search_path f] of the entries [f] of the
    directory, directories among them, whose name ends in [.xlsx] (or in
    [.xlsm] with [xlsm_flg]) and does not start with [~$]. *)
Theorem get_files_in_path_flat (join : pystr -> pystr -> pystr)
    (children : list (pystr * entry)) (search_path : pystr) (xlsm_flg : bool) :
  exists paths,
    get_files_in_path join (Some (Directory children)) search_path false xlsm_flg
    = inl paths /\
    forall p, p ∈ paths <->
      exists f e, (f, e) ∈ children /\ excel_name xlsm_flg f /\ p = join search_path f.
Proof.
  eexists. split; [reflexivity|]. intros p. rewrite excel_files_elem. split.
  - intros (root & ds & fs & f & Ht & Hf & Hx & ->).
    apply list_elem_of_singleton in Ht. injection Ht as -> _ ->.
    apply list_elem_of_fmap in Hf as ([f' e] & -> & Hc). by exists f', e.
  - intros (f & e & Hc & Hx & ->). exists search_path, [], (map fst children), f.
    split; [by apply list_elem_of_singleton|]. split; [|done].
    apply list_elem_of_fmap. by exists (f, e).
Qed.

Lemma get_files_in_path_flat_witness :
  exists paths,
    get_files_in_path join_backslash (Some demo_tree) (codes "C:\dir") false false
    = inl paths /\
    codes "C:\dir\d.xlsx" ∈ paths.
Proof.
  destruct (get_files_in_path_flat join_backslash
              [(codes "a.xlsx", RegularFile); (codes "~$a.xlsx", RegularFile);
               (codes "b.xlsm", RegularFile); (codes "c.txt", RegularFile);
               (codes "d.xlsx", Directory [(codes "g.xlsx", RegularFile)]);
               (codes "sub", Directory [(codes "e.xlsx", RegularFile);
                                        (codes "deep",
                                         Directory [(codes "f.xlsm", RegularFile)])])]
              (codes "C:\dir") false) as (paths & Hrun & Hin).
  exists paths. split; [exact Hrun|]. apply Hin.
  exists (codes "d.xlsx"), (Directory [(codes "g.xlsx", RegularFile)]).
  split; [do 4 apply list_elem_of_further; apply list_elem_of_here|].
  split; [|reflexivity]. split.
  - left. exists (codes "d"). reflexivity.
  - intros [post H]. discriminate.
Defined.

(** X2: with [sub_dir_flg] the discovery returns exactly the paths
    [join root f] of the entries [f] that are no directories, in the
    directory at the search path and in every directory below it, whose
    name ends in [.xlsx] (or in [.xlsm] with [xlsm_flg]) and does not
    start with [~$]. *)
Theorem get_files_in_path_recursive (join : pystr -> pystr -> pystr) (e : entry)
    (search_path : pystr) (xlsm_flg : bool) :
  exists paths,
    get_files_in_path join (Some e) search_path true xlsm_flg = inl paths /\
    forall p, p ∈ paths <->
      exists root f,
        file_in join search_path e root f /\ excel_name xlsm_flg f /\ p = join root f.
Proof.
  eexists. split; [reflexivity|]. intros p. rewrite excel_files_elem. split.
  - intros (root & ds & fs & f & Ht & Hf & Hx & ->). exists root, f.
    split; [|done]. apply walk_file_in. eauto.
  - intros (root & f & Hin & Hx & ->). apply walk_file_in in Hin as (ds & fs & Ht & Hf).
    by exists root, ds, fs, f.
Qed.

Lemma get_files_in_path_recursive_witness :
  exists paths,
    get_files_in_path join_backslash (Some demo_tree) (codes "C:\dir") true true
    = inl paths /\
    codes "C:\dir\sub\deep\f.xlsm" ∈ paths.
Proof.
  destruct (get_files_in_path_recursive join_backslash demo_tree (codes "C:\dir") true)
    as (paths & Hrun & Hin).
  exists paths. split; [exact Hrun|]. apply Hin.
  exists (codes "C:\dir\sub\deep"), (codes "f.xlsm").
  split; [|split; [|reflexivity]].
  - eapply file_below; [do 5 apply list_elem_of_further; apply list_elem_of_here|].
    eapply file_below; [apply list_elem_of_further, list_elem_of_here|].
    apply file_here, list_elem_of_here.
  - split.
    + right. split; [reflexivity|]. exists (codes "f"). reflexivity.
    + intros [post H]. discriminate.
Defined.

Lemma filter_sublist_impl {A} (f g : A -> bool) (l : list A) :
  (forall x, f x = true -> g x = true) ->
  List.filter f l `sublist_of` List.filter g l.
Proof.
  intros Hfg. induction l as [|x l IH]; simpl; [constructor|].
  destruct (f x) eqn:Hf.
  - rewrite (Hfg x Hf). by constructor.
  - destruct (g x); [by constructor | exact IH].
Qed.

Lemma map_sublist {A B} (f : A -> B) (l k : list A) :
  l `sublist_of` k -> map f l `sublist_of` map f k.
Proof. induction 1; simpl; by constructor. Qed.

Lemma flat_map_sublist {A B} (F G : A -> list B) (l : list A) :
  (forall x, F x `sublist_of` G x) -> flat_map F l `sublist_of` flat_map G l.
Proof.
  intros HFG. induction l as [|x l IH]; simpl; [constructor|]. by apply sublist_app.
Qed.

Lemma walk_flat (join : pystr -> pystr -> pystr) (top : pystr)
    (children : list (pystr * entry)) :
  Forall (fun c => c.2 = RegularFile) children ->
  walk join top (Directory children) = [(top, [], map fst children)].
Proof.
  intros Hflat. cbn [walk].
  assert (List.filter (fun c : pystr * entry => is_dir c.2) children = []) as ->.
  { induction Hflat as [|[f e] l He _ IH]; simpl in *; [reflexivity|]. by rewrite He. }
  assert (List.filter (fun c : pystr * entry => negb (is_dir c.2)) children = children) as ->.
  { induction Hflat as [|[f e] l He _ IH]; simpl in *; [reflexivity|]. by rewrite He, IH. }
  assert (flat_map (fun c : pystr * entry => walk join (join top c.1) c.2) children = []) as ->.
  { induction Hflat as [|[f e] l He _ IH]; simpl in *; [reflexivity|]. by rewrite He, IH. }
  reflexivity.
Qed.

(** X3: what cannot be listed.  Where nothing is at the search path,
    or a regular file, the discovery raises without [sub_dir_flg]
    ([os.listdir] fails) and returns the empty list with it ([os.walk]
    passes over the failure).  On a directory without directories in it
    the two modes return the same list. *)
Theorem get_files_in_path_modes (join : pystr -> pystr -> pystr) (search_path : pystr)
    (xlsm_flg : bool) :
  get_files_in_path join None search_path false xlsm_flg = inr NoSuchFile /\
  get_files_in_path join None search_path true xlsm_flg = inl [] /\
  get_files_in_path join (Some RegularFile) search_path false xlsm_flg = inr NotADirectory /\
  get_files_in_path join (Some RegularFile) search_path true xlsm_flg = inl [] /\
  (forall children,
     Forall (fun c => c.2 = RegularFile) children ->
     get_files_in_path join (Some (Directory children)) search_path true xlsm_flg =
     get_files_in_path join (Some (Directory children)) search_path false xlsm_flg).
Proof.
  repeat (split; [reflexivity|]). intros children Hflat.
  unfold get_files_in_path, os_walk, listdir. by rewrite walk_flat.
Qed.

Lemma get_files_in_path_modes_witness :
  get_files_in_path join_backslash
    (Some (Directory [(codes "a.xlsx", RegularFile); (codes "~$a.xlsx", RegularFile)]))
    (codes "C:\dir") true false = inl [codes "C:\dir\a.xlsx"].
Proof.
  destruct (get_files_in_path_modes join_backslash (codes "C:\dir") false)
    as (_ & _ & _ & _ & H).
  rewrite H; [reflexivity | repeat constructor].
Defined.

(** X4: the names in [.xlsm] are added, nothing else changes: the list
    returned without [xlsm_flg] is a sublist of the list returned with
    it, in both modes, and the outcome is an error in the one case when
    it is in the other. *)
Theorem get_files_in_path_xlsm_flg (join : pystr -> pystr -> pystr)
    (at_path : option entry) (search_path : pystr) (sub_dir_flg : bool) :
  match get_files_in_path join at_path search_path sub_dir_flg false,
        get_files_in_path join at_path search_path sub_dir_flg true with
  | inl paths, inl more => paths `sublist_of` more
  | inr e, inr e' => e = e'
  | _, _ => False
  end.
Proof.
  unfold get_files_in_path.
  destruct (if sub_dir_flg then _ else _) as [search_method|err]; [|reflexivity].
  apply flat_map_sublist. intros [[root ds] fs].
  apply map_sublist, filter_sublist_impl. intros f.
  unfold is_excel_file. simpl. rewrite !andb_true_iff, !orb_true_iff. tauto.
Qed.

(** ** More on the sheet names *)

Lemma sorted_reverse_order (l : list pystr) :
  sorted l true = List.rev (sorted l false).
Proof.
  unfold sorted. f_equal.
  apply (Sorted_unique str_le); [apply Sorted_merge_sort; apply _ ..|].
  by rewrite !merge_sort_Permutation, <- Permutation_rev.
Qed.

Lemma silent_load_workbook (path : pystr) : silent (load_workbook path).
Proof.
  intros w. rewrite load_workbook_run. by destruct (files w !! path) as [[[] ?]|].
Qed.

(** X5: the two orders of [sort_sheet] mirror each other, also with
    names that occur twice and whatever the case of the order argument:
    on a workbook, the list for [desc] is the reverse of the list for
    [asc].  No run of [sort_sheet] changes the world, so that the order
    of the sheets in the file stays what [get_sheets_name] returned
    before. *)
Theorem sort_sheet_orders_mirror (path order order' : pystr) (w : world) :
  (sort_sheet path order w).2 = w /\
  (forall wb,
     is_workbook (files w !! path) = Some wb ->
     lower order = codes "asc" -> lower order' = codes "desc" ->
     exists l,
       sort_sheet path order w = (Return l, w) /\
       sort_sheet path order' w = (Return (List.rev l), w) /\
       get_sheets_name path (sort_sheet path order w).2 = (Return (sheetnames wb), w)).
Proof.
  split.
  - rewrite sort_sheet_run. case_bool_decide; [|reflexivity].
    pose proof (silent_load_workbook path w) as Hw.
    by destruct (load_workbook path w) as [[wb|e|] w'].
  - intros wb Hf Ha Hd. rewrite !sort_sheet_run, Ha, Hd, load_workbook_run.
    destruct (files w !! path) as [[[wb'| | |] ?]|] eqn:Hfile; try discriminate.
    injection Hf as ->. simpl. eexists. split; [reflexivity|].
    split; [f_equal; f_equal; apply sorted_reverse_order|].
    unfold get_sheets_name.
    by rewrite bind_run, load_workbook_run, Hfile, ret_run, sheetnames_read_workbook.
Qed.

Lemma sort_sheet_orders_mirror_witness :
  sort_sheet demo_path (codes "DESC") demo_world =
    (Return [codes "data"; codes "Sheet1"; codes "Alpha"], demo_world).
Proof.
  destruct (sort_sheet_orders_mirror demo_path (codes "Asc") (codes "DESC") demo_world)
    as (_ & H).
  destruct (H demo_book) as (l & Hasc & Hdesc & _); [reflexivity..|].
  rewrite Hdesc. vm_compute in Hasc. injection Hasc as <-. reflexivity.
Defined.

(** ** The font and the export *)

Lemma store_run (path : pystr) (c : content) (w : world) :
  store path c w =
  match files w !! path with
  | None => (Raise FileNotFoundError, w)
  | Some f =>
      if writable f
      then (Return tt, {| files := <[path := {| data := c; writable := true |}]> (files w);
                          stdout := stdout w; calls := calls w |})
      else (Raise PermissionError, w)
  end.
Proof.
  unfold store, read_file, write_file. rewrite bind_run.
  by destruct (files w !! path) as [[? []]|].
Qed.

Lemma open_w_run (path : pystr) (c : content) (w : world) :
  open_w path c w = store path c w.
Proof. reflexivity. Qed.

Lemma getitem_run (wb : workbook) (sheet_name : pystr) (w : world) :
  getitem wb sheet_name w =
  match find_sheet sheet_name (Sheets wb) with
  | Some ws => (Return ws, w)
  | None => (Raise (KeyError (no_worksheet sheet_name)), w)
  end.
Proof. unfold getitem, find_sheet. by destruct (List.find _ _). Qed.

Lemma find_sheet_read (sheet_name : pystr) (l : list sheet) :
  find_sheet sheet_name (map read_sheet l) = option_map read_sheet (find_sheet sheet_name l).
Proof.
  unfold find_sheet. induction l as [|s0 l IH]; [reflexivity|]. cbn [map List.find].
  change (Name (read_sheet s0)) with (Name s0). by destruct (bool_decide _).
Qed.

Lemma read_sheet_again (ws : sheet) : Shapes ws = [] -> read_sheet ws = ws.
Proof. destruct ws. cbn. by intros ->. Qed.

Lemma read_sheets_again (l : list sheet) :
  Forall (fun ws => Shapes ws = []) l -> map read_sheet l = l.
Proof.
  induction 1 as [|ws l Hws _ IH]; [reflexivity|]. cbn [map].
  by rewrite read_sheet_again, IH.
Qed.

Lemma read_workbook_again (wb : workbook) :
  Forall (fun ws => Shapes ws = []) (Sheets wb) -> read_workbook wb = wb.
Proof.
  intros H. unfold read_workbook. rewrite read_sheets_again by exact H. by destruct wb.
Qed.

Lemma read_sheets_no_shapes (l : list sheet) :
  Forall (fun ws => Shapes ws = []) (map read_sheet l).
Proof. apply Forall_fmap, Forall_true. by intros ws. Qed.

Lemma put_sheet_Forall (P : sheet -> Prop) (sheet_name : pystr) (ws : sheet)
    (l : list sheet) :
  P ws -> Forall P l -> Forall P (put_sheet sheet_name ws l).
Proof.
  intros Hws. induction 1 as [|s0 l Hs Hl IH]; cbn [put_sheet]; [constructor|].
  destruct (bool_decide _); by constructor.
Qed.

Lemma find_sheet_Name (sheet_name : pystr) (l : list sheet) (ws : sheet) :
  find_sheet sheet_name l = Some ws -> Name ws = sheet_name.
Proof.
  unfold find_sheet. intros H. apply find_some in H as [_ H].
  by apply bool_decide_eq_true in H.
Qed.

Lemma find_sheet_elem (sheet_name : pystr) (l : list sheet) :
  sheet_name ∈ map Name l -> exists ws, find_sheet sheet_name l = Some ws.
Proof.
  unfold find_sheet. induction l as [|s l IH]; simpl.
  - intros H. by apply elem_of_nil in H.
  - case_bool_decide; [eauto|]. rewrite elem_of_cons. intros [?|?]; [congruence|auto].
Qed.

Lemma find_put_sheet (sheet_name : pystr) (ws ws' : sheet) (l : list sheet) :
  find_sheet sheet_name l = Some ws -> Name ws' = sheet_name ->
  find_sheet sheet_name (put_sheet sheet_name ws' l) = Some ws'.
Proof.
  unfold find_sheet. intros Hfind Hname. induction l as [|s l IH]; simpl in *; [discriminate|].
  case_bool_decide; simpl.
  - by rewrite bool_decide_eq_true_2.
  - rewrite bool_decide_eq_false_2 by assumption. auto.
Qed.

Lemma find_put_sheet_other (sheet_name other : pystr) (ws' : sheet) (l : list sheet) :
  Name ws' = sheet_name -> other <> sheet_name ->
  find_sheet other (put_sheet sheet_name ws' l) = find_sheet other l.
Proof.
  unfold find_sheet. intros Hname Hne. induction l as [|s l IH]; simpl; [reflexivity|].
  case_bool_decide as Hs; simpl.
  - rewrite !bool_decide_eq_false_2 by congruence. reflexivity.
  - by rewrite IH.
Qed.

Lemma put_sheet_twice (sheet_name : pystr) (ws' ws'' : sheet) (l : list sheet) :
  Name ws' = sheet_name ->
  put_sheet sheet_name ws'' (put_sheet sheet_name ws' l) = put_sheet sheet_name ws'' l.
Proof.
  intros Hname. induction l as [|s l IH]; simpl; [reflexivity|].
  case_bool_decide as Hs; simpl.
  - by rewrite bool_decide_eq_true_2.
  - by rewrite bool_decide_eq_false_2, IH.
Qed.

Lemma put_sheet_names (sheet_name : pystr) (ws' : sheet) (l : list sheet) :
  Name ws' = sheet_name -> map Name (put_sheet sheet_name ws' l) = map Name l.
Proof.
  intros Hname. induction l as [|s l IH]; simpl; [reflexivity|].
  case_bool_decide; simpl; congruence.
Qed.

Lemma fonted_twice (f : Font) (ws : sheet) : fonted f (fonted f ws) = fonted f ws.
Proof.
  unfold fonted. simpl. f_equal. rewrite map_map. apply map_ext. intros row.
  rewrite map_map. apply map_ext. by intros [].
Qed.

Lemma change_font_run (path sheet_name font_name : pystr) (w : world) :
  change_font path sheet_name font_name w =
  match load_workbook path w with
  | (Return wb, _) =>
      match find_sheet sheet_name (Sheets wb) with
      | Some ws =>
          store path
            (Workbook {| Sheets := put_sheet sheet_name (fonted (named_font font_name) ws)
                                     (Sheets wb) |}) w
      | None => (Raise (KeyError (no_worksheet sheet_name)), w)
      end
  | (Raise e, _) => (Raise e, w)
  | (Unmodelled, _) => (Unmodelled, w)
  end.
Proof.
  unfold change_font. rewrite bind_run.
  pose proof (silent_load_workbook path w) as Hw.
  destruct (load_workbook path w) as [[wb|e|] w']; simpl in Hw; subst; try reflexivity.
  rewrite bind_run, getitem_run. by destruct (find_sheet _ _).
Qed.

(** X6: on a workbook that can be written and has the sheet,
    [change_font] saves the workbook with the named font, and no other
    attribute of a font, on every cell of the rows of that sheet.  The
    rows, columns and values of the cells, the names and the order of
    the sheets and every other sheet as the library reads it are as
    before, and so are the other files, the output and the calls.  The
    shapes are lost: the library reads none, and no sheet of the saved
    workbook has one. *)
Theorem change_font_effect (path sheet_name font_name : pystr) (w : world)
    (wb : workbook) (ws : sheet) :
  is_workbook (files w !! path) = Some wb ->
  can_write (files w !! path) = true ->
  find_sheet sheet_name (Sheets wb) = Some ws ->
  exists wb',
    change_font path sheet_name font_name w =
      (Return tt,
       {| files := <[path := {| data := Workbook wb'; writable := true |}]> (files w);
          stdout := stdout w; calls := calls w |}) /\
    sheetnames wb' = sheetnames wb /\
    Forall (fun ws' => Shapes ws' = []) (Sheets wb') /\
    (forall other, other <> sheet_name ->
       find_sheet other (Sheets wb') = option_map read_sheet (find_sheet other (Sheets wb))) /\
    exists ws',
      find_sheet sheet_name (Sheets wb') = Some ws' /\
      Forall (Forall (fun c => font c = named_font font_name)) (Rows ws') /\
      map (map (fun c => (Row c, Column c, Value c))) (Rows ws') =
      map (map (fun c => (Row c, Column c, Value c))) (Rows ws) /\
      Name ws' = Name ws.
Proof.
  intros Hf Hw Hs. pose proof (find_sheet_Name _ _ _ Hs) as Hname.
  assert (find_sheet sheet_name (Sheets (read_workbook wb)) = Some (read_sheet ws)) as Hr.
  { cbn [read_workbook Sheets]. by rewrite find_sheet_read, Hs. }
  eexists. split; [|split; [|split; [|split]]].
  - rewrite change_font_run, load_workbook_run.
    destruct (files w !! path) as [[[wb0| | |] [|]]|] eqn:Hfile; try discriminate.
    injection Hf as ->. by rewrite Hr, store_run, Hfile.
  - unfold sheetnames. cbn [Sheets]. rewrite put_sheet_names by exact Hname.
    apply sheetnames_read_workbook.
  - cbn [Sheets]. apply put_sheet_Forall; [reflexivity|]. apply read_sheets_no_shapes.
  - intros other Hne. cbn [Sheets]. rewrite find_put_sheet_other by done.
    apply find_sheet_read.
  - exists (fonted (named_font font_name) (read_sheet ws)).
    split; [by eapply find_put_sheet|]. split; [|split; [|done]].
    + unfold fonted. simpl. rewrite Forall_fmap. apply Forall_true. intros row.
      simpl. rewrite Forall_fmap. by apply Forall_true.
    + unfold fonted. simpl. rewrite map_map. apply map_ext. intros row.
      rewrite map_map. by apply map_ext.
Qed.

Lemma change_font_effect_witness :
  exists wb' w',
    change_font demo_path (codes "Sheet1") (codes "Meiryo UI") demo_world = (Return tt, w') /\
    is_workbook (files w' !! demo_path) = Some wb' /\
    sheetnames wb' = [codes "Sheet1"; codes "data"; codes "Alpha"] /\
    Shapes demo_sheet1 <> [] /\
    Forall (fun ws' => Shapes ws' = []) (Sheets wb').
Proof.
  destruct (change_font_effect demo_path (codes "Sheet1") (codes "Meiryo UI") demo_world
              demo_book demo_sheet1) as (wb' & Hrun & Hnames & Hshapes & _);
    [reflexivity..|].
  exists wb'. eexists. split; [exact Hrun|]. split; [|split; [exact Hnames|]].
  - simpl. by rewrite lookup_insert_eq.
  - split; [discriminate | exact Hshapes].
Defined.

(** X7: [change_font] is idempotent: for every world, running it a
    second time with the same arguments ends as the first run did, with
    the same files. *)
Theorem change_font_twice (path sheet_name font_name : pystr) (w : world) :
  (change_font path sheet_name font_name;; change_font path sheet_name font_name) w =
  change_font path sheet_name font_name w.
Proof.
  rewrite bind_run, change_font_run, load_workbook_run.
  destruct (files w !! path) as [[[wb| | |] wr]|] eqn:Hfile; try reflexivity.
  destruct (find_sheet sheet_name (Sheets (read_workbook wb))) as [ws|] eqn:Hs;
    [|reflexivity].
  pose proof (find_sheet_Name _ _ _ Hs) as Hname.
  assert (Shapes ws = []) as Hno.
  { pose proof (read_sheets_no_shapes (Sheets wb)) as Hall.
    rewrite Forall_forall in Hall. apply Hall.
    unfold find_sheet in Hs. apply find_some in Hs as [Hs _]. by apply list_elem_of_In. }
  rewrite store_run, Hfile. cbn [writable]. destruct wr; [|reflexivity].
  rewrite change_font_run, load_workbook_run. cbn [files]. rewrite lookup_insert_eq.
  rewrite read_workbook_again
    by (apply put_sheet_Forall; [exact Hno | apply read_sheets_no_shapes]).
  cbn [Sheets]. rewrite (find_put_sheet _ ws) by done.
  rewrite store_run. cbn [files]. rewrite lookup_insert_eq. cbn [writable stdout calls].
  by rewrite insert_insert_eq, fonted_twice, put_sheet_twice.
Qed.

Lemma library_values_run (row : list cell) (vs : list variant) (w : world) :
  Forall textual row ->
  for_each (fun c vs => v ← library_value c; mret (vs ++ [v])) row vs w =
    (Return (vs ++ map Value row), w).
Proof.
  intros Hrow. revert vs. induction Hrow as [|c row Hc _ IH]; intros vs; cbn [for_each].
  - by rewrite ret_run, app_nil_r.
  - rewrite bind_run.
    assert ((v ← library_value c; mret (vs ++ [v])) w = (Return (vs ++ [Value c]), w))
      as ->.
    { rewrite bind_run. unfold library_value. unfold textual in Hc.
      by destruct (Value c). }
    rewrite IH. cbn [map]. by rewrite <- app_assoc.
Qed.

Lemma write_rows_run (path : pystr) (rows : list (list cell)) (written : list (list variant))
    (w : world) :
  files w !! path = Some {| data := Csv written; writable := true |} ->
  Forall (Forall textual) rows ->
  for_each
    (fun row _ =>
       values ← for_each (fun c vs => v ← library_value c; mret (vs ++ [v])) row [];
       writerow path values)
    rows tt w =
    (Return tt,
     {| files := <[path := {| data := Csv (written ++ map (map Value) rows);
                              writable := true |}]> (files w);
        stdout := stdout w; calls := calls w |}).
Proof.
  intros Hf Hrows. revert written w Hf.
  induction Hrows as [|row rows Hrow _ IH]; intros written w Hf; cbn [for_each].
  - rewrite ret_run, app_nil_r. rewrite insert_id by exact Hf. by destruct w.
  - rewrite !bind_run, library_values_run by exact Hrow. cbn [app].
    unfold writerow, read_file, write_file. rewrite bind_run, Hf.
    rewrite IH with (written := written ++ [map Value row]);
      [|cbn [files]; apply lookup_insert_eq].
    cbn [files stdout calls map]. by rewrite insert_insert_eq, <- app_assoc.
Qed.

(** X8: on a workbook with the sheet, whose cells hold texts or
    nothing, and a CSV path that can be opened for writing,
    [convert_csv] writes the values of the cells of the sheet, row by
    row, to the file at the CSV path and changes no other file.  With
    another path than the workbook's the workbook loads afterwards as
    before; with the path of the workbook itself the workbook is
    overwritten and does not load any more. *)
Theorem convert_csv_effect (path sheet_name csv_path : pystr) (w : world) (wb : workbook)
    (ws : sheet) :
  is_workbook (files w !! path) = Some wb ->
  find_sheet sheet_name (Sheets wb) = Some ws ->
  Forall (Forall textual) (Rows ws) ->
  can_write (files w !! csv_path) = true ->
  exists w',
    convert_csv path sheet_name csv_path w = (Return tt, w') /\
    files w' !! csv_path =
      Some {| data := Csv (map (map Value) (Rows ws)); writable := true |} /\
    (forall p, p <> csv_path -> files w' !! p = files w !! p) /\
    stdout w' = stdout w /\ calls w' = calls w /\
    (csv_path <> path -> load_workbook path w' = (Return (read_workbook wb), w')) /\
    (csv_path = path -> load_workbook path w' = (Raise BadZipFile, w')).
Proof.
  intros Hf Hfind Hrows Hw.
  assert (sheet_name ∈ sheetnames (read_workbook wb)) as Hs.
  { rewrite sheetnames_read_workbook. unfold sheetnames.
    rewrite <- (find_sheet_Name _ _ _ Hfind). apply list_elem_of_fmap_2.
    unfold find_sheet in Hfind. apply find_some in Hfind as [Hin _].
    by apply list_elem_of_In. }
  destruct (files w !! csv_path) as [[d []]|] eqn:Hcsv; try discriminate. clear Hw.
  eexists. split.
  - unfold convert_csv. rewrite bind_run, load_workbook_run.
    destruct (files w !! path) as [[[wb0| | |] ?]|] eqn:Hfile; try discriminate.
    injection Hf as ->. rewrite bool_decide_eq_true_2 by exact Hs.
    rewrite bind_run, getitem_run. cbn [read_workbook Sheets].
    rewrite find_sheet_read, Hfind. cbn [option_map].
    rewrite bind_run, open_w_run, store_run, Hcsv. cbn [writable].
    rewrite (write_rows_run csv_path _ []);
      [|cbn [files]; apply lookup_insert_eq|exact Hrows].
    cbn [files stdout calls app]. rewrite insert_insert_eq. reflexivity.
  - cbn [files stdout calls]. split; [apply lookup_insert_eq|].
    split; [intros p Hp; by apply lookup_insert_ne|]. split; [reflexivity|].
    split; [reflexivity|]. split.
    + intros Hne. rewrite load_workbook_run. cbn [files].
      rewrite lookup_insert_ne by exact Hne.
      by destruct (files w !! path) as [[[wb0| | |] ?]|]; try discriminate;
        injection Hf as ->.
    + intros ->. rewrite load_workbook_run. cbn [files]. by rewrite lookup_insert_eq.
Qed.

Lemma convert_csv_effect_witness :
  exists w',
    convert_csv demo_path (codes "Sheet1") export_path export_world = (Return tt, w') /\
    files w' !! export_path =
      Some {| data := Csv [[VStr (codes "foobar"); VStr (codes "xyz")];
                           [VStr (codes "abcxyz"); VStr (codes "abc")]];
              writable := true |} /\
    load_workbook demo_path w' = (Return (read_workbook demo_book), w').
Proof.
  destruct (convert_csv_effect demo_path (codes "Sheet1") export_path export_world
              demo_book demo_sheet1) as (w' & Hrun & Hcsv & _ & _ & _ & Hload & _).
  - reflexivity.
  - reflexivity.
  - repeat constructor.
  - reflexivity.
  - exists w'. split; [exact Hrun|]. split; [exact Hcsv|].
    apply Hload. discriminate.
Defined.

(** ** More on the replacement *)

Lemma exact_new_is_rs (ss rs text : pystr) :
  literal_new ss rs true text <> text -> literal_new ss rs true text = rs.
Proof. unfold literal_new. case_bool_decide; congruence. Qed.

Lemma exact_new_not_ss (ss rs text : pystr) :
  rs <> ss -> literal_new ss rs true text <> ss.
Proof. unfold literal_new. case_bool_decide; congruence. Qed.

(** In the exact mode the only text written is the replacement string:
    where the reading keeps it, a cell reads back as the new text. *)
Lemma cell_text_after (entered : reading) (ss rs sn : pystr) (c : cell) :
  kept_as_text entered rs ->
  cell_text (cell_after entered ss rs true sn c) = literal_new ss rs true (cell_text c).
Proof.
  intros Hkept. unfold cell_after, cell_changed. case_bool_decide as H.
  - rewrite (exact_new_is_rs _ _ _ H). apply Hkept.
  - congruence.
Qed.

Lemma literal_new_exact_twice (ss rs text : pystr) :
  literal_new ss rs true (literal_new ss rs true text) = literal_new ss rs true text.
Proof.
  unfold literal_new. repeat case_bool_decide; congruence.
Qed.

Lemma cell_after_exact_settled (entered : reading) (ss rs sn : pystr) (c : cell) :
  kept_as_text entered rs ->
  cell_changed ss rs true (cell_after entered ss rs true sn c) = false.
Proof.
  intros Hkept. unfold cell_changed. rewrite cell_text_after, literal_new_exact_twice by done.
  by apply bool_decide_eq_false_2; intros [].
Qed.

Lemma Text_after (ss rs : pystr) (em : bool) (sh : shape) :
  Text (shape_after ss rs em sh) = literal_new ss rs em (Text sh).
Proof.
  unfold shape_after, shape_changed. case_bool_decide as H; [reflexivity|]. congruence.
Qed.

Lemma shape_after_exact_settled (ss rs : pystr) (sh : shape) :
  shape_changed ss rs true (shape_after ss rs true sh) = false.
Proof.
  unfold shape_changed. rewrite Text_after, literal_new_exact_twice.
  by apply bool_decide_eq_false_2; intros [].
Qed.

Lemma filter_none {A} (f : A -> bool) (l : list A) :
  (forall x, x ∈ l -> f x = false) -> List.filter f l = [].
Proof.
  induction l as [|x l IH]; intros Hf; simpl; [reflexivity|].
  rewrite (Hf x) by left. apply IH. intros y Hy. apply Hf. by right.
Qed.

Lemma map_id_on {A} (f : A -> A) (l : list A) :
  (forall x, x ∈ l -> f x = x) -> map f l = l.
Proof.
  induction l as [|x l IH]; intros Hf; simpl; [reflexivity|].
  rewrite (Hf x) by left. f_equal. apply IH. intros y Hy. apply Hf. by right.
Qed.

Lemma elem_of_concat {A} (x : A) (l : list (list A)) :
  x ∈ concat l <-> exists row, x ∈ row /\ row ∈ l.
Proof.
  rewrite list_elem_of_In, in_concat. split; intros (row & H1 & H2); exists row;
    by rewrite ?list_elem_of_In in *.
Qed.

Lemma sheet_after_exact_settled (entered : reading) (ss rs : pystr) (ws : sheet) :
  kept_as_text entered rs ->
  sheet_changes ss rs true (sheet_after entered ss rs true ws) = [] /\
  sheet_writes ss rs true (sheet_after entered ss rs true ws) = [] /\
  sheet_after entered ss rs true (sheet_after entered ss rs true ws)
  = sheet_after entered ss rs true ws.
Proof.
  intros Hkept. assert (forall c, c ∈ concat (Rows (sheet_after entered ss rs true ws)) ->
            cell_changed ss rs true c = false) as Hcells.
  { intros c Hc. cbn [sheet_after Rows] in Hc.
    apply elem_of_concat in Hc as (row & Hc & Hrow).
    apply list_elem_of_fmap in Hrow as (row0 & -> & _).
    apply list_elem_of_fmap in Hc as (c0 & -> & _). by apply cell_after_exact_settled. }
  assert (forall sh, sh ∈ Shapes (sheet_after entered ss rs true ws) ->
            shape_changed ss rs true sh = false) as Hshapes.
  { intros sh Hsh. cbn [sheet_after Shapes] in Hsh.
    apply list_elem_of_fmap in Hsh as (sh0 & -> & _). apply shape_after_exact_settled. }
  unfold sheet_changes, sheet_writes.
  rewrite !(filter_none _ _ Hcells), !(filter_none _ _ Hshapes).
  split; [reflexivity|]. split; [reflexivity|].
  unfold sheet_after at 1. rewrite !map_id_on; [reflexivity|..].
  - intros sh Hsh. unfold shape_after. by rewrite Hshapes.
  - intros row Hrow. apply map_id_on. intros c Hc.
    unfold cell_after. rewrite Hcells; [reflexivity|].
    apply elem_of_concat. eauto.
Qed.

Lemma valid_columns_after (entered : reading) (ss rs : pystr) (em : bool) (wb : workbook) :
  valid_columns wb ->
  valid_columns {| Sheets := map (sheet_after entered ss rs em) (Sheets wb) |}.
Proof.
  unfold valid_columns. cbn [Sheets]. intros Hwb. apply Forall_fmap.
  eapply Forall_impl; [exact Hwb|]. intros ws Hws. cbn [sheet_after Rows].
  apply Forall_fmap. eapply Forall_impl; [exact Hws|]. intros row Hrow.
  apply Forall_fmap. eapply Forall_impl; [exact Hrow|]. intros c Hc.
  unfold compose, valid_column, cell_after in *.
  by destruct (cell_changed ss rs em c).
Qed.

(** X9: the replacement with [exact_match] and without [use_regex] is
    idempotent where the replacement string reads back as it was
    assigned: after a run on a writable workbook, a second run with the
    same arguments returns no record, writes no cell and no shape, and
    saves the files as they are. *)
Theorem replace_exact_twice (entered : reading) (path ss rs : pystr) (w : world)
    (wb : workbook) :
  files w !! path = Some {| data := Workbook wb; writable := true |} ->
  valid_columns wb ->
  kept_as_text entered rs ->
  exists results w1 w2,
    replace_string_in_book entered path ss rs true false w = (Return results, w1) /\
    replace_string_in_book entered path ss rs true false w1 = (Return [], w2) /\
    files w2 = files w1 /\
    calls w2 = calls w1 ++ [Dispatch; WorkbooksOpen path false; Save; Close false; Quit].
Proof.
  intros Hf Hv Hkept. eexists _, _, _.
  split; [by apply replace_string_in_book_literal|].
  assert (forall l,
            flat_map (sheet_changes ss rs true) (map (sheet_after entered ss rs true) l) = [] /\
            flat_map (sheet_writes ss rs true) (map (sheet_after entered ss rs true) l) = [] /\
            map (sheet_after entered ss rs true) (map (sheet_after entered ss rs true) l)
            = map (sheet_after entered ss rs true) l) as Hsettled.
  { induction l as [|ws l (IH1 & IH2 & IH3)]; [done|]. cbn [map flat_map].
    destruct (sheet_after_exact_settled entered ss rs ws Hkept) as (-> & -> & ->).
    by rewrite IH1, IH2, IH3. }
  destruct (Hsettled (Sheets wb)) as (H1 & H2 & H3).
  rewrite (replace_string_in_book_literal entered ss rs true path _
             {| Sheets := map (sheet_after entered ss rs true) (Sheets wb) |}).
  - cbn [Sheets files stdout calls]. rewrite H1, H2, H3, insert_insert_eq.
    split; [reflexivity|]. split; reflexivity.
  - cbn [files]. apply lookup_insert_eq.
  - by apply valid_columns_after.
Qed.

Lemma replace_exact_twice_witness :
  exists w1 w2,
    replace_string_in_book sample_reading demo_path (codes "abc") (codes "ABC") true false
      demo_world =
      (Return [(codes "Sheet1", codes "B2", codes "abc", codes "ABC")], w1) /\
    replace_string_in_book sample_reading demo_path (codes "abc") (codes "ABC") true false w1 =
      (Return [], w2).
Proof.
  destruct (replace_exact_twice sample_reading demo_path (codes "abc") (codes "ABC")
              demo_world demo_book) as (results & w1 & w2 & H1 & H2 & _).
  - reflexivity.
  - apply (bool_decide_unpack _). vm_compute. exact I.
  - intros sn c. reflexivity.
  - exists w1, w2. split; [|exact H2].
    rewrite H1. f_equal. f_equal.
    assert ((replace_string_in_book sample_reading demo_path (codes "abc") (codes "ABC")
               true false demo_world).1 =
            Return [(codes "Sheet1", codes "B2", codes "abc", codes "ABC")]) as H
      by (vm_compute; reflexivity).
    rewrite H1 in H. by injection H.
Defined.

(** Where the reading does not keep the replacement string the second
    run can change the cell again: under the sample reading, [12] put
    for [12.0] is a number, which reads back as [12.0]. *)
Lemma replace_exact_twice_number :
  exists w1 w2,
    replace_string_in_book sample_reading demo_path (codes "12.0") (codes "12") true false
      demo_world =
      (Return [(codes "data", codes "B1", codes "12.0", codes "12")], w1) /\
    replace_string_in_book sample_reading demo_path (codes "12.0") (codes "12") true false w1 =
      (Return [(codes "data", codes "B1", codes "12.0", codes "12")], w2).
Proof. eexists _, _. split; vm_compute; reflexivity. Qed.

Lemma literal_new_changed (ss rs : pystr) (em : bool) (text : pystr) :
  literal_new ss rs em text <> text -> literal_match ss em text = true.
Proof.
  unfold literal_new, literal_match. destruct em.
  - case_bool_decide; [done | congruence].
  - destruct (contains ss text); [done | congruence].
Qed.

Lemma sheet_changes_hits (ss rs : pystr) (em : bool) (ws : sheet) :
  map forget_new (sheet_changes ss rs em ws) `sublist_of` literal_hits ss em ws /\
  Forall (fun c => c.1.2 <> c.2) (sheet_changes ss rs em ws).
Proof.
  unfold sheet_changes, literal_hits. split.
  - rewrite map_app, !map_map. apply sublist_app.
    + change (fun x => forget_new (cell_change ss rs em (Name ws) x))
        with (cell_hit (Name ws)).
      apply map_sublist, filter_sublist_impl. intros c Hc.
      apply (literal_new_changed ss rs). by apply bool_decide_eq_true in Hc.
    + change (fun x => forget_new (shape_change ss rs em (Name ws) x))
        with (shape_hit (Name ws)).
      apply map_sublist, filter_sublist_impl. intros sh Hsh.
      apply (literal_new_changed ss rs). by apply bool_decide_eq_true in Hsh.
  - apply Forall_app. split; apply Forall_fmap, Forall_forall; intros x Hx;
      apply list_elem_of_In, filter_In in Hx as [_ Hx];
      apply bool_decide_eq_true in Hx; simpl; congruence.
Qed.

(** X10: without [use_regex], what the replacement changes is part of
    what the search with the same arguments finds: on a writable
    workbook the records of the replacement, their new text left out,
    are a sublist of the records of the search, and in each of them the
    new text differs from the old one. *)
Theorem replace_changes_are_search_hits (entered : reading) (path ss rs : pystr)
    (em : bool) (w : world) (wb : workbook) :
  files w !! path = Some {| data := Workbook wb; writable := true |} ->
  valid_columns wb ->
  exists changes hits,
    (replace_string_in_book entered path ss rs em false w).1 = Return changes /\
    (search_string_in_book path ss em false w).1 = Return hits /\
    map forget_new changes `sublist_of` hits /\
    Forall (fun c => c.1.2 <> c.2) changes.
Proof.
  intros Hf Hv. eexists _, _.
  split; [by rewrite (replace_string_in_book_literal entered ss rs em path w wb)|].
  split.
  { rewrite search_string_in_book_run. unfold is_workbook. rewrite Hf. cbn zeta.
    by rewrite scan_book_literal. }
  clear Hf Hv. induction (Sheets wb) as [|ws l [IH1 IH2]]; [by split; constructor|].
  destruct (sheet_changes_hits ss rs em ws) as [H1 H2]. cbn [flat_map]. split.
  - rewrite map_app. by apply sublist_app.
  - by apply Forall_app.
Qed.

Lemma replace_changes_are_search_hits_witness :
  exists hits,
    (replace_string_in_book sample_reading demo_path (codes "abc") (codes "ABC") false false
       demo_world).1
    = Return [(codes "Sheet1", codes "A2", codes "abcxyz", codes "ABCxyz");
              (codes "Sheet1", codes "B2", codes "abc", codes "ABC")] /\
    (search_string_in_book demo_path (codes "abc") false false demo_world).1 = Return hits /\
    [(codes "Sheet1", codes "A2", codes "abcxyz");
     (codes "Sheet1", codes "B2", codes "abc")] `sublist_of` hits.
Proof.
  destruct (replace_changes_are_search_hits sample_reading demo_path (codes "abc")
              (codes "ABC") false demo_world demo_book)
    as (changes & hits & H1 & H2 & H3 & _).
  - reflexivity.
  - apply (bool_decide_unpack _). vm_compute. exact I.
  - exists hits.
    assert ((replace_string_in_book sample_reading demo_path (codes "abc") (codes "ABC")
               false false demo_world).1 =
            Return [(codes "Sheet1", codes "A2", codes "abcxyz", codes "ABCxyz");
                    (codes "Sheet1", codes "B2", codes "abc", codes "ABC")]) as H
      by (vm_compute; reflexivity).
    split; [exact H|]. split; [exact H2|].
    rewrite H1 in H. injection H as ->. exact H3.
Defined.

Lemma only_calls_silent {A} (m : M A) : silent m -> only_calls m.
Proof. intros Hm w. exists []. by rewrite called_nil. Qed.

Lemma only_calls_call (c : com_call) : only_calls (call c).
Proof. intros w. by exists [c]. Qed.

Lemma only_calls_bind {A B} (m : M A) (f : A -> M B) :
  only_calls m -> (forall a, only_calls (f a)) -> only_calls (m ≫= f).
Proof.
  intros Hm Hf w. rewrite bind_run. destruct (Hm w) as [cs Hcs].
  destruct (m w) as [[a|e|] w']; simpl in *; subst; [|by exists cs..].
  destruct (Hf a (called w cs)) as [cs' Hcs']. exists (cs ++ cs').
  by rewrite Hcs', called_app.
Qed.

Lemma only_calls_for_each_update {A S} (body : A -> S -> M (A * S)) (l : list A) :
  (forall x s, only_calls (body x s)) -> forall s, only_calls (for_each_update body l s).
Proof.
  intros Hb. induction l as [|x l IH]; intros s; cbn [for_each_update].
  - apply only_calls_silent, silent_ret.
  - apply only_calls_bind; [apply Hb|]. intros [x' s'].
    apply only_calls_bind; [apply IH|]. intros [l' s'']. apply only_calls_silent, silent_ret.
Qed.

Lemma silent_new_text ss rs em re p text : silent (new_text ss rs em re p text).
Proof. intros w. apply new_text_world. Qed.

Lemma only_calls_replace_cell (entered : reading) sn ss rs em re p c results :
  only_calls (replace_cell entered sn ss rs em re p c results).
Proof.
  apply only_calls_bind; [apply only_calls_silent, silent_new_text|]. intros new_value.
  case_bool_decide; [|apply only_calls_silent, silent_ret].
  apply only_calls_bind; [apply only_calls_silent, silent_py_chr|]. intros col_letter.
  apply only_calls_bind; [apply only_calls_call|]. intros _.
  apply only_calls_silent, silent_ret.
Qed.

Lemma only_calls_replace_shape sn ss rs em re p sh results :
  only_calls (replace_shape sn ss rs em re p sh results).
Proof.
  apply only_calls_bind; [apply only_calls_silent, silent_new_text|]. intros new_value.
  case_bool_decide; [|apply only_calls_silent, silent_ret].
  apply only_calls_bind; [apply only_calls_call|]. intros _.
  apply only_calls_silent, silent_ret.
Qed.

Lemma only_calls_replace_sheet (entered : reading) ss rs em re p ws results :
  only_calls (replace_sheet entered ss rs em re p ws results).
Proof.
  apply only_calls_bind.
  { apply only_calls_for_each_update. intros row s.
    apply only_calls_for_each_update. intros c s'. apply only_calls_replace_cell. }
  intros [rows results'']. apply only_calls_bind.
  { apply only_calls_for_each_update. intros sh s. apply only_calls_replace_shape. }
  intros [shapes results']. apply only_calls_silent, silent_ret.
Qed.

Lemma replace_string_in_book_files (entered : reading) (path ss rs : pystr) (em re : bool)
    (w : world) :
  let r := replace_string_in_book entered path ss rs em re w in
  files r.2 = files w \/
  exists results wb',
    r.1 = Return results /\
    files r.2 = <[path := {| data := Workbook wb'; writable := true |}]> (files w).
Proof.
  cbn zeta. unfold replace_string_in_book, attempt, print, call.
  run. rewrite Workbooks_Open_run. cbn [files].
  destruct (is_workbook (files w !! path)) as [wb|]; run; [|by left].
  pose proof (silent_make_pattern ss em re) as Hp.
  match goal with |- context [make_pattern ss em re ?w0] =>
    specialize (Hp w0); destruct (make_pattern ss em re w0) as [[p|e|] w1] end;
    simpl in Hp; subst; run; [|by left..].
  match goal with |- context [for_each_update ?b ?l ?s ?w0] =>
    destruct (only_calls_for_each_update b l
                (fun ws results => only_calls_replace_sheet entered ss rs em re p ws results)
                s w0)
      as [cs Hcs];
    destruct (for_each_update b l s w0) as [[[sheets results]|e|] w2] end;
    simpl in Hcs; subst; run; [|by left..].
  unfold Workbook_Save, Workbook_Close, save_book, read_file, write_file, call. run.
  destruct (files w !! path) as [[? []]|]; run; [|by left..].
  right. eauto.
Qed.

(** X11: whatever its arguments, the replacement touches no file but
    the workbook it was given; and the workbook itself is changed only
    by a run that returns: when the run raises (a pattern that does not
    compile, a replacement template in error, a failing save), the file
    is as before, whatever was written to cells before. *)
Theorem replace_string_in_book_frame (entered : reading) (path ss rs : pystr)
    (em re : bool) (w : world) :
  let r := replace_string_in_book entered path ss rs em re w in
  (forall other, other <> path -> files r.2 !! other = files w !! other) /\
  ((forall results, r.1 <> Return results) -> files r.2 = files w) /\
  (is_workbook (files w !! path) = None -> files r.2 = files w).
Proof.
  cbn zeta. split; [|split].
  - intros other Hne.
    destruct (replace_string_in_book_files entered path ss rs em re w)
      as [->|(results & wb' & _ & ->)]; [reflexivity|].
    by apply lookup_insert_ne.
  - intros Hraise.
    destruct (replace_string_in_book_files entered path ss rs em re w)
      as [->|(results & wb' & Hr & _)]; [reflexivity|]. by destruct (Hraise results).
  - intros Hf. by rewrite replace_string_in_book_open_failure.
Qed.

Lemma replace_string_in_book_frame_witness :
  (replace_string_in_book sample_reading demo_path (codes "*a") (codes "x") false true
     demo_world).1
  = Raise re_error /\
  files (replace_string_in_book sample_reading demo_path (codes "*a") (codes "x") false true
           demo_world).2
  = files demo_world.
Proof.
  split; [vm_compute; reflexivity|].
  destruct (replace_string_in_book_frame sample_reading demo_path (codes "*a") (codes "x")
              false true demo_world) as (_ & H & _).
  apply H. intros results. vm_compute. discriminate.
Defined.

(** ** More on the patterns *)

Lemma exact_pattern_at_start_k (ss text : pystr) (k : nat -> pystr -> option nat) :
  Re.match_alts (exact_pattern ss) k 0 text =
  if bool_decide (text = ss \/ text = ss ++ [10])
  then k (length ss) (drop (length ss) text) else None.
Proof.
  unfold exact_pattern. cbn [Re.match_alts Re.match_items Re.match_one].
  rewrite match_items_lits. cbn [Re.match_items Re.match_one].
  destruct (startswith ss text) eqn:Hs.
  - apply startswith_spec in Hs as [post ->].
    rewrite drop_app_length.
    rewrite (bool_decide_ext (ss ++ post = ss \/ ss ++ post = ss ++ [10])
               (post = [] \/ post = [10])).
    + case_bool_decide; [|reflexivity]. simpl. by destruct (k (length ss) post).
    + rewrite <- (app_nil_r ss) at 2. split; intros [H|H]; simplify_list_eq; auto.
  - rewrite bool_decide_eq_false_2; [reflexivity|].
    intros [->| ->]; apply not_true_iff_false in Hs; apply Hs, startswith_spec; eauto.
    exists []. by rewrite app_nil_r.
Qed.

Lemma exact_pattern_not_at_start (ss : pystr) (k : nat -> pystr -> option nat)
    (pos : nat) (rest : pystr) :
  Re.match_alts (exact_pattern ss) k (S pos) rest = None.
Proof. reflexivity. Qed.

Lemma sub_walk_exact_later (ss t : pystr) (pos : nat) (rest : pystr) (skip : nat) :
  Re.sub_walk (exact_pattern ss) t (S pos) rest skip = drop skip rest.
Proof.
  revert pos skip. induction rest as [|c rest IH]; intros pos skip.
  - destruct skip; reflexivity.
  - destruct skip as [|k]; cbn [Re.sub_walk drop].
    + unfold Re.sub_at. rewrite exact_pattern_not_at_start. cbn [app].
      by rewrite IH.
    + apply IH.
Qed.

Lemma sub_walk_unfold (p : Re.pattern) (t : pystr) (pos : nat) (rest : pystr) :
  Re.sub_walk p t pos rest 0 =
  let '(out, n) := Re.sub_at p t pos rest in
  match rest with
  | [] => out
  | c :: rest' =>
      match n with
      | O => out ++ c :: Re.sub_walk p t (S pos) rest' 0
      | S k => out ++ Re.sub_walk p t (S pos) rest' k
      end
  end.
Proof. by destruct rest. Qed.

Lemma sub_walk_exact (ss t tail : pystr) :
  tail = [] \/ tail = [10] ->
  Re.sub_walk (exact_pattern ss) t 0 (ss ++ tail) 0 = t ++ tail.
Proof.
  intros Htail. rewrite sub_walk_unfold. unfold Re.sub_at.
  rewrite !exact_pattern_at_start_k.
  rewrite bool_decide_eq_true_2 by (destruct Htail as [-> | ->]; rewrite ?app_nil_r; auto).
  unfold Re.accept. cbn [andb]. destruct ss as [|c ss]; cbn [length app].
  - rewrite bool_decide_eq_true_2 by reflexivity. cbn [andb].
    destruct Htail as [-> | ->]; [by rewrite app_nil_r|].
    by rewrite sub_walk_exact_later.
  - rewrite bool_decide_eq_false_2 by lia.
    cbn [Nat.sub]. by rewrite sub_walk_exact_later, drop_app_length.
Qed.

Lemma template_plain (rs : pystr) : 92 ∉ rs -> Re.template rs = Re.Ok rs.
Proof.
  induction rs as [|c rs IH]; [reflexivity|]. rewrite not_elem_of_cons. intros [Hc Hrs].
  cbn [Re.template]. rewrite decide_False by congruence. by rewrite IH.
Qed.

(** X12: the replacement with [use_regex] and [exact_match].  The
    pattern compiles for every search string; a text equal to the search
    string becomes the replacement string with its escapes expanded, the
    replacement string itself when it has no backslash; a newline after
    the search string is kept; a replacement string in error makes the
    replacement raise [re.error] at such a text. *)
Theorem replace_exact_regex (ss rs : pystr) (w : world) :
  exists p,
    make_pattern ss true true w = (Return (Some p), w) /\
    (forall t, Re.template rs = Re.Ok t ->
       new_text ss rs true true (Some p) ss w = (Return t, w) /\
       new_text ss rs true true (Some p) (ss ++ [10]) w = (Return (t ++ [10]), w)) /\
    (92 ∉ rs -> new_text ss rs true true (Some p) ss w = (Return rs, w)) /\
    (Re.template rs = Re.Error ->
       new_text ss rs true true (Some p) ss w = (Raise re_error, w)).
Proof.
  exists (exact_pattern ss).
  split; [unfold make_pattern; by rewrite bind_run, compile_exact|].
  assert (forall text, text = ss \/ text = ss ++ [10] ->
            new_text ss rs true true (Some (exact_pattern ss)) text w =
            of_re (Re.sub (exact_pattern ss) rs text) w) as Hnew.
  { intros text Htext. unfold new_text, pattern_search.
    rewrite bind_run, ret_run, search_exact_pattern.
    by rewrite bool_decide_eq_true_2. }
  assert (forall t, Re.template rs = Re.Ok t ->
            new_text ss rs true true (Some (exact_pattern ss)) ss w = (Return t, w) /\
            new_text ss rs true true (Some (exact_pattern ss)) (ss ++ [10]) w =
              (Return (t ++ [10]), w)) as Hok.
  { intros t Ht. rewrite !Hnew by auto. unfold Re.sub. rewrite Ht.
    rewrite (sub_walk_exact ss t [10]) by auto.
    rewrite <- (app_nil_r ss) at 2. rewrite (sub_walk_exact ss t []) by auto.
    by rewrite app_nil_r. }
  split; [exact Hok|]. split.
  - intros Hrs. by apply Hok, template_plain.
  - intros Herr. rewrite Hnew by auto. unfold Re.sub. by rewrite Herr.
Qed.

Lemma replace_exact_regex_witness :
  exists p,
    make_pattern (codes "a.c") true true demo_world = (Return (Some p), demo_world) /\
    new_text (codes "a.c") (codes "X") true true (Some p) (codes "a.c") demo_world =
      (Return (codes "X"), demo_world).
Proof.
  destruct (replace_exact_regex (codes "a.c") (codes "X") demo_world)
    as (p & Hp & _ & Hplain & _).
  exists p. split; [exact Hp|]. apply Hplain.
  apply (bool_decide_unpack _). vm_compute. exact I.
Defined.

(** ** The search with a pattern *)

Lemma for_each_filter {A} (body : A -> list hit -> M (list hit)) (f : A -> bool)
    (h : A -> hit) (P : A -> Prop) (l : list A) (rs : list hit) (w : world) :
  (forall x rs w, P x -> body x rs w = (Return (if f x then rs ++ [h x] else rs), w)) ->
  Forall P l ->
  for_each body l rs w = (Return (rs ++ map h (List.filter f l)), w).
Proof.
  intros Hbody Hl. revert rs. induction Hl as [|x l Hx Hl IH]; intros rs; cbn [for_each].
  - by rewrite ret_run, app_nil_r.
  - rewrite bind_run, Hbody by assumption. rewrite IH. cbn [List.filter].
    destruct (f x); cbn [map]; [|reflexivity]. by rewrite <- app_assoc.
Qed.

Lemma search_cell_regex sn ss em pat (c : cell) (rs : list hit) (w : world) :
  valid_column c ->
  search_cell sn ss em true (Some pat) c rs w =
    (Return (if Re.search pat (cell_text c) then rs ++ [cell_hit sn c] else rs), w).
Proof.
  intros Hc. unfold search_cell, pattern_search. rewrite bind_run, ret_run.
  destruct (Re.search pat (cell_text c)); [by apply append_cell_run | reflexivity].
Qed.

Lemma search_shape_regex sn ss em pat (sh : shape) (rs : list hit) (w : world) :
  search_shape sn ss em true (Some pat) sh rs w =
    (Return (if Re.search pat (Text sh) then rs ++ [shape_hit sn sh] else rs), w).
Proof.
  unfold search_shape, pattern_search. rewrite bind_run, ret_run.
  by destruct (Re.search pat (Text sh)).
Qed.

Lemma search_rows_regex sn ss em pat (rows : list (list cell)) (rs : list hit) (w : world) :
  Forall (Forall valid_column) rows ->
  for_each (for_each (search_cell sn ss em true (Some pat))) rows rs w =
    (Return (rs ++ map (cell_hit sn)
               (List.filter (fun c => Re.search pat (cell_text c)) (concat rows))), w).
Proof.
  intros Hrows. revert rs. induction Hrows as [|row rows Hrow Hrows IH]; intros rs;
    cbn [for_each].
  - by rewrite ret_run, app_nil_r.
  - rewrite bind_run.
    rewrite (for_each_filter _ (fun c => Re.search pat (cell_text c)) (cell_hit sn)
               valid_column) by (auto using search_cell_regex).
    rewrite IH. cbn [concat]. by rewrite List.filter_app, map_app, app_assoc.
Qed.

Lemma search_sheets_regex ss em pat (sheets : list sheet) (rs : list hit) (w : world) :
  Forall (fun ws => Forall (Forall valid_column) (Rows ws)) sheets ->
  for_each (search_sheet ss em true (Some pat)) sheets rs w =
    (Return (rs ++ flat_map (hits_by (Re.search pat)) sheets), w).
Proof.
  intros Hs. revert rs. induction Hs as [|ws sheets Hws Hs IH]; intros rs; cbn [for_each].
  - by rewrite ret_run, app_nil_r.
  - rewrite bind_run. unfold search_sheet at 1.
    rewrite bind_run, search_rows_regex by assumption.
    rewrite (for_each_filter _ (fun sh => Re.search pat (Text sh)) (shape_hit (Name ws))
               (fun _ => True))
      by (intros; apply search_shape_regex) || by apply Forall_true.
    rewrite IH. cbn [flat_map]. unfold hits_by. by rewrite <- !app_assoc.
Qed.

Lemma make_pattern_world (ss : pystr) (em : bool) (w w0 : world) (pat : Re.pattern) :
  (make_pattern ss em true w).1 = Return (Some pat) ->
  make_pattern ss em true w0 = (Return (Some pat), w0).
Proof.
  intros Hp. unfold make_pattern in *. destruct em; rewrite bind_run in *.
  - destruct (Re.compile _); simpl in *; by try discriminate; injection Hp as <-.
  - destruct (Re.compile _); simpl in *; by try discriminate; injection Hp as <-.
Qed.

Lemma search_with_pattern (path ss : pystr) (em : bool) (w : world)
    (wb : workbook) (pat : Re.pattern) :
  is_workbook (files w !! path) = Some wb ->
  valid_columns wb ->
  (make_pattern ss em true w).1 = Return (Some pat) ->
  search_string_in_book path ss em true w =
    (Return (flat_map (hits_by (Re.search pat)) (Sheets wb)),
     called w [Dispatch; WorkbooksOpen path true; Close false; Quit]).
Proof.
  intros Hf Hv Hp. rewrite search_string_in_book_run, Hf. cbn zeta.
  unfold scan_book. rewrite bind_run.
  rewrite (make_pattern_world ss em w _ pat Hp), search_sheets_regex by assumption.
  cbn [fst app]. by rewrite called_app.
Qed.

(** X13: the search with [use_regex].  When the pattern compiles, the
    search on a workbook that opens returns the records of exactly the
    cells and shapes in whose text the pattern is found somewhere, in
    the order of the traversal, and ends with [Close(False)] and
    [Quit]. *)
Theorem search_string_in_book_regex (path ss : pystr) (em : bool) (w : world)
    (wb : workbook) (pat : Re.pattern) :
  is_workbook (files w !! path) = Some wb ->
  valid_columns wb ->
  (make_pattern ss em true w).1 = Return (Some pat) ->
  search_string_in_book path ss em true w =
    (Return (flat_map (hits_by (Re.search pat)) (Sheets wb)),
     called w [Dispatch; WorkbooksOpen path true; Close false; Quit]).
Proof. apply search_with_pattern. Qed.

Lemma search_string_in_book_regex_witness :
  (search_string_in_book demo_path (codes "^a.*z$|oo") false true demo_world).1 =
    Return [(codes "Sheet1", codes "A1", codes "foobar");
            (codes "Sheet1", codes "A2", codes "abcxyz");
            (codes "Sheet1", shape_label (codes "Box 1"), codes "a foo")].
Proof.
  destruct (Re.compile (codes "^a.*z$|oo")) as [pat| |] eqn:Hpat; try discriminate.
  rewrite (search_string_in_book_regex demo_path (codes "^a.*z$|oo") false demo_world
             demo_book pat).
  - vm_compute in Hpat. injection Hpat as <-. vm_compute. reflexivity.
  - reflexivity.
  - apply (bool_decide_unpack _). vm_compute. exact I.
  - unfold make_pattern. rewrite bind_run, Hpat. reflexivity.
Defined.

(** X14: a pattern in error is found out after the workbook was
    opened.  With [use_regex] alone and a search string that does not
    compile, the search and the replacement on a workbook that opens
    raise [re.error]; the calls made are the start of the application
    and the opening only, so the workbook is neither closed nor the
    application quit, and the file is as before. *)
Theorem bad_pattern_leaves_workbook_open (entered : reading) (path ss rs : pystr)
    (w : world) (wb : workbook) :
  is_workbook (files w !! path) = Some wb ->
  Re.compile ss = Re.Error ->
  search_string_in_book path ss false true w =
    (Raise re_error, called w [Dispatch; WorkbooksOpen path true]) /\
  replace_string_in_book entered path ss rs false true w =
    (Raise re_error,
     {| files := files w; stdout := stdout w ++ [OpeningFile path];
        calls := calls w ++ [Dispatch; WorkbooksOpen path false] |}).
Proof.
  intros Hf Hbad. split.
  - rewrite search_string_in_book_run, Hf. cbn zeta.
    unfold scan_book, make_pattern. by rewrite !bind_run, Hbad.
  - unfold replace_string_in_book, attempt, print, call.
    run. rewrite Workbooks_Open_run. cbn [files]. rewrite Hf. run.
    unfold make_pattern. run. rewrite Hbad. run. unfold called. simpl.
    by rewrite <- !app_assoc.
Qed.

Lemma bad_pattern_leaves_workbook_open_witness :
  search_string_in_book demo_path (codes "*") false true demo_world =
    (Raise re_error, called demo_world [Dispatch; WorkbooksOpen demo_path true]).
Proof.
  apply (bad_pattern_leaves_workbook_open sample_reading demo_path (codes "*") [] demo_world
           demo_book);
    reflexivity.
Defined.

Lemma hits_by_ext (f g : pystr -> bool) (ws : sheet) :
  (forall c, c ∈ concat (Rows ws) -> f (cell_text c) = g (cell_text c)) ->
  (forall sh, sh ∈ Shapes ws -> f (Text sh) = g (Text sh)) ->
  hits_by f ws = hits_by g ws.
Proof.
  intros Hc Hs. unfold hits_by. f_equal; f_equal; apply filter_ext_in; intros x Hx;
    [apply Hc | apply Hs]; by apply list_elem_of_In.
Qed.

(** X15: the two exact modes agree where no text ends in a newline
    after the search string: on a workbook in which no cell and no
    shape has the search string followed by a newline as its text, the
    search with [exact_match] returns the same with [use_regex] as
    without. *)
Theorem exact_modes_agree (path ss : pystr) (w : world) (wb : workbook) :
  is_workbook (files w !! path) = Some wb ->
  valid_columns wb ->
  no_text (ss ++ [10]) wb ->
  search_string_in_book path ss true true w = search_string_in_book path ss true false w.
Proof.
  intros Hf Hv Hno.
  rewrite (search_with_pattern path ss true w wb (exact_pattern ss));
    [|assumption..|unfold make_pattern; by rewrite bind_run, compile_exact].
  rewrite search_string_in_book_run, Hf. cbn zeta. rewrite scan_book_literal by assumption.
  cbn [fst]. rewrite called_app. f_equal. f_equal.
  unfold no_text in Hno. clear Hf Hv.
  induction Hno as [|ws l [Hcells Hshapes] _ IH]; [reflexivity|]. cbn [flat_map].
  rewrite IH. f_equal. change (literal_hits ss true ws) with (hits_by (literal_match ss true) ws).
  apply hits_by_ext.
  - intros c Hc. apply elem_of_concat in Hc as (row & Hc & Hrow).
    rewrite Forall_forall in Hcells. specialize (Hcells row Hrow).
    rewrite Forall_forall in Hcells. specialize (Hcells c Hc).
    rewrite search_exact_pattern. unfold literal_match. apply bool_decide_ext. tauto.
  - intros sh Hsh. rewrite Forall_forall in Hshapes. specialize (Hshapes sh Hsh).
    rewrite search_exact_pattern. unfold literal_match. apply bool_decide_ext. tauto.
Qed.

Lemma exact_modes_agree_witness :
  search_string_in_book demo_path (codes "abc") true true demo_world =
  search_string_in_book demo_path (codes "abc") true false demo_world.
Proof.
  apply (exact_modes_agree demo_path (codes "abc") demo_world demo_book).
  - reflexivity.
  - apply (bool_decide_unpack _). vm_compute. exact I.
  - unfold no_text. repeat constructor; discriminate.
Defined.

(** ** More on the size of the grid *)

Lemma float_of_int_world (n : Z) (w w0 : world) (pixels : float) :
  float_of_int n w = (Return pixels, w) -> float_of_int n w0 = (Return pixels, w0).
Proof.
  unfold float_of_int. destruct (is_infinity _); [discriminate|].
  by intros [= <-].
Qed.

Lemma set_grid_size_cases (path sheet_name : pystr) (pixel_size : Z) (w : world) :
  set_grid_size path sheet_name pixel_size w =
  let opened := calls w ++ [Dispatch; WorkbooksOpen path false] in
  match is_workbook (files w !! path) with
  | None =>
      (Return PyEmptyList,
       {| files := files w; stdout := stdout w ++ [GridOpenFailed com_error];
          calls := opened |})
  | Some wb =>
      match find_sheet sheet_name (Sheets wb) with
      | None => (Raise com_error, {| files := files w; stdout := stdout w; calls := opened |})
      | Some ws =>
          let pixels := SF2Prim (binary_normalize 53 1024 pixel_size 0 false) in
          let row_size := PrimFloat.mul pixels 0.75 in
          let col_size := PrimFloat.mul pixels 0.14 in
          let sized_calls :=
            opened ++ [SetRowHeight sheet_name row_size;
                       SetColumnWidth sheet_name col_size; Close true] in
          if is_infinity pixels
          then (Raise OverflowError,
                {| files := files w; stdout := stdout w; calls := opened |})
          else
            match files w !! path with
            | Some {| writable := true |} =>
                (Return PyNone,
                 {| files :=
                      <[path := {| data := Workbook {| Sheets :=
                                     put_sheet sheet_name (sized ws row_size col_size)
                                       (Sheets wb) |};
                                   writable := true |}]> (files w);
                    stdout := stdout w ++ [GridSizeSet sheet_name pixel_size];
                    calls := sized_calls |})
            | _ =>
                (Return PyNone,
                 {| files := files w; stdout := stdout w ++ [GridSaveFailed com_error];
                    calls := sized_calls |})
            end
      end
  end.
Proof.
  cbn zeta. unfold set_grid_size, attempt, print, call.
  run. rewrite Workbooks_Open_run. cbn [files].
  destruct (is_workbook (files w !! path)) as [wb|] eqn:Hf; run;
    [|unfold called; simpl; by rewrite <- ?app_assoc].
  unfold Worksheets. cbn [book]. fold (find_sheet sheet_name (Sheets wb)).
  destruct (find_sheet sheet_name (Sheets wb)) as [ws|] eqn:Hs; run;
    [|unfold called; simpl; by rewrite <- ?app_assoc].
  unfold float_of_int. destruct (is_infinity _) eqn:Hinf; run;
    [unfold called; simpl; by rewrite <- ?app_assoc|].
  unfold Workbook_Close, save_book, read_file, write_file, call. run.
  destruct (files w !! path) as [[c []]|] eqn:Hfile; run;
    unfold called; simpl; by rewrite <- ?app_assoc.
Qed.

(** X16: the ends of [set_grid_size] the source does not guard.  No run
    calls [Quit]: the application started stays.  No file but the
    workbook is touched.  On a workbook without the sheet the run raises
    after the opening, and the workbook is not closed.  On a workbook
    that cannot be written the sizes are set, the failing save is
    printed, the file stays as it was, and the run returns as after a
    save that worked. *)
Theorem set_grid_size_ends (path sheet_name : pystr) (pixel_size : Z) (w : world) :
  let r := set_grid_size path sheet_name pixel_size w in
  (exists tr, calls r.2 = calls w ++ tr /\ Forall (fun c => c <> Quit) tr) /\
  (forall other, other <> path -> files r.2 !! other = files w !! other) /\
  (forall wb,
     is_workbook (files w !! path) = Some wb ->
     find_sheet sheet_name (Sheets wb) = None ->
     r = (Raise com_error, called w [Dispatch; WorkbooksOpen path false])) /\
  (forall wb ws pixels,
     files w !! path = Some {| data := Workbook wb; writable := false |} ->
     find_sheet sheet_name (Sheets wb) = Some ws ->
     float_of_int pixel_size w = (Return pixels, w) ->
     r = (Return PyNone,
          {| files := files w;
             stdout := stdout w ++ [GridSaveFailed com_error];
             calls := calls w ++ [Dispatch; WorkbooksOpen path false;
                                  SetRowHeight sheet_name (PrimFloat.mul pixels 0.75);
                                  SetColumnWidth sheet_name (PrimFloat.mul pixels 0.14);
                                  Close true] |})).
Proof.
  cbn zeta. rewrite set_grid_size_cases. cbn zeta.
  assert (Forall (fun c => c <> Quit) [Dispatch; WorkbooksOpen path false]) as Hopen
    by (repeat constructor; discriminate).
  destruct (is_workbook (files w !! path)) as [wb|] eqn:Hf.
  2:{ split; [eexists; split; [reflexivity | exact Hopen]|]. split; [done|]. split.
      - intros wb H. discriminate H.
      - intros wb ws pixels Hfile. rewrite Hfile in Hf. discriminate Hf. }
  destruct (find_sheet sheet_name (Sheets wb)) as [ws|] eqn:Hs.
  2:{ split; [eexists; split; [reflexivity | exact Hopen]|]. split; [done|]. split.
      - by intros wb' [= <-] _.
      - intros wb' ws' pixels Hfile. rewrite Hfile in Hf. injection Hf as ->. congruence. }
  destruct (is_infinity _) eqn:Hinf.
  { split; [eexists; split; [reflexivity | exact Hopen]|]. split; [done|]. split.
    - intros wb' [= <-] H. congruence.
    - intros wb' ws' pixels _ _. unfold float_of_int. by rewrite Hinf. }
  match goal with |- context [(calls w ++ ?tr0) ++ ?tr1] =>
    assert (Forall (fun c => c <> Quit) (tr0 ++ tr1)) as Hall
      by (repeat constructor; discriminate) end.
  destruct (files w !! path) as [[c []]|] eqn:Hfile.
  - split; [eexists; split; [by rewrite <- app_assoc | exact Hall]|].
    split; [intros other Hne; by apply lookup_insert_ne|]. split.
    + intros wb' [= <-] H. congruence.
    + intros wb' ws' pixels H. discriminate H.
  - split; [eexists; split; [by rewrite <- app_assoc | exact Hall]|].
    split; [done|]. split.
    + intros wb' [= <-] H. congruence.
    + intros wb' ws' pixels [= ->] Hs' Hp. unfold is_workbook in Hf.
      injection Hf as <-. rewrite Hs in Hs'. injection Hs' as <-.
      unfold float_of_int in Hp. rewrite Hinf in Hp. injection Hp as <-.
      by rewrite <- app_assoc.
  - discriminate Hf.
Qed.

Lemma set_grid_size_ends_witness :
  set_grid_size demo_path (codes "Sheet9") 20 demo_world =
    (Raise com_error, called demo_world [Dispatch; WorkbooksOpen demo_path false]) /\
  (set_grid_size demo_path (codes "Sheet1") 20 locked_world).1 = Return PyNone /\
  files (set_grid_size demo_path (codes "Sheet1") 20 locked_world).2 = files locked_world.
Proof.
  destruct (set_grid_size_ends demo_path (codes "Sheet9") 20 demo_world)
    as (_ & _ & Hmissing & _).
  destruct (set_grid_size_ends demo_path (codes "Sheet1") 20 locked_world)
    as (_ & _ & _ & Hlocked).
  split; [apply (Hmissing demo_book); reflexivity|].
  rewrite (Hlocked demo_book demo_sheet1 20%float) by reflexivity. by split.
Defined.

(** ** The replacement and the search, one after the other *)

Lemma replace_scan_skip (old new pre post : pystr) :
  replace_scan old new (pre ++ post) (length pre) = replace_scan old new post 0.
Proof.
  induction pre as [|c pre IH]; [reflexivity|]. exact IH.
Qed.

Lemma replace_scan_same (old s : pystr) :
  old <> [] -> replace_scan old old s 0 = s.
Proof.
  intros Hold. remember (length s) as n eqn:Hn. revert s Hn.
  induction n as [n IH] using lt_wf_ind. intros [|c s] Hn; [reflexivity|].
  cbn [replace_scan]. destruct (startswith old (c :: s)) eqn:Hs.
  - apply startswith_spec in Hs as [post Hpost].
    destruct old as [|o old]; [done|]. injection Hpost as -> ->.
    replace (length (o :: old) - 1)%nat with (length old) by (simpl; lia).
    rewrite replace_scan_skip.
    rewrite (IH (length post)); [reflexivity | | reflexivity].
    subst n. cbn [length]. rewrite length_app. lia.
  - f_equal. apply (IH (length s)); [subst n; simpl; lia | reflexivity].
Qed.

Lemma replace_same (s old : pystr) : replace s old old = s.
Proof.
  destruct old as [|o old]; [|by apply replace_scan_same].
  unfold replace. cbn [app]. induction s as [|c s IH]; [reflexivity|].
  cbn [flat_map app]. by rewrite IH.
Qed.

Lemma literal_new_same (ss : pystr) (em : bool) (text : pystr) :
  literal_new ss ss em text = text.
Proof.
  unfold literal_new. destruct em.
  - case_bool_decide; congruence.
  - destruct (contains ss text); [apply replace_same | reflexivity].
Qed.

(** X17: replacing a string by itself changes nothing.  Without
    [use_regex], with the replacement string equal to the search
    string, the run on a writable workbook returns no record, makes no
    write on a cell or a shape, and saves the workbook as it was. *)
Theorem replace_by_itself (entered : reading) (path ss : pystr) (em : bool) (w : world)
    (wb : workbook) :
  files w !! path = Some {| data := Workbook wb; writable := true |} ->
  valid_columns wb ->
  exists w',
    replace_string_in_book entered path ss ss em false w = (Return [], w') /\
    calls w' = calls w ++ [Dispatch; WorkbooksOpen path false; Save; Close false; Quit] /\
    files w' = files w.
Proof.
  intros Hf Hv. eexists. rewrite (replace_string_in_book_literal entered ss ss em path w wb)
    by done.
  assert (forall c, cell_changed ss ss em c = false) as Hc.
  { intros c. unfold cell_changed. rewrite literal_new_same.
    by apply bool_decide_eq_false_2; intros []. }
  assert (forall sh, shape_changed ss ss em sh = false) as Hsh.
  { intros sh. unfold shape_changed. rewrite literal_new_same.
    by apply bool_decide_eq_false_2; intros []. }
  assert (forall ws, sheet_changes ss ss em ws = [] /\ sheet_writes ss ss em ws = [] /\
                     sheet_after entered ss ss em ws = ws) as Hws.
  { intros ws. unfold sheet_changes, sheet_writes, sheet_after.
    rewrite !filter_none by auto. split; [done|]. split; [done|].
    rewrite !map_id_on; [by destruct ws|..].
    - intros sh _. unfold shape_after. by rewrite Hsh.
    - intros row _. apply map_id_on. intros c _. unfold cell_after. by rewrite Hc. }
  assert (flat_map (sheet_changes ss ss em) (Sheets wb) = [] /\
          flat_map (sheet_writes ss ss em) (Sheets wb) = [] /\
          map (sheet_after entered ss ss em) (Sheets wb) = Sheets wb) as (-> & -> & ->).
  { induction (Sheets wb) as [|ws l (IH1 & IH2 & IH3)]; [done|]. cbn [flat_map map].
    destruct (Hws ws) as (-> & -> & ->). by rewrite IH1, IH2, IH3. }
  split; [reflexivity|]. cbn [calls files]. split; [reflexivity|].
  apply insert_id. rewrite Hf. by destruct wb.
Qed.

Lemma replace_by_itself_witness :
  (replace_string_in_book sample_reading demo_path (codes "o") (codes "o") false false
     demo_world).1
  = Return [].
Proof.
  destruct (replace_by_itself sample_reading demo_path (codes "o") false demo_world
              demo_book)
    as (w' & H & _).
  - reflexivity.
  - apply (bool_decide_unpack _). vm_compute. exact I.
  - by rewrite H.
Defined.

Lemma map_filter_sublist {A B} (f g : A -> bool) (h k : A -> B) (l : list A) :
  (forall x, f x = true -> g x = true /\ h x = k x) ->
  map h (List.filter f l) `sublist_of` map k (List.filter g l).
Proof.
  intros Hfg. induction l as [|x l IH]; simpl; [constructor|].
  destruct (f x) eqn:Hf.
  - destruct (Hfg x Hf) as [-> Hhk]. simpl. rewrite Hhk. by constructor.
  - destruct (g x); [by constructor | exact IH].
Qed.

Lemma filter_map {A B} (f : B -> bool) (h : A -> B) (l : list A) :
  List.filter f (map h l) = map h (List.filter (fun x => f (h x)) l).
Proof.
  induction l as [|x l IH]; simpl; [reflexivity|]. rewrite IH. by destruct (f (h x)).
Qed.

Lemma sheet_exact_then_search (entered : reading) (ss rs : pystr) (ws : sheet) :
  kept_as_text entered rs ->
  map forget_old (sheet_changes ss rs true ws)
    `sublist_of` literal_hits rs true (sheet_after entered ss rs true ws) /\
  (rs <> ss -> literal_hits ss true (sheet_after entered ss rs true ws) = []).
Proof.
  intros Hkept. unfold literal_hits, sheet_changes. cbn [sheet_after Name Rows Shapes]. split.
  - rewrite map_app, !map_map, <- concat_map, !filter_map, !map_map.
    apply sublist_app; apply map_filter_sublist.
    + intros c Hc. apply bool_decide_eq_true in Hc. apply exact_new_is_rs in Hc as Hrs.
      unfold literal_match. rewrite cell_text_after by exact Hkept.
      split; [by apply bool_decide_eq_true|].
      unfold forget_old, cell_change, cell_hit. cbn [fst snd].
      rewrite cell_text_after by exact Hkept. unfold cell_after.
      by destruct (cell_changed ss rs true c).
    + intros sh Hsh. apply bool_decide_eq_true in Hsh. apply exact_new_is_rs in Hsh as Hrs.
      unfold literal_match. rewrite Text_after. split; [by apply bool_decide_eq_true|].
      unfold forget_old, shape_change, shape_hit. cbn [fst snd].
      rewrite Text_after. unfold shape_after.
      by destruct (shape_changed ss rs true sh).
  - intros Hne. rewrite <- concat_map, !filter_map, !filter_none; [reflexivity|..].
    + intros sh _. unfold literal_match. rewrite Text_after.
      by apply bool_decide_eq_false_2, exact_new_not_ss.
    + intros c _. unfold literal_match. rewrite cell_text_after by exact Hkept.
      by apply bool_decide_eq_false_2, exact_new_not_ss.
Qed.

(** X18: the replacement with [exact_match] and without [use_regex],
    then the search.  After a run on a writable workbook with a
    replacement string other than the search string, which reads back
    as it was assigned, the exact search for the search string finds
    nothing in the saved workbook, and the exact search for the
    replacement string finds every object of the records of the
    replacement, in their order, with the new text. *)
Theorem replace_exact_then_search (entered : reading) (path ss rs : pystr) (w : world)
    (wb : workbook) :
  files w !! path = Some {| data := Workbook wb; writable := true |} ->
  valid_columns wb ->
  kept_as_text entered rs ->
  rs <> ss ->
  exists changes w1 hits,
    replace_string_in_book entered path ss rs true false w = (Return changes, w1) /\
    (search_string_in_book path ss true false w1).1 = Return [] /\
    (search_string_in_book path rs true false w1).1 = Return hits /\
    map forget_old changes `sublist_of` hits.
Proof.
  intros Hf Hv Hkept Hne. eexists _, _, _.
  split; [by apply replace_string_in_book_literal|].
  pose proof (valid_columns_after entered ss rs true wb Hv) as Hv1.
  rewrite !search_string_in_book_run. unfold is_workbook. cbn [files].
  rewrite lookup_insert_eq. cbn zeta. cbn [data].
  rewrite !scan_book_literal by assumption. cbn [fst Sheets].
  split; [|split; [reflexivity|]].
  - f_equal. clear Hf Hv Hv1. induction (Sheets wb) as [|ws l IH]; [reflexivity|].
    cbn [map flat_map]. rewrite IH.
    by destruct (sheet_exact_then_search entered ss rs ws Hkept) as [_ ->].
  - clear Hf Hv Hv1. induction (Sheets wb) as [|ws l IH]; [constructor|].
    cbn [map flat_map]. rewrite map_app. apply sublist_app; [|exact IH].
    by apply sheet_exact_then_search.
Qed.

Lemma replace_exact_then_search_witness :
  exists w1,
    replace_string_in_book sample_reading demo_path (codes "abc") (codes "ABC") true false
      demo_world =
      (Return [(codes "Sheet1", codes "B2", codes "abc", codes "ABC")], w1) /\
    (search_string_in_book demo_path (codes "abc") true false w1).1 = Return [] /\
    (search_string_in_book demo_path (codes "ABC") true false w1).1 =
      Return [(codes "Sheet1", codes "B2", codes "ABC")].
Proof.
  destruct (replace_exact_then_search sample_reading demo_path (codes "abc") (codes "ABC")
              demo_world demo_book) as (changes & w1 & hits & H1 & H2 & H3 & _).
  - reflexivity.
  - apply (bool_decide_unpack _). vm_compute. exact I.
  - intros sn c. reflexivity.
  - vm_compute. congruence.
  - exists w1. rewrite H1 in *.
    assert ((replace_string_in_book sample_reading demo_path (codes "abc") (codes "ABC")
               true false demo_world) = (Return changes, w1)) as H by exact H1.
    vm_compute in H. injection H as <- <-. split; [reflexivity|]. split; vm_compute; reflexivity.
Defined.

(** Where the reading does not keep the replacement string the search
    for it can come back empty: under the sample reading, after [12] was
    put for [12.0], the cell reads [12.0] and the exact search for [12]
    finds nothing, while the search for [12.0] finds the cell again. *)
Lemma replace_exact_then_search_number :
  exists w1,
    replace_string_in_book sample_reading demo_path (codes "12.0") (codes "12") true false
      demo_world =
      (Return [(codes "data", codes "B1", codes "12.0", codes "12")], w1) /\
    (search_string_in_book demo_path (codes "12") true false w1).1 = Return [] /\
    (search_string_in_book demo_path (codes "12.0") true false w1).1 =
      Return [(codes "data", codes "B1", codes "12.0")].
Proof. eexists. split; [vm_compute; reflexivity|]. split; vm_compute; reflexivity. Qed.

(** ** The labels of the records *)

Lemma codes_inj (s t : string) : codes s = codes t -> s = t.
Proof.
  unfold codes. intros H.
  rewrite <- (string_of_list_ascii_of_string s), <- (string_of_list_ascii_of_string t).
  f_equal. revert H. generalize (list_ascii_of_string s) (list_ascii_of_string t).
  induction l as [|a l IH]; intros [|b k] H; try discriminate; [reflexivity|].
  injection H as Hab Hlk. f_equal; [|by apply IH].
  apply N2Z.inj in Hab. by rewrite <- (ascii_N_embedding a), Hab, ascii_N_embedding.
Qed.

Lemma to_int_not_nil (n : Z) : Z.to_int n <> Decimal.Pos Decimal.Nil /\
                               Z.to_int n <> Decimal.Neg Decimal.Nil.
Proof.
  assert (Z.to_int n = Decimal.norm (Z.to_int n)) as ->
    by (rewrite <- DecimalZ.to_of; f_equal; symmetry; apply DecimalZ.of_to).
  destruct (Z.to_int n) as [d|d]; cbn [Decimal.norm]; unfold Decimal.unorm;
    split; destruct (Decimal.nzhead d); discriminate.
Qed.

Lemma str_of_int_inj (n m : Z) : str_of_int n = str_of_int m -> n = m.
Proof.
  unfold str_of_int. intros H. apply codes_inj in H.
  destruct (to_int_not_nil n) as [Hn1 Hn2]. destruct (to_int_not_nil m) as [Hm1 Hm2].
  apply DecimalZ.to_int_inj.
  pose proof (NilZero.isi _ Hn1 Hn2) as H1. pose proof (NilZero.isi _ Hm1 Hm2) as H2.
  rewrite H in H1. congruence.
Qed.

Lemma list_filter_sublist {A} (f : A -> bool) (l : list A) : List.filter f l `sublist_of` l.
Proof.
  induction l as [|x l IH]; simpl; [constructor|]. destruct (f x); by constructor.
Qed.

Lemma hits_by_places (f : pystr -> bool) (ws : sheet) :
  Forall (Forall valid_column) (Rows ws) ->
  NoDup (map (fun c => (Row c, Column c)) (concat (Rows ws))) ->
  NoDup (map shape_Name (Shapes ws)) ->
  NoDup (map fst (hits_by f ws)) /\
  Forall (fun h => h.1.1 = Name ws) (hits_by f ws).
Proof.
  intros Hv Hcells Hshapes. unfold hits_by. split.
  - rewrite map_app, !map_map. cbn [cell_hit shape_hit fst]. apply NoDup_app.
    split; [|split].
    + rewrite <- (map_map (fun c => (Row c, Column c))
                          (fun p : Z * Z => (Name ws, (p.2 + 64) :: str_of_int p.1))).
      apply NoDup_fmap_2.
      * intros [r1 c1] [r2 c2] [= Hcol Hrow]. apply str_of_int_inj in Hrow.
        f_equal; [done | lia].
      * eapply sublist_NoDup; [exact Hcells|]. apply map_sublist, list_filter_sublist.
    + intros x Hc Hs. apply list_elem_of_fmap in Hc as (c & -> & Hc).
      apply list_elem_of_fmap in Hs as (sh & [= Hlabel] & _).
      apply list_elem_of_In, filter_In in Hc as [Hc _]. apply list_elem_of_In in Hc.
      apply elem_of_concat in Hc as (row & Hc & Hrow).
      rewrite Forall_forall in Hv. specialize (Hv row Hrow).
      rewrite Forall_forall in Hv. specialize (Hv c Hc).
      unfold valid_column, last_column in Hv. lia.
    + rewrite <- (map_map shape_Name (fun n : pystr => (Name ws, shape_label n))).
      apply NoDup_fmap_2.
      * intros n1 n2 [= H]. done.
      * eapply sublist_NoDup; [exact Hshapes|]. apply map_sublist, list_filter_sublist.
  - apply Forall_app. split; apply Forall_fmap, Forall_forall; by intros.
Qed.

Lemma search_results_by (path ss : pystr) (em re : bool) (w : world) (wb : workbook)
    (results : list hit) :
  is_workbook (files w !! path) = Some wb ->
  valid_columns wb ->
  (search_string_in_book path ss em re w).1 = Return results ->
  exists f, results = flat_map (hits_by f) (Sheets wb).
Proof.
  intros Hf Hv. rewrite search_string_in_book_run, Hf. cbn zeta. destruct re.
  - unfold scan_book. rewrite bind_run.
    set (w' := called w _).
    destruct (make_pattern ss em true w') as [[p|e|] w1] eqn:Hp; try discriminate.
    assert (exists pat, p = Some pat) as [pat ->].
    { unfold make_pattern in Hp. destruct em; rewrite bind_run in Hp;
        destruct (Re.compile _); simpl in Hp; try discriminate;
        injection Hp as <- _; eauto. }
    rewrite search_sheets_regex by assumption. cbn [fst app]. intros [= <-]. eauto.
  - rewrite scan_book_literal by assumption. cbn [fst]. intros [= <-].
    by exists (literal_match ss em).
Qed.

(** X19: the records of a search tell the objects apart.  On a
    workbook whose sheets have distinct names and in whose sheets the
    cells have distinct positions and the shapes distinct names, no two
    records that a search returns have the same sheet name and the same
    label, in every mode and also for the columns after [Z]: the label
    of a cell is the character of its column and its row in decimal,
    and the label of a shape starts with a character no column has. *)
Theorem search_records_distinct (path ss : pystr) (em re : bool) (w : world)
    (wb : workbook) (results : list hit) :
  is_workbook (files w !! path) = Some wb ->
  valid_columns wb ->
  distinct_objects wb ->
  (search_string_in_book path ss em re w).1 = Return results ->
  NoDup (map fst results).
Proof.
  intros Hf Hv [Hnames Hobj] Hr.
  destruct (search_results_by path ss em re w wb results Hf Hv Hr) as [f ->].
  clear Hf Hr. unfold valid_columns, sheetnames in *.
  induction (Sheets wb) as [|ws l IH]; [constructor|].
  apply Forall_cons in Hv as [Hv Hvl]. apply Forall_cons in Hobj as [[Hc Hs] Hobjl].
  cbn [map] in Hnames. apply NoDup_cons in Hnames as [Hws Hnames].
  destruct (hits_by_places f ws Hv Hc Hs) as [Hnd Hsn].
  cbn [flat_map]. rewrite map_app. apply NoDup_app. split; [exact Hnd|].
  split; [|by apply IH].
  intros x Hx Hl. apply list_elem_of_fmap in Hx as (h & -> & Hh).
  rewrite Forall_forall in Hsn. specialize (Hsn h Hh).
  apply list_elem_of_fmap in Hl as (h' & Heq & Hh').
  apply list_elem_of_In, in_flat_map in Hh' as (ws' & Hws' & Hh').
  rewrite Forall_forall in Hvl, Hobjl. apply list_elem_of_In in Hws'.
  destruct (Hobjl ws' Hws') as [Hc' Hs'].
  destruct (hits_by_places f ws' (Hvl ws' Hws') Hc' Hs') as [_ Hsn'].
  rewrite Forall_forall in Hsn'. apply list_elem_of_In in Hh'. specialize (Hsn' h' Hh').
  apply Hws. rewrite <- Hsn, Heq, Hsn'. by apply list_elem_of_fmap_2.
Qed.

Lemma search_records_distinct_witness :
  exists results,
    (search_string_in_book demo_path (codes "o") false false demo_world).1 = Return results /\
    NoDup (map fst results).
Proof.
  eexists. split; [vm_compute; reflexivity|].
  apply (search_records_distinct demo_path (codes "o") false false demo_world demo_book).
  - reflexivity.
  - apply (bool_decide_unpack _). vm_compute. exact I.
  - split; [|repeat apply Forall_cons_2; try apply Forall_nil_2; split];
      apply (bool_decide_unpack _); vm_compute; exact I.
  - vm_compute. reflexivity.
Defined.

(** ** The export that does not happen *)

Lemma library_values_no_raise (row : list cell) (vs : list variant) (w : world) (e : exn) :
  (for_each (fun c vs => v ← library_value c; mret (vs ++ [v])) row vs w).1 <> Raise e.
Proof.
  revert vs. induction row as [|c row IH]; intros vs; cbn [for_each]; [done|].
  rewrite !bind_run. unfold library_value. destruct (Value c); try done; apply IH.
Qed.

Lemma write_rows_no_raise (path : pystr) (rows : list (list cell)) (w : world) (e : exn) :
  (for_each
     (fun row _ =>
        values ← for_each (fun c vs => v ← library_value c; mret (vs ++ [v])) row [];
        writerow path values)
     rows tt w).1 <> Raise e.
Proof.
  revert w. induction rows as [|row rows IH]; intros w; cbn [for_each]; [done|].
  rewrite !bind_run. pose proof (fun e' => library_values_no_raise row [] w e') as Hrow.
  destruct (for_each _ row [] w) as [[values|e'|] w1]; cbn [fst] in *;
    [|by destruct (Hrow e')|done].
  unfold writerow, read_file, write_file. rewrite bind_run.
  destruct (files w1 !! path) as [[[] ?]|]; solve [done | apply IH].
Qed.

(** X20: the tests of [convert_csv] come before the CSV file is
    opened.  When the workbook does not load, when it has no sheet of
    the name, and when the CSV path cannot be opened for writing (no
    place for it, or no permission), the run raises and the world is as
    before: a file at the CSV path is not emptied.  No run raises
    [KeyError]: the lookup of the sheet comes after the test of the
    name. *)
Theorem convert_csv_tests_first (path sheet_name csv_path : pystr) (w : world) :
  let r := convert_csv path sheet_name csv_path w in
  (forall e, load_workbook path w = (Raise e, w) -> r = (Raise e, w)) /\
  (forall wb, is_workbook (files w !! path) = Some wb -> sheet_name ∉ sheetnames wb ->
     r = (Raise (ValueError (no_such_sheet sheet_name)), w)) /\
  (forall wb, is_workbook (files w !! path) = Some wb -> sheet_name ∈ sheetnames wb ->
     (files w !! csv_path = None -> r = (Raise FileNotFoundError, w)) /\
     (forall d, files w !! csv_path = Some {| data := d; writable := false |} ->
        r = (Raise PermissionError, w))) /\
  (forall key, r.1 <> Raise (KeyError key)).
Proof.
  cbn zeta. unfold convert_csv. rewrite bind_run, load_workbook_run.
  destruct (files w !! path) as [[[wb| | |] ?]|] eqn:Hfile; cbn [fst snd];
    try (split; [by intros e [= <-]|]; split; [intros wb0 [=]|]; split; [intros wb0 [=]|done]).
  split; [intros e [=]|]. rewrite sheetnames_read_workbook.
  case_bool_decide as Hs.
  - destruct (find_sheet_elem _ _ Hs) as [ws Hfind].
    rewrite bind_run, getitem_run. cbn [read_workbook Sheets].
    rewrite find_sheet_read, Hfind. cbn [option_map].
    rewrite bind_run, open_w_run, store_run.
    split; [intros wb0 [= <-] Hno; done|]. split.
    + intros wb0 _ _. split.
      * by intros ->.
      * by intros d ->.
    + intros key. destruct (files w !! csv_path) as [[d []]|]; cbn [fst writable]; try done.
      apply write_rows_no_raise.
  - split; [done|]. split; [|done]. intros wb0 [= <-] Hin. done.
Qed.

Lemma convert_csv_tests_first_witness :
  convert_csv demo_path (codes "Sheet9") demo_path demo_world =
    (Raise (ValueError (no_such_sheet (codes "Sheet9"))), demo_world) /\
  convert_csv demo_path (codes "Sheet1") export_path demo_world =
    (Raise FileNotFoundError, demo_world) /\
  convert_csv missing_path (codes "Sheet1") export_path export_world =
    (Raise FileNotFoundError, export_world).
Proof.
  destruct (convert_csv_tests_first demo_path (codes "Sheet9") demo_path demo_world)
    as (_ & Hsheet & _).
  destruct (convert_csv_tests_first demo_path (codes "Sheet1") export_path demo_world)
    as (_ & _ & Hopen & _).
  destruct (convert_csv_tests_first missing_path (codes "Sheet1") export_path export_world)
    as (Hload & _).
  split; [|split].
  - apply (Hsheet demo_book); [reflexivity|].
    apply (bool_decide_unpack _). vm_compute. exact I.
  - apply (Hopen demo_book); [reflexivity | | reflexivity].
    apply (bool_decide_unpack _). vm_compute. exact I.
  - apply Hload. reflexivity.
Defined.

(** ** The label of a cell, on the runs (C6) *)

Lemma elem_of_flat_map {A B} (f : A -> list B) (l : list A) (a : A) (x : B) :
  a ∈ l -> x ∈ f a -> x ∈ flat_map f l.
Proof.
  rewrite !list_elem_of_In. intros Ha Hx. apply in_flat_map. eauto.
Qed.

Lemma cell_hit_found (ss : pystr) (em : bool) (ws : sheet) (c : cell) :
  c ∈ concat (Rows ws) -> literal_match ss em (cell_text c) = true ->
  cell_hit (Name ws) c ∈ literal_hits ss em ws.
Proof.
  intros Hc Hm. unfold literal_hits. apply elem_of_app. left.
  apply list_elem_of_fmap_2, list_elem_of_In, filter_In.
  split; [by apply list_elem_of_In | exact Hm].
Qed.

Lemma cell_change_recorded (ss rs : pystr) (em : bool) (ws : sheet) (c : cell) :
  c ∈ concat (Rows ws) -> literal_new ss rs em (cell_text c) <> cell_text c ->
  cell_change ss rs em (Name ws) c ∈ sheet_changes ss rs em ws.
Proof.
  intros Hc Hm. unfold sheet_changes. apply elem_of_app. left.
  apply list_elem_of_fmap_2, list_elem_of_In, filter_In.
  split; [by apply list_elem_of_In | by apply bool_decide_eq_true].
Qed.

(** C6: in the records of the search and of the replacement the label
    of a cell is the one character [chr(column + 64)] followed by the
    row number in decimal: for every cell the search takes and every
    cell the replacement changes, in the bodies of the loops and in the
    results of the whole runs.  For the columns 1 to 26 that character
    is the letter of the column; for every column after 26 (up to the
    last column of a sheet) it is one character that is no letter from A
    to Z, where the column reference has two letters or more. *)
Theorem cell_label_single_character (entered : reading) (c : cell) (w : world) :
  valid_column c ->
  let label := (Column c + 64) :: str_of_int (Row c) in
  (forall sn ss em p rs,
     literal_match ss em (cell_text c) = true ->
     search_cell sn ss em false p c rs w = (Return (rs ++ [(sn, label, cell_text c)]), w)) /\
  (forall sn ss em pat rs,
     Re.search pat (cell_text c) = true ->
     search_cell sn ss em true (Some pat) c rs w =
       (Return (rs ++ [(sn, label, cell_text c)]), w)) /\
  (forall sn ss rs em re p results new_value,
     (new_text ss rs em re p (cell_text c) w).1 = Return new_value ->
     new_value <> cell_text c ->
     (replace_cell entered sn ss rs em re p c results w).1 =
       Return (set_value entered sn c new_value,
               results ++ [(sn, label, cell_text c, new_value)])) /\
  (forall path wb ws ss em,
     is_workbook (files w !! path) = Some wb -> valid_columns wb ->
     ws ∈ Sheets wb -> c ∈ concat (Rows ws) ->
     literal_match ss em (cell_text c) = true ->
     exists results,
       (search_string_in_book path ss em false w).1 = Return results /\
       (Name ws, label, cell_text c) ∈ results) /\
  (forall path wb ws ss rs em,
     files w !! path = Some {| data := Workbook wb; writable := true |} ->
     valid_columns wb ->
     ws ∈ Sheets wb -> c ∈ concat (Rows ws) ->
     literal_new ss rs em (cell_text c) <> cell_text c ->
     exists results,
       (replace_string_in_book entered path ss rs em false w).1 = Return results /\
       (Name ws, label, cell_text c, literal_new ss rs em (cell_text c)) ∈ results) /\
  (Column c <= 26 -> [Column c + 64] = column_reference (Column c)) /\
  (26 < Column c ->
   ~ (65 <= Column c + 64 <= 90) /\
   (2 <= length (column_reference (Column c)))%nat /\
   [Column c + 64] <> column_reference (Column c)).
Proof.
  intros Hc label. split; [|split; [|split; [|split; [|split; [|split]]]]].
  - intros sn ss em p rs Hm. by rewrite search_cell_literal, Hm.
  - intros sn ss em pat rs Hm. by rewrite search_cell_regex, Hm.
  - intros sn ss rs em re p results new_value Hnew Hne.
    rewrite (replace_cell_run _ _ _ _ _ _ _ _ _ new_value) by assumption.
    rewrite bool_decide_eq_true_2 by assumption. reflexivity.
  - intros path wb ws ss em Hf Hv Hws Hin Hm. eexists. split.
    + rewrite search_string_in_book_run, Hf. cbn zeta.
      by rewrite scan_book_literal.
    + apply (elem_of_flat_map _ _ ws); [exact Hws|]. by apply cell_hit_found.
  - intros path wb ws ss rs em Hf Hv Hws Hin Hm. eexists. split.
    + by rewrite (replace_string_in_book_literal entered ss rs em path w wb).
    + apply (elem_of_flat_map _ _ ws); [exact Hws|]. by apply cell_change_recorded.
  - intros Hle. symmetry. apply column_reference_letter.
    unfold valid_column in Hc. lia.
  - intros Hgt. pose proof (column_reference_long _ Hgt) as Hlen.
    split; [lia|]. split; [exact Hlen|].
    intros Heq. rewrite <- Heq in Hlen. simpl in Hlen. lia.
Qed.

Lemma cell_label_single_character_witness :
  (search_string_in_book demo_path (codes "x") false false wide_world).1 =
    Return [(codes "Wide", codes "Z3", codes "x"); (codes "Wide", 91 :: codes "3", codes "x")] /\
  (exists results,
     (search_string_in_book demo_path (codes "x") true false wide_world).1 = Return results /\
     (codes "Wide", 91 :: codes "3", codes "x") ∈ results) /\
  (replace_string_in_book sample_reading demo_path (codes "x") (codes "y") false false
     wide_world).1 =
    Return [(codes "Wide", codes "Z3", codes "x", codes "y");
            (codes "Wide", 91 :: codes "3", codes "x", codes "y")] /\
  column_reference 27 = codes "AA".
Proof.
  destruct (cell_label_single_character sample_reading (text_cell 3 27 "x") wide_world)
    as (_ & _ & _ & Hsearch & _).
  - vm_compute. split; discriminate.
  - split; [vm_compute; reflexivity|]. split; [|split; vm_compute; reflexivity].
    destruct (Hsearch demo_path wide_book
                {| Name := codes "Wide";
                   Rows := [[text_cell 3 26 "x"; text_cell 3 27 "x"]];
                   Shapes := []; RowHeight := None; ColumnWidth := None |}
                (codes "x") true) as (results & Hr & Hin).
    + reflexivity.
    + apply (bool_decide_unpack _). vm_compute. exact I.
    + apply list_elem_of_here.
    + cbn [Rows concat app]. apply list_elem_of_further, list_elem_of_here.
    + reflexivity.
    + exists results. split; [exact Hr | exact Hin].
Defined.

(** ** A workbook that cannot be opened, on all operations (C2) *)

Lemma book_changes_hits (ss rs : pystr) (em : bool) (l : list sheet) :
  map forget_new (flat_map (sheet_changes ss rs em) l)
    `sublist_of` flat_map (literal_hits ss em) l.
Proof.
  induction l as [|ws l IH]; [constructor|]. cbn [flat_map]. rewrite map_app.
  apply sublist_app; [apply sheet_changes_hits | exact IH].
Qed.

(** C2: when the workbook cannot be opened, [replace_string_in_book] and
    [set_grid_size] catch the failure, print it and return an empty
    list: nothing is raised, no file is touched and no further call is
    made.  The result of the replacement is then the result of a run on
    a workbook in which the search finds nothing.  The operations on the
    library hand the failure of [load_workbook] on to the caller:
    [get_sheets_name], [sort_sheet] (once the order is accepted),
    [convert_csv] and [change_font] raise it and leave the world as it
    is. *)
Theorem open_failure_handling (entered : reading) (path : pystr) (w : world) :
  is_workbook (files w !! path) = None ->
  (forall ss rs em re,
     replace_string_in_book entered path ss rs em re w =
       (Return [],
        {| files := files w;
           stdout := stdout w ++ [OpeningFile path; FailedToOpenFile com_error];
           calls := calls w ++ [Dispatch; WorkbooksOpen path false] |})) /\
  (forall sheet_name pixel_size,
     set_grid_size path sheet_name pixel_size w =
       (Return PyEmptyList,
        {| files := files w;
           stdout := stdout w ++ [GridOpenFailed com_error];
           calls := calls w ++ [Dispatch; WorkbooksOpen path false] |})) /\
  (forall other wb ss rs em,
     files w !! other = Some {| data := Workbook wb; writable := true |} ->
     valid_columns wb ->
     (search_string_in_book other ss em false w).1 = Return [] ->
     (replace_string_in_book entered other ss rs em false w).1 =
     (replace_string_in_book entered path ss rs em false w).1) /\
  (exists e,
     load_workbook path w = (Raise e, w) /\
     get_sheets_name path w = (Raise e, w) /\
     (forall order, lower order ∈ [codes "asc"; codes "desc"] ->
        sort_sheet path order w = (Raise e, w)) /\
     (forall sheet_name csv_path, convert_csv path sheet_name csv_path w = (Raise e, w)) /\
     (forall sheet_name font_name, change_font path sheet_name font_name w = (Raise e, w))).
Proof.
  intros Hf. split; [|split; [|split]].
  - intros ss rs em re. by apply replace_string_in_book_open_failure.
  - intros sheet_name pixel_size. by apply set_grid_size_open_failure.
  - intros other wb ss rs em Ho Hv Hnone.
    rewrite (replace_string_in_book_open_failure entered path) by exact Hf.
    rewrite (replace_string_in_book_literal entered ss rs em other w wb) by assumption.
    rewrite search_string_in_book_run in Hnone. unfold is_workbook in Hnone.
    rewrite Ho in Hnone. cbn zeta in Hnone. rewrite scan_book_literal in Hnone by exact Hv.
    cbn [fst] in *. injection Hnone as Hnone.
    pose proof (book_changes_hits ss rs em (Sheets wb)) as Hsub.
    rewrite Hnone in Hsub. apply sublist_nil_r in Hsub.
    apply map_eq_nil in Hsub. by rewrite Hsub.
  - destruct (load_workbook_failure path w Hf) as [e He]. exists e.
    split; [exact He|]. split; [|split; [|split]].
    + unfold get_sheets_name. by rewrite bind_run, He.
    + intros order Ho. rewrite sort_sheet_run, He. by rewrite bool_decide_eq_true_2.
    + intros sheet_name csv_path. unfold convert_csv. by rewrite bind_run, He.
    + intros sheet_name font_name. unfold change_font. by rewrite bind_run, He.
Qed.

Lemma open_failure_handling_witness :
  replace_string_in_book sample_reading missing_path (codes "foo") (codes "bar") false false
    demo_world =
    (Return [],
     {| files := files demo_world;
        stdout := [OpeningFile missing_path; FailedToOpenFile com_error];
        calls := [Dispatch; WorkbooksOpen missing_path false] |}) /\
  (set_grid_size missing_path (codes "Sheet1") 20 demo_world).1 = Return PyEmptyList /\
  (replace_string_in_book sample_reading demo_path (codes "qqq") (codes "r") false false
     demo_world).1 =
  (replace_string_in_book sample_reading missing_path (codes "qqq") (codes "r") false false
     demo_world).1 /\
  change_font missing_path (codes "Sheet1") (codes "Meiryo UI") demo_world =
    (Raise FileNotFoundError, demo_world).
Proof.
  destruct (open_failure_handling sample_reading missing_path demo_world)
    as (Hreplace & Hgrid & Hsame & e & Hload & _ & _ & _ & Hfont).
  - reflexivity.
  - split; [apply Hreplace|]. split; [by rewrite Hgrid|]. split.
    + apply (Hsame demo_path demo_book); [reflexivity | | vm_compute; reflexivity].
      apply (bool_decide_unpack _). vm_compute. exact I.
    + rewrite Hfont. vm_compute in Hload. by injection Hload as <-.
Defined.

